(** * MedMNIST3D/train_and_eval_pytorch.py: the training and evaluation driver

    A shallow embedding of [main], [train] and [test].

    - Python floats are modelled as exact rationals ([Q]): rounding and NaN
      are outside the model.  Python ints are [Z].
    - torch, medmnist and tensorboardX are external collaborators: their
      operations are the fields of the class [Torch]; their calls are
      assumed to return, except checkpoint loading, which can fail.
      [Raising.test] is [test] over an evaluator that can raise as well.
    - The driver is written in a monad that threads the module-level
      global [iteration], collects the trace of calls made on the
      collaborators, and propagates Python exceptions.  Console output is
      not traced. *)

From Stdlib Require Import List ZArith QArith Ascii String Bool Lia Lqa.
Import ListNotations.

Local Open Scope string_scope.
Local Open Scope list_scope.
Local Open Scope Z_scope.

(** ** Python runtime *)

Inductive exn : Set :=
| ZeroDivisionError
| NameError
| FileNotFoundError
| RuntimeError
| IndexError.

Inductive result (A : Type) : Type :=
| Ok (a : A)
| Raise (e : exn).

Arguments Ok {A} a.
Arguments Raise {A} e.

(** [range(n)], also what [trange(n)] iterates over: empty when [n <= 0]. *)
Definition range (n : Z) : list Z := map Z.of_nat (seq 0 (Z.to_nat n)).

(** [sum(l)]: left to right, from the integer 0. *)
Definition py_sum (l : list Q) : Q := fold_left Qplus l 0%Q.

(** [len(l)]. *)
Definition len {A : Type} (l : list A) : Z := Z.of_nat (List.length l).

(** [x / n] for a float (or the int 0) [x] and an int [n]. *)
Definition truediv (x : Q) (n : Z) : result Q :=
  if n =? 0 then Raise ZeroDivisionError else Ok (x / inject_Z n)%Q.

(** [x > y] on floats. *)
Definition Qgtb (x y : Q) : bool := negb (Qle_bool x y).

(** [os.path.join(a, b)] of posixpath. *)
Definition endswith_sep (a : string) : bool :=
  match String.get (String.length a - 1)%nat a with
  | Some c => Ascii.eqb c "/"%char
  | None => false
  end.

Definition path_join (a b : string) : string :=
  if String.prefix "/" b then b
  else if ((String.length a =? 0)%nat || endswith_sep a)%bool
  then (a ++ b)%string
  else (a ++ "/" ++ b)%string.

(** An [OrderedDict] with string keys: assignment to a present key keeps
    its position, assignment to a new key appends. *)
Fixpoint dict_set {V : Type} (d : list (string * V)) (k : string) (v : V)
  : list (string * V) :=
  match d with
  | [] => [(k, v)]
  | (k', v') :: d' =>
      if String.eqb k' k then (k', v) :: d' else (k', v') :: dict_set d' k v
  end.

(** [OrderedDict.fromkeys(keys, v)]. *)
Definition fromkeys {V : Type} (keys : list string) (v : V)
  : list (string * V) :=
  fold_left (fun d k => dict_set d k v) keys [].

(** ** The collaborators *)

(** The split an [Evaluator] is bound to. *)
Inductive split : Set := Train | Val | Test.

Class Torch : Type := {
  (** the parameters and buffers of an [nn.Module] *)
  Params : Type;
  (** what [state_dict()] returns and what a checkpoint stores under 'net' *)
  StateDict : Type;
  Inputs : Type;
  Labels : Type;
  Outputs : Type;
  (** a row of the score matrix [y_score] *)
  Row : Type;
  (** the moment estimates of Adam *)
  AdamState : Type;
  state_dict : Params -> StateDict;
  (** [torch.load(path, map_location=device)['net']] *)
  torch_load : string -> option StateDict;
  (** [load_state_dict(sd, strict=True)] *)
  load_state_dict : Params -> StateDict -> option Params;
  (** [model(inputs.to(device))], in training or in evaluation mode *)
  forward : Params -> bool -> Inputs -> Outputs;
  (** [criterion(outputs, squeeze(targets, 1).long()).item()] *)
  criterion : Outputs -> Labels -> Q;
  (** [nn.Softmax(dim=1)(outputs)], as rows *)
  softmax : Outputs -> list Row;
  (** the state of [torch.optim.Adam(model.parameters(), lr=lr)] *)
  adam_init : Params -> AdamState;
  (** the forward pass in training mode, [loss.backward()] and
      [optimizer.step()] for one batch, at a learning rate *)
  adam_step : AdamState -> Q -> Params -> Inputs -> Labels
              -> AdamState * Params;
  (** [evaluator.evaluate(y_score, save_folder, run)] of the evaluator of
      a split: AUC and accuracy *)
  evaluate : split -> list Row -> option string -> string -> Q * Q
}.

Section Driver.

Context {T : Torch}.

(** An [nn.Module]: its parameters and its [training] flag. *)
Record model : Type := {
  params : Params;
  training : bool
}.

Definition set_training (b : bool) (m : model) : model :=
  {| params := params m; training := b |}.

(** [deepcopy(model)]: values are immutable here, so the copy is the value. *)
Definition deepcopy (m : model) : model := m.

Record optimizer : Type := {
  lr : Q;
  adam : AdamState
}.

Definition batch : Type := (Inputs * Labels)%type.

(** [(loss, auc, acc)], the list [[test_loss, auc, acc]] that [test] returns. *)
Definition metrics : Type := (Q * Q * Q)%type.

Definition m_loss (x : metrics) : Q := fst (fst x).
Definition m_auc (x : metrics) : Q := snd (fst x).
Definition m_acc (x : metrics) : Q := snd x.

(** Calls made on the collaborators, in program order.  [Compare] is not a
    call: it marks the evaluation of [cur_auc > best_auc], line 164. *)
Inductive event : Type :=
| ModelTrain                                       (* model.train() *)
| ModelEval                                        (* model.eval() *)
| ZeroGrad                                         (* optimizer.zero_grad() *)
| Backward                                         (* loss.backward() *)
| OptimizerStep                                    (* optimizer.step() *)
| SchedulerStep                                    (* scheduler.step() *)
| WriterOpen (log_dir : string)                    (* SummaryWriter(log_dir=..) *)
| AddScalar (tag : string) (value : Q) (step : Z)  (* writer.add_scalar *)
| WriterClose                                      (* writer.close() *)
| Evaluate (s : split) (save_folder : option string) (run : string)
| Compare (cur_auc best_auc : Q)
| TorchSave (path : string) (state : list (string * StateDict))
| AppendLog (path : string) (data_flag : string)
            (train_auc_acc val_auc_acc test_auc_acc : Q * Q).

(** The module-level globals: [iteration] is unbound until [main] binds it. *)
Record globals : Type := {
  iteration : option Z
}.

(** A computation reads and writes the globals, returns or raises, and
    emits events; what was done before an exception stays done. *)
Definition M (A : Type) : Type := globals -> result A * globals * list event.

(** The three components of what a computation yields. *)
Definition outcome {A : Type} (x : result A * globals * list event)
  : result A := fst (fst x).
Definition globals_of {A : Type} (x : result A * globals * list event)
  : globals := snd (fst x).
Definition trace {A : Type} (x : result A * globals * list event)
  : list event := snd x.

Definition ret {A : Type} (a : A) : M A := fun g => (Ok a, g, []).

Definition bind {A B : Type} (c : M A) (k : A -> M B) : M B := fun g =>
  match c g with
  | (Ok a, g1, t1) =>
      match k a g1 with
      | (r, g2, t2) => (r, g2, t1 ++ t2)
      end
  | (Raise e, g1, t1) => (Raise e, g1, t1)
  end.

Definition raise {A : Type} (e : exn) : M A := fun g => (Raise e, g, []).

Definition emit (e : event) : M unit := fun g => (Ok tt, g, [e]).

Definition lift {A : Type} (r : result A) : M A := fun g => (r, g, []).

Definition get_iteration : M Z := fun g =>
  match iteration g with
  | Some i => (Ok i, g, [])
  | None => (Raise NameError, g, [])
  end.

Definition set_iteration (i : Z) : M unit := fun _ =>
  (Ok tt, {| iteration := Some i |}, []).

Notation "x <- c ;; k" := (bind c (fun x => k))
  (at level 61, c at next level, right associativity).
Notation "' p <- c ;; k" := (bind c (fun x => let 'p := x in k))
  (at level 61, p pattern, c at next level, right associativity).
Notation "c ;;; k" := (bind c (fun _ => k))
  (at level 61, right associativity).

(** A [for] loop over a list, threading the loop's variables. *)
Fixpoint for_each {A S : Type} (body : S -> A -> M S) (l : list A) (s : S)
  : M S :=
  match l with
  | [] => ret s
  | x :: l' => s' <- body s x ;; for_each body l' s'
  end.

(** ** [train], lines 203-223 *)

Definition train_batch (acc : list Q * model * optimizer) (b : batch)
  : M (list Q * model * optimizer) :=
  let '(total_loss, m, opt) := acc in
  let '(inputs, targets) := b in
  emit ZeroGrad ;;;
  let outputs := forward (params m) (training m) inputs in
  let loss := criterion outputs targets in
  let total_loss := total_loss ++ [loss] in
  it <- get_iteration ;;
  emit (AddScalar "train_loss_logs" loss it) ;;;
  set_iteration (it + 1) ;;;
  emit Backward ;;;
  let '(a, p) := adam_step (adam opt) (lr opt) (params m) inputs targets in
  emit OptimizerStep ;;;
  ret (total_loss,
       {| params := p; training := training m |},
       {| lr := lr opt; adam := a |}).

Definition train (m : model) (train_loader : list batch) (opt : optimizer)
  : M (Q * model * optimizer) :=
  emit ModelTrain ;;;
  let m := set_training true m in
  '(total_loss, m, opt) <- for_each train_batch train_loader ([], m, opt) ;;
  epoch_loss <- lift (truediv (py_sum total_loss) (len total_loss)) ;;
  ret (epoch_loss, m, opt).

(** ** [test], lines 228-254 *)

Definition test_batch (m : model) (acc : list Q * list Row) (b : batch)
  : list Q * list Row :=
  let '(total_loss, y_score) := acc in
  let '(inputs, targets) := b in
  let outputs := forward (params m) (training m) inputs in
  let loss := criterion outputs targets in
  (total_loss ++ [loss], y_score ++ softmax outputs).

Definition test (m : model) (evaluator : split) (data_loader : list batch)
  (run : string) (save_folder : option string) : M (metrics * model) :=
  emit ModelEval ;;;
  let m := set_training false m in
  let '(total_loss, y_score) := fold_left (test_batch m) data_loader ([], []) in
  emit (Evaluate evaluator save_folder run) ;;;
  let '(auc, acc) := evaluate evaluator y_score save_folder run in
  test_loss <- lift (truediv (py_sum total_loss) (len total_loss)) ;;
  ret ((test_loss, auc, acc), m).

(** ** The learning-rate scheduler *)

Record scheduler : Type := {
  last_epoch : Z;
  milestones : list Q;
  gamma : Q
}.

(** Modelled from the spec: [torch.optim.lr_scheduler.MultiStepLR] is not
    under src/.  The learning rate is multiplied by the fixed factor when
    the scheduler's epoch counter reaches a milestone, once for each
    occurrence of that milestone, and is left alone at every other epoch;
    the counter starts at 0 and [step()] advances it by one.  A milestone
    that is not an integer is never reached. *)
Definition MultiStepLR (ms : list Q) (g : Q) : scheduler :=
  {| last_epoch := 0; milestones := ms; gamma := g |}.

(** Modelled from the spec: the number of milestones of the scheduler that
    the epoch counter [e] has reached exactly, compared as Python compares
    an int with a float. *)
Definition milestone_count (s : scheduler) (e : Z) : nat :=
  List.length (filter (Qeq_bool (inject_Z e)) (milestones s)).

(** Modelled from the spec: [scheduler.step()] of the absent scheduler.  It
    advances the epoch counter and, at a milestone, multiplies the learning
    rate of the optimizer by the factor. *)
Definition scheduler_step (s : scheduler) (opt : optimizer)
  : scheduler * optimizer :=
  let e := last_epoch s + 1 in
  let s' := {| last_epoch := e; milestones := milestones s;
               gamma := gamma s |} in
  match milestone_count s e with
  | O => (s', opt)
  | c => (s', {| lr := (lr opt * gamma s ^ Z.of_nat c)%Q; adam := adam opt |})
  end.

(** ** [main], lines 22-194 *)

(** The command line, and the clock reading of line 48. *)
Record config : Type := {
  data_flag : string;
  output_root : string;
  num_epochs : Z;
  model_flag : string;
  model_path : option string;
  run : string;
  timestamp : string
}.

(** What lines 28-104 build: the four loaders and the model.  The training
    loader shuffles, so it yields a batch sequence per epoch; the three
    evaluation loaders do not. *)
Record env : Type := {
  train_loader : Z -> list batch;
  train_loader_at_eval : list batch;
  val_loader : list batch;
  test_loader : list batch;
  built_model : model
}.

Variable cfg : config.
Variable E : env.

(** Line 24. *)
Definition initial_lr : Q :=
  if String.eqb (model_flag cfg) "vit3d" then (1 # 10000)%Q else (1 # 1000)%Q.

(** Line 25. *)
Definition initial_gamma : Q := (1 # 10)%Q.

(** Line 26: [[0.5 * num_epochs, 0.75 * num_epochs]]. *)
Definition initial_milestones : list Q :=
  [((1 # 2) * inject_Z (num_epochs cfg))%Q;
   ((3 # 4) * inject_Z (num_epochs cfg))%Q].

(** Line 48: the output directory of the run. *)
Definition out_dir : string :=
  path_join (path_join (output_root cfg) (data_flag cfg)) (timestamp cfg).

Definition auc_acc (x : metrics) : Q * Q := (m_auc x, m_acc x).

(** Lines 106-115: load the checkpoint and evaluate it on the three splits. *)
Definition resume_eval : M model :=
  let m := built_model E in
  match model_path cfg with
  | None => ret m
  | Some path =>
      match torch_load path with
      | None => raise FileNotFoundError
      | Some sd =>
          match load_state_dict (params m) sd with
          | None => raise RuntimeError
          | Some p =>
              let m := {| params := p; training := training m |} in
              '(train_metrics, m) <-
                test m Train (train_loader_at_eval E) (run cfg) (Some out_dir) ;;
              '(val_metrics, m) <-
                test m Val (val_loader E) (run cfg) (Some out_dir) ;;
              '(test_metrics, m) <-
                test m Test (test_loader E) (run cfg) (Some out_dir) ;;
              ret m
          end
      end
  end.

(** Lines 126-129. *)
Definition logs : list string := ["loss"; "auc"; "acc"].
Definition train_logs : list string := map (String.append "train_") logs.
Definition val_logs : list string := map (String.append "val_") logs.
Definition test_logs : list string := map (String.append "test_") logs.

(** The local variables of [main] that the loop reads and writes. *)
Record locals : Type := {
  the_model : model;
  the_optimizer : optimizer;
  the_scheduler : scheduler;
  log_dict : list (string * Q);
  best_auc : Q;
  best_epoch : Z;
  best_model : model
}.

(** Lines 120-140. *)
Definition init_locals (m : model) : M locals :=
  let opt := {| lr := initial_lr; adam := adam_init (params m) |} in
  let sch := MultiStepLR initial_milestones initial_gamma in
  let d := fromkeys (train_logs ++ val_logs ++ test_logs) 0%Q in
  emit (WriterOpen (path_join out_dir "Tensorboard_Results")) ;;;
  set_iteration 0 ;;;
  ret {| the_model := m; the_optimizer := opt; the_scheduler := sch;
         log_dict := d; best_auc := 0%Q; best_epoch := 0;
         best_model := deepcopy m |}.

(** [for i, key in enumerate(keys): log_dict[key] = values[i]]. *)
Definition set_logs (d : list (string * Q)) (keys : list string) (x : metrics)
  : list (string * Q) :=
  fold_left (fun d kv => dict_set d (fst kv) (snd kv))
            (combine keys [m_loss x; m_auc x; m_acc x]) d.

(** Lines 143-170: one pass of the loop. *)
Definition epoch_body (st : locals) (epoch : Z) : M locals :=
  '(train_loss, m, opt) <-
    train (the_model st) (train_loader E epoch) (the_optimizer st) ;;
  '(train_metrics, m) <- test m Train (train_loader_at_eval E) (run cfg) None ;;
  '(val_metrics, m) <- test m Val (val_loader E) (run cfg) None ;;
  '(test_metrics, m) <- test m Test (test_loader E) (run cfg) None ;;
  emit SchedulerStep ;;;
  let '(sch, opt) := scheduler_step (the_scheduler st) opt in
  let d := set_logs (log_dict st) train_logs train_metrics in
  let d := set_logs d val_logs val_metrics in
  let d := set_logs d test_logs test_metrics in
  for_each (fun _ kv => emit (AddScalar (fst kv) (snd kv) epoch)) d tt ;;;
  let cur_auc := m_auc val_metrics in
  emit (Compare cur_auc (best_auc st)) ;;;
  if Qgtb cur_auc (best_auc st) then
    ret {| the_model := m; the_optimizer := opt; the_scheduler := sch;
           log_dict := d; best_auc := cur_auc; best_epoch := epoch;
           best_model := deepcopy m |}
  else
    ret {| the_model := m; the_optimizer := opt; the_scheduler := sch;
           log_dict := d; best_auc := best_auc st;
           best_epoch := best_epoch st; best_model := best_model st |}.

(** Line 142. *)
Definition training_loop (st : locals) : M locals :=
  for_each epoch_body (range (num_epochs cfg)) st.

(** Lines 172-194: save the checkpoint, evaluate the best snapshot with the
    output directory as save folder, append the summary to the log file. *)
Definition persist_and_final_eval (st : locals) : M unit :=
  let state := [("net", state_dict (params (the_model st)))] in
  let path := path_join out_dir "best_model.pth" in
  emit (TorchSave path state) ;;;
  '(train_metrics, bm) <-
    test (best_model st) Train (train_loader_at_eval E) (run cfg)
         (Some out_dir) ;;
  '(val_metrics, bm) <- test bm Val (val_loader E) (run cfg) (Some out_dir) ;;
  '(test_metrics, bm) <- test bm Test (test_loader E) (run cfg) (Some out_dir) ;;
  emit (AppendLog (path_join out_dir (data_flag cfg ++ "_log.txt")%string)
                  (data_flag cfg)
                  (auc_acc train_metrics) (auc_acc val_metrics)
                  (auc_acc test_metrics)) ;;;
  emit WriterClose.

Definition main : M unit :=
  m <- resume_eval ;;
  if num_epochs cfg =? 0 then ret tt
  else
    st <- init_locals m ;;
    st <- training_loop st ;;
    persist_and_final_eval st.

(** Lines 120-170 with the loop stopped after [k] passes: what [main] does
    between the resume evaluation and the end of epoch [k - 1], and the
    locals it has then. *)
Definition first_epochs (m : model) (k : Z) : M locals :=
  st <- init_locals m ;;
  for_each epoch_body (range k) st.

(** ** What a run computes, as functions of its inputs *)

(** The loss of a batch on a model. *)
Definition batch_loss (m : model) (b : batch) : Q :=
  criterion (forward (params m) (training m) (fst b)) (snd b).

(** The model and the optimizer after the update on one batch. *)
Definition train_step (mo : model * optimizer) (b : batch)
  : model * optimizer :=
  let '(a, p) := adam_step (adam (snd mo)) (lr (snd mo)) (params (fst mo))
                           (fst b) (snd b) in
  ({| params := p; training := training (fst mo) |},
   {| lr := lr (snd mo); adam := a |}).

(** The losses of the batches of an epoch, each on the model as the batches
    before it left it. *)
Fixpoint train_losses (mo : model * optimizer) (l : list batch) : list Q :=
  match l with
  | [] => []
  | b :: l' => batch_loss (fst mo) b :: train_losses (train_step mo b) l'
  end.

(** The events of the batches of an epoch, from the global step [i]. *)
Fixpoint train_events (i : Z) (mo : model * optimizer) (l : list batch)
  : list event :=
  match l with
  | [] => []
  | b :: l' =>
      ZeroGrad :: AddScalar "train_loss_logs" (batch_loss (fst mo) b) i
      :: Backward :: OptimizerStep
      :: train_events (i + 1) (train_step mo b) l'
  end.

(** The model and the optimizer after [train]. *)
Definition trained (m : model) (opt : optimizer) (l : list batch)
  : model * optimizer :=
  fold_left train_step l (set_training true m, opt).

(** The losses and the scores that [test] collects. *)
Definition eval_pass (m : model) (l : list batch) : list Q * list Row :=
  fold_left (test_batch (set_training false m)) l ([], []).

(** The metrics of a model on a non-empty loader. *)
Definition eval_metrics (m : model) (s : split) (l : list batch)
  (run : string) (save_folder : option string) : metrics :=
  let total_loss := fst (eval_pass m l) in
  let y_score := snd (eval_pass m l) in
  ((py_sum total_loss / inject_Z (len total_loss))%Q,
   fst (evaluate s y_score save_folder run),
   snd (evaluate s y_score save_folder run)).

(** The live model after the training step and the evaluations of an epoch. *)
Definition epoch_model (st : locals) (epoch : Z) : model :=
  set_training false
    (fst (trained (the_model st) (the_optimizer st) (train_loader E epoch))).

(** The validation AUC that the checkpoint check of an epoch reads. *)
Definition epoch_val_auc (st : locals) (epoch : Z) : Q :=
  m_auc (eval_metrics (epoch_model st epoch) Val (val_loader E) (run cfg) None).

(** The locals after one pass of the loop that does not raise. *)
Definition epoch_next (st : locals) (epoch : Z) : locals :=
  let m := epoch_model st epoch in
  let opt :=
    snd (trained (the_model st) (the_optimizer st) (train_loader E epoch)) in
  let sch_opt := scheduler_step (the_scheduler st) opt in
  let d := set_logs (log_dict st) train_logs
             (eval_metrics m Train (train_loader_at_eval E) (run cfg) None) in
  let d := set_logs d val_logs
             (eval_metrics m Val (val_loader E) (run cfg) None) in
  let d := set_logs d test_logs
             (eval_metrics m Test (test_loader E) (run cfg) None) in
  let cur_auc := epoch_val_auc st epoch in
  if Qgtb cur_auc (best_auc st) then
    {| the_model := m; the_optimizer := snd sch_opt;
       the_scheduler := fst sch_opt; log_dict := d;
       best_auc := cur_auc; best_epoch := epoch; best_model := m |}
  else
    {| the_model := m; the_optimizer := snd sch_opt;
       the_scheduler := fst sch_opt; log_dict := d;
       best_auc := best_auc st; best_epoch := best_epoch st;
       best_model := best_model st |}.

(** The locals when the loop starts on a model. *)
Definition start_locals (m : model) : locals :=
  {| the_model := m;
     the_optimizer := {| lr := initial_lr; adam := adam_init (params m) |};
     the_scheduler := MultiStepLR initial_milestones initial_gamma;
     log_dict := fromkeys (train_logs ++ val_logs ++ test_logs) 0%Q;
     best_auc := 0%Q; best_epoch := 0; best_model := m |}.

(** The locals after the first [k] passes of the loop. *)
Definition locals_after (st : locals) (k : Z) : locals :=
  fold_left epoch_next (range k) st.

(** The validation AUC of epoch [e] in the run that starts on [m0]. *)
Definition val_auc_at (m0 : model) (e : Z) : Q :=
  epoch_val_auc (locals_after (start_locals m0) e) e.

(** The live model when epoch [e] ends: what a snapshot taken at the
    checkpoint check of epoch [e] holds. *)
Definition snapshot_at (m0 : model) (e : Z) : model :=
  the_model (locals_after (start_locals m0) (e + 1)).

(** The claim on the maximum: whenever the loop returns, the best AUC, the
    best epoch and the best snapshot are those of the earliest epoch whose
    validation AUC is the maximum over the epochs. *)
Definition keeps_earliest_maximum (m0 : model) : Prop :=
  forall g st,
    outcome (training_loop (start_locals m0) g) = Ok st ->
    forall e_max,
      0 <= e_max < num_epochs cfg ->
      (forall e, 0 <= e < num_epochs cfg ->
                 (val_auc_at m0 e <= val_auc_at m0 e_max)%Q) ->
      (forall e, 0 <= e < e_max ->
                 (val_auc_at m0 e < val_auc_at m0 e_max)%Q) ->
      best_auc st = val_auc_at m0 e_max
      /\ best_epoch st = e_max
      /\ best_model st = snapshot_at m0 e_max.

(** The number of batches of the first [k] epochs. *)
Definition batches_before (k : Z) : Z :=
  fold_left (fun n e => n + len (train_loader E e)) (range k) 0.

(** The events of an evaluation of the three splits. *)
Definition eval_events (save_folder : option string) : list event :=
  [ModelEval; Evaluate Train save_folder (run cfg);
   ModelEval; Evaluate Val save_folder (run cfg);
   ModelEval; Evaluate Test save_folder (run cfg)].

(** The events of one pass of the loop that does not raise, from the global
    step [i]. *)
Definition epoch_events (i : Z) (st : locals) (epoch : Z) : list event :=
  ModelTrain
  :: train_events i (set_training true (the_model st), the_optimizer st)
       (train_loader E epoch)
  ++ eval_events None
  ++ SchedulerStep
  :: map (fun kv => AddScalar (fst kv) (snd kv) epoch)
       (log_dict (epoch_next st epoch))
  ++ [Compare (epoch_val_auc st epoch) (best_auc st)].

Fixpoint loop_events (i : Z) (st : locals) (epochs : list Z) : list event :=
  match epochs with
  | [] => []
  | e :: es =>
      epoch_events i st e
      ++ loop_events (i + len (train_loader E e)) (epoch_next st e) es
  end.

(** The model that the loop starts on, when the checkpoint, if any, loads. *)
Definition resumed_model : option model :=
  match model_path cfg with
  | None => Some (built_model E)
  | Some path =>
      match torch_load path with
      | None => None
      | Some sd =>
          match load_state_dict (params (built_model E)) sd with
          | None => None
          | Some p => Some {| params := p; training := false |}
          end
      end
  end.

Definition resume_events : list event :=
  match model_path cfg with
  | None => []
  | Some _ => eval_events (Some out_dir)
  end.

(** The events of lines 172-194 when they do not raise. *)
Definition final_events (st : locals) : list event :=
  TorchSave (path_join out_dir "best_model.pth")
            [("net", state_dict (params (the_model st)))]
  :: eval_events (Some out_dir)
  ++ [AppendLog (path_join out_dir (data_flag cfg ++ "_log.txt")%string)
        (data_flag cfg)
        (auc_acc (eval_metrics (best_model st) Train (train_loader_at_eval E)
                    (run cfg) (Some out_dir)))
        (auc_acc (eval_metrics (best_model st) Val (val_loader E)
                    (run cfg) (Some out_dir)))
        (auc_acc (eval_metrics (best_model st) Test (test_loader E)
                    (run cfg) (Some out_dir)));
      WriterClose].

(** The loaders that a run of [n] epochs iterates are not empty. *)
Definition loaders_nonempty (n : Z) : Prop :=
  (forall e, 0 <= e < n -> train_loader E e <> [])
  /\ train_loader_at_eval E <> []
  /\ val_loader E <> []
  /\ test_loader E <> [].

(** ** Reading a trace *)

Definition is_model_train (e : event) : bool :=
  match e with ModelTrain => true | _ => false end.

Definition is_optimizer_step (e : event) : bool :=
  match e with OptimizerStep => true | _ => false end.

Definition is_compare (e : event) : bool :=
  match e with Compare _ _ => true | _ => false end.

Definition is_torch_save (e : event) : bool :=
  match e with TorchSave _ _ => true | _ => false end.

(** The evaluator calls of a trace: split and save folder. *)
Definition evaluations (t : list event) : list (split * option string) :=
  flat_map (fun e => match e with
                     | Evaluate s sf _ => [(s, sf)]
                     | _ => []
                     end) t.

(** Modelled from the spec: [medmnist.Evaluator] is not under src/.  It
    writes the results file of its split exactly when it is passed a save
    folder. *)
Definition writes_results (e : event) : bool :=
  match e with Evaluate _ (Some _) _ => true | _ => false end.

(** The loss trace: the values and the steps logged under
    'train_loss_logs'. *)
Definition logged_losses (t : list event) : list Q :=
  flat_map (fun e => match e with
                     | AddScalar tag v _ =>
                         if String.eqb tag "train_loss_logs" then [v] else []
                     | _ => []
                     end) t.

Definition logged_steps (t : list event) : list Z :=
  flat_map (fun e => match e with
                     | AddScalar tag _ i =>
                         if String.eqb tag "train_loss_logs" then [i] else []
                     | _ => []
                     end) t.

(** The steps [i], [i + 1], ... [i + n - 1]. *)
Definition steps_from (i n : Z) : list Z := map (Z.add i) (range n).

(** A computation that leaves the globals as they are. *)
Definition readonly {A : Type} (c : M A) : Prop :=
  forall g, globals_of (c g) = g.

(** Every event of a computation, from any globals, satisfies [P]. *)
Definition emits {A : Type} (P : event -> Prop) (c : M A) : Prop :=
  forall g, Forall P (trace (c g)).

(** The events of the loop: training, evaluation without a save folder,
    the scheduler, the scalars, the checkpoint check. *)
Definition loop_event (e : event) : Prop :=
  match e with
  | ModelTrain | ZeroGrad | Backward | OptimizerStep | SchedulerStep
  | ModelEval | AddScalar _ _ _ | Compare _ _ => True
  | Evaluate _ sf _ => sf = None
  | _ => False
  end.

(** The events of an evaluation that saves into the folder [d]. *)
Definition eval_event (d : string) (e : event) : Prop :=
  match e with
  | ModelEval => True
  | Evaluate _ sf _ => sf = Some d
  | _ => False
  end.

(** The events of [main] outside its loop, for the output directory [d]. *)
Definition outside_event (d : string) (e : event) : Prop :=
  match e with
  | ModelEval | WriterOpen _ | TorchSave _ _ | AppendLog _ _ _ _ _
  | WriterClose => True
  | Evaluate _ sf _ => sf = Some d
  | _ => False
  end.

(** The paths that [main] hands to the writer, to [torch.save] and to
    [open], for the separator [sep] that [os.path.join] puts after the
    output directory.  A data flag that starts with a slash makes the log
    file an absolute path of its own. *)
Definition artefact_event (sep : string) (e : event) : Prop :=
  match e with
  | WriterOpen p => p = (out_dir ++ sep ++ "Tensorboard_Results")%string
  | TorchSave p _ => p = (out_dir ++ sep ++ "best_model.pth")%string
  | AppendLog p _ _ _ _ =>
      p = if String.prefix "/" (data_flag cfg)
          then (data_flag cfg ++ "_log.txt")%string
          else (out_dir ++ sep ++ data_flag cfg ++ "_log.txt")%string
  | _ => True
  end.

End Driver.

Notation "x <- c ;; k" := (bind c (fun x => k))
  (at level 61, c at next level, right associativity).
Notation "' p <- c ;; k" := (bind c (fun x => let 'p := x in k))
  (at level 61, p pattern, c at next level, right associativity).
Notation "c ;;; k" := (bind c (fun _ => k))
  (at level 61, right associativity).

(** ** [test], lines 228-254, when the evaluator can raise

    [evaluator.evaluate] belongs to medmnist.  The class [Torch] takes its
    call to return; here the evaluator is a function that returns the two
    scores or raises.  Line 250 calls it before line 252 divides, so what
    it raises leaves the routine before the mean of the losses is taken. *)
Module Raising.

Section Test.

Context {T : Torch}.

(** [evaluator.evaluate(y_score, save_folder, run)] of the evaluator of a
    split. *)
Definition evaluator : Type :=
  split -> list Row -> option string -> string -> result (Q * Q).

(** The evaluator that always returns, with the scores of the class. *)
Definition returning : evaluator :=
  fun s y_score save_folder run => Ok (evaluate s y_score save_folder run).

Definition test (ev : evaluator) (m : model) (s : split)
  (data_loader : list batch) (run : string) (save_folder : option string)
  : M (metrics * model) :=
  emit ModelEval ;;;
  let m := set_training false m in
  let '(total_loss, y_score) := fold_left (test_batch m) data_loader ([], []) in
  emit (Evaluate s save_folder run) ;;;
  '(auc, acc) <- lift (ev s y_score save_folder run) ;;
  test_loss <- lift (truediv (py_sum total_loss) (len total_loss)) ;;
  ret ((test_loss, auc, acc), m).

(** The claim on the empty batch sequence: the routine fails with the
    division by zero of the mean of the losses, whatever the model, the
    split and the globals. *)
Definition raises_zero_division_on_empty (ev : evaluator) : Prop :=
  forall (m : model) (s : split) (run : string) (sf : option string)
         (g : globals),
    outcome (test ev m s [] run sf g) = Raise ZeroDivisionError.

End Test.

End Raising.

(** ** [main], lines 22-104: what is built before the checkpoint is loaded *)

(** [s.split(sep)] for a separator of one character: never empty. *)
Fixpoint split_on (sep : ascii) (s : string) : list string :=
  match s with
  | EmptyString => [EmptyString]
  | String c s' =>
      if Ascii.eqb c sep then EmptyString :: split_on sep s'
      else match split_on sep s' with
           | [] => [String c EmptyString]
           | piece :: pieces => String c piece :: pieces
           end
  end.

(** [c in s]. *)
Fixpoint has_char (c : ascii) (s : string) : bool :=
  match s with
  | EmptyString => false
  | String c' s' => Ascii.eqb c' c || has_char c s'
  end.

(** An entry of [medmnist.INFO]. *)
Record info : Type := {
  task : string;
  n_channels : Z;
  label : list (string * string);
  python_class : string
}.

(** [torch.device('cuda:<id>')] or [torch.device('cpu')]. *)
Inductive device : Set :=
| Cuda (id : Z)
| Cpu.

(** The exceptions of lines 22-104. *)
Inductive setup_exn : Set :=
| KeyError
| AttributeError
| ValueError
| NotImplementedError.

Inductive built (A : Type) : Type :=
| Built (a : A)
| Failed (e : setup_exn).

Arguments Built {A} a.
Arguments Failed {A} e.

(** What lines 22-104 do to the process, the file system and medmnist. *)
Inductive setup_event : Type :=
| SetCudaVisibleDevices (id : Z)   (* os.environ[..] = str(id), line 43 *)
| MakeDirs (path : string)         (* os.makedirs(path), line 50 *)
| NewDataset (s : split) (mul : option string) (download as_rgb : bool)
             (size : Z)            (* DataClass(split=.., ..), lines 57-60 *)
| NewEvaluator (data_flag : string) (s : split) (size : Z).
                                   (* medmnist.Evaluator(..), lines 100-102 *)

(** The collaborators of lines 22-104: medmnist, the backbones of [models],
    the converters of [acsconv], [utils], and the builtins [int] and
    [os.path.exists]. *)
Class Factory {T : Torch} : Type := {
  Dataset : Type;
  DataClass : Type;
  (** [INFO[data_flag]] *)
  INFO : string -> option info;
  (** [getattr(medmnist, name)] *)
  getattr_medmnist : string -> option DataClass;
  (** [DataClass(split, transform=Transform3D(mul=..), download, as_rgb, size)] *)
  new_dataset : DataClass -> split -> option string -> bool -> bool -> Z
                -> Dataset;
  (** the batches of [DataLoader(dataset, batch_size, shuffle=False)] *)
  loader : Dataset -> Z -> list (@batch T);
  (** the batches of [DataLoader(dataset, batch_size, shuffle=True)] in an
      epoch *)
  shuffling_loader : Dataset -> Z -> Z -> list (@batch T);
  ResNet18 : Z -> Z -> @Params T;
  ResNet50 : Z -> Z -> @Params T;
  VisionTransformer3D : Z -> @Params T;
  ACSConverter : @Params T -> @Params T;
  Conv2_5dConverter : @Params T -> @Params T;
  (** [Conv3dConverter(model, i3d_repeat_axis=..)] *)
  Conv3dConverter : @Params T -> option Z -> @Params T;
  model_to_syncbn : @Params T -> @Params T;
  (** [model.to(device)] *)
  to_device : @Params T -> device -> @Params T;
  (** [int(s)], [None] for [ValueError] *)
  py_int : string -> option Z;
  (** [os.path.exists(path)] when line 49 runs *)
  path_exists : string -> bool
}.

Section Setup.

Context {T : Torch} {F : Factory}.

(** The arguments of [main] that only lines 22-104 read, with the ones that
    the rest reads too. *)
Record settings : Type := {
  base : config;
  gpu_ids : string;
  batch_size : Z;
  size : Z;
  conv : string;
  pretrained_3d : string;
  download : bool;
  as_rgb : bool;
  shape_transform : bool
}.

(** A computation of lines 22-104: what it did, and what it built or
    raised. *)
Definition Sm (A : Type) : Type := (built A * list setup_event)%type.

Definition sret {A : Type} (a : A) : Sm A := (Built a, []).

Definition sfail {A : Type} (e : setup_exn) : Sm A := (Failed e, []).

Definition sbind {A B : Type} (c : Sm A) (k : A -> Sm B) : Sm B :=
  match c with
  | (Built a, t1) =>
      match k a with
      | (r, t2) => (r, t1 ++ t2)
      end
  | (Failed e, t1) => (Failed e, t1)
  end.

Definition semit (e : setup_event) : Sm unit := (Built tt, [e]).

(** Lines 28 and 33. *)
Definition lookup_info (data_flag : string) : Sm info :=
  match INFO data_flag with
  | Some i => sret i
  | None => sfail KeyError
  end.

Definition lookup_class (i : info) : Sm DataClass :=
  match getattr_medmnist (python_class i) with
  | Some c => sret c
  | None => sfail AttributeError
  end.

(** Line 30. *)
Definition channels (st : settings) (i : info) : Z :=
  if as_rgb st then 3 else n_channels i.

(** Line 31. *)
Definition classes (i : info) : Z := len (label i).

(** Lines 36-41: the ids that are not negative, in order. *)
Fixpoint collect_gpu_ids (str_ids : list string) (ids : list Z)
  : built (list Z) :=
  match str_ids with
  | [] => Built ids
  | str_id :: rest =>
      match py_int str_id with
      | None => Failed ValueError
      | Some id =>
          if 0 <=? id then collect_gpu_ids rest (ids ++ [id])
          else collect_gpu_ids rest ids
      end
  end.

Definition parse_gpu_ids (s : string) : built (list Z) :=
  collect_gpu_ids (split_on ","%char s) [].

(** Lines 42-45. *)
Definition select_device (ids : list Z) : Sm device :=
  match ids with
  | id :: _ => sbind (semit (SetCudaVisibleDevices id)) (fun _ => sret (Cuda id))
  | [] => sret Cpu
  end.

(** Lines 49-50. *)
Definition make_output_dir (path : string) : Sm unit :=
  if path_exists path then sret tt else semit (MakeDirs path).

(** Lines 54-55: the [mul] of the two transforms. *)
Definition train_mul (st : settings) : option string :=
  if shape_transform st then Some "random" else None.

Definition eval_mul (st : settings) : option string :=
  if shape_transform st then Some "0.5" else None.

(** Lines 57-60. *)
Definition make_dataset (c : DataClass) (st : settings) (s : split)
  (mul : option string) : Sm Dataset :=
  sbind (semit (NewDataset s mul (download st) (as_rgb st) (size st)))
        (fun _ => sret (new_dataset c s mul (download st) (as_rgb st) (size st))).

(** Lines 78-85. *)
Definition build_backbone (model_flag : string) (n_channels n_classes : Z)
  : Sm Params :=
  if String.eqb model_flag "resnet18" then sret (ResNet18 n_channels n_classes)
  else if String.eqb model_flag "resnet50"
       then sret (ResNet50 n_channels n_classes)
  else if String.eqb model_flag "vit3d" then sret (VisionTransformer3D n_classes)
  else sfail NotImplementedError.

(** Lines 88-96: three tests in a row, each on the model as the one before
    left it. *)
Definition convert (st : settings) (p : Params) : Params :=
  let p := if String.eqb (conv st) "ACSConv"
           then model_to_syncbn (ACSConverter p) else p in
  let p := if String.eqb (conv st) "Conv2_5d"
           then model_to_syncbn (Conv2_5dConverter p) else p in
  let p := if String.eqb (conv st) "Conv3d"
           then if String.eqb (pretrained_3d st) "i3d"
                then model_to_syncbn (Conv3dConverter p (Some (-3)))
                else model_to_syncbn (Conv3dConverter p None)
           else p in
  p.

Definition make_evaluator (st : settings) (s : split) : Sm unit :=
  semit (NewEvaluator (data_flag (base st)) s (size st)).

(** Lines 22-104, in order: the device, and the loaders and the model that
    the rest of [main] works on. *)
Definition setup (st : settings) : Sm (device * env) :=
  sbind (lookup_info (data_flag (base st))) (fun i =>
  let n_channels := channels st i in
  let n_classes := classes i in
  sbind (lookup_class i) (fun c =>
  match parse_gpu_ids (gpu_ids st) with
  | Failed e => sfail e
  | Built ids =>
      sbind (select_device ids) (fun dev =>
      sbind (make_output_dir (out_dir (base st))) (fun _ =>
      sbind (make_dataset c st Train (train_mul st)) (fun train_dataset =>
      sbind (make_dataset c st Train (eval_mul st)) (fun train_dataset_at_eval =>
      sbind (make_dataset c st Val (eval_mul st)) (fun val_dataset =>
      sbind (make_dataset c st Test (eval_mul st)) (fun test_dataset =>
      sbind (build_backbone (model_flag (base st)) n_channels n_classes)
            (fun p =>
      let p := to_device (convert st p) dev in
      sbind (make_evaluator st Train) (fun _ =>
      sbind (make_evaluator st Val) (fun _ =>
      sbind (make_evaluator st Test) (fun _ =>
      sret (dev,
            {| train_loader := shuffling_loader train_dataset (batch_size st);
               train_loader_at_eval :=
                 loader train_dataset_at_eval (batch_size st);
               val_loader := loader val_dataset (batch_size st);
               test_loader := loader test_dataset (batch_size st);
               built_model := {| params := p; training := true |} |})))))))))))
  end)).

(** [int] applied to every piece, [None] when one of them raises. *)
Fixpoint int_all (l : list string) : option (list Z) :=
  match l with
  | [] => Some []
  | s :: l' =>
      match py_int s, int_all l' with
      | Some i, Some rest => Some (i :: rest)
      | _, _ => None
      end
  end.

(** The backbones that lines 78-83 know. *)
Definition known_backbone (flag : string) : Prop :=
  flag = "resnet18" \/ flag = "resnet50" \/ flag = "vit3d".

(** What the setup has done when it reaches the choice of the backbone. *)
Definition before_backbone (st : settings) (ids : list Z)
  : list setup_event :=
  snd (select_device (filter (Z.leb 0) ids))
  ++ snd (make_output_dir (out_dir (base st)))
  ++ [NewDataset Train (train_mul st) (download st) (as_rgb st) (size st);
      NewDataset Train (eval_mul st) (download st) (as_rgb st) (size st);
      NewDataset Val (eval_mul st) (download st) (as_rgb st) (size st);
      NewDataset Test (eval_mul st) (download st) (as_rgb st) (size st)].

(** The device that the ids select. *)
Definition device_of (ids : list Z) : device :=
  match filter (Z.leb 0) ids with
  | id :: _ => Cuda id
  | [] => Cpu
  end.

Definition is_new_dataset (e : setup_event) : bool :=
  match e with NewDataset _ _ _ _ _ => true | _ => false end.

Definition is_new_evaluator (e : setup_event) : bool :=
  match e with NewEvaluator _ _ _ => true | _ => false end.

End Setup.

(** ** More to read in a trace *)

Section Reading.

Context {T : Torch}.

Definition is_zero_grad (e : @event T) : bool :=
  match e with ZeroGrad => true | _ => false end.

Definition is_backward (e : @event T) : bool :=
  match e with Backward => true | _ => false end.

Definition is_writer_open (e : @event T) : bool :=
  match e with WriterOpen _ => true | _ => false end.

Definition is_writer_close (e : @event T) : bool :=
  match e with WriterClose => true | _ => false end.

Definition is_append_log (e : @event T) : bool :=
  match e with AppendLog _ _ _ _ _ => true | _ => false end.

(** The scalars of the log dictionary that a trace writes: every
    [add_scalar] but those of the loss trace. *)
Definition epoch_scalars (t : list (@event T)) : list (string * Q * Z) :=
  flat_map (fun e => match e with
                     | AddScalar tag v i =>
                         if String.eqb tag "train_loss_logs" then []
                         else [(tag, v, i)]
                     | _ => []
                     end) t.

End Reading.

(** ** A small instance of the collaborators

    The parameters of the toy network are an integer that every optimizer
    step increments, so they count the steps taken; a batch carries its
    loss; the evaluator reads the AUC of a split off the parameters. *)
Module Toy.

Definition torch (auc_of : split -> Z -> Q) : Torch := {|
  Params := Z;
  StateDict := Z;
  Inputs := Q;
  Labels := unit;
  Outputs := Z * Q;
  Row := Z;
  AdamState := unit;
  state_dict := fun p => p;
  torch_load := fun path => if String.eqb path "ckpt.pth" then Some 100 else None;
  load_state_dict := fun _ sd => Some sd;
  forward := fun p _ x => (p, x);
  criterion := fun o _ => snd o;
  softmax := fun o => [fst o];
  adam_init := fun _ => tt;
  adam_step := fun a _ p _ _ => (a, p + 1);
  evaluate := fun s rows _ _ => (auc_of s (hd 0 rows), (1 # 2)%Q)
|}.

Definition the_config (n : Z) (resume : option string) : config := {|
  data_flag := "organmnist3d";
  output_root := "./output";
  num_epochs := n;
  model_flag := "resnet18";
  model_path := resume;
  run := "model1";
  timestamp := "240101_000000"
|}.

Definition the_env (T : Torch) (p : @Params T) (bs : list (@Inputs T * @Labels T))
  : @env T := {|
  train_loader := fun _ => bs;
  train_loader_at_eval := bs;
  val_loader := bs;
  test_loader := bs;
  built_model := {| params := p; training := true |}
|}.

Definition unbound : globals := {| iteration := None |}.

Definition bound (i : Z) : globals := {| iteration := Some i |}.

(** A network whose AUC is 0.9 after one optimizer step and 0.5 otherwise. *)
Definition peak_at_one : Torch :=
  torch (fun _ p => if p =? 1 then (9 # 10)%Q else (1 # 2)%Q).

(** A network whose AUC is 0 whatever its parameters. *)
Definition always_wrong : Torch := torch (fun _ _ => 0%Q).

(** Two batches, of losses 3/4 and 1/4. *)
Definition two_batches : list (Q * unit) := [((3 # 4)%Q, tt); ((1 # 4)%Q, tt)].

(** One batch, of loss 3/4. *)
Definition one_batch : list (Q * unit) := [((3 # 4)%Q, tt)].

(** The untrained network: no optimizer step taken yet. *)
Definition untrained (T : Torch) (p : @Params T) : @model T :=
  {| params := p; training := true |}.

(** The checkpoint 'ckpt.pth' loaded into the network. *)
Definition loaded (T : Torch) (p : @Params T) : @model T :=
  {| params := p; training := false |}.

(** An optimizer at the learning rate 0.001. *)
Definition adam0 (T : Torch) (a : @AdamState T) : @optimizer T :=
  {| lr := (1 # 1000)%Q; adam := a |}.

(** Two epochs on one batch each, with the AUC at its peak after the
    first. *)
Definition peak_config : config := the_config 2 None.
Definition peak_env : @env peak_at_one := the_env peak_at_one 0 one_batch.

(** No epoch, and the checkpoint 'ckpt.pth' to evaluate. *)
Definition zero_config : config := the_config 0 (Some "ckpt.pth").

(** A negative epoch count, without a checkpoint. *)
Definition negative_config : config := the_config (-3) None.

(** The default of the command line: 100 epochs. *)
Definition hundred_config : config := the_config 100 None.

(** Two epochs on one batch each, with the AUC at 0 after both. *)
Definition wrong_env : @env always_wrong := the_env always_wrong 0 one_batch.

(** A checkpoint path that does not load. *)
Definition missing_config : config := the_config 2 (Some "missing.pth").

(** Four epochs. *)
Definition four_config : config := the_config 4 None.

(** An evaluator that cannot index the second dimension of a score array
    without rows, and returns the scores of the class otherwise. *)
Definition strict_evaluator : @Raising.evaluator peak_at_one :=
  fun s y_score save_folder run =>
    match y_score with
    | [] => Raise IndexError
    | _ :: _ => Ok (@evaluate peak_at_one s y_score save_folder run)
    end.

(** A table with one dataset. *)
Definition organ : info := {|
  task := "multi-class";
  n_channels := 1;
  label := [("0", "liver"); ("1", "kidney-right")];
  python_class := "OrganMNIST3D"
|}.

(** [int] on the three strings "0", "1" and "-1". *)
Definition int_of (s : string) : option Z :=
  if String.eqb s "0" then Some 0
  else if String.eqb s "1" then Some 1
  else if String.eqb s "-1" then Some (-1)
  else None.

(** Backbones and converters that leave their mark on the parameters. *)
Definition factory : @Factory peak_at_one := {|
  Dataset := split * option string;
  DataClass := unit;
  INFO := fun flag => if String.eqb flag "organmnist3d" then Some organ else None;
  getattr_medmnist :=
    fun name => if String.eqb name "OrganMNIST3D" then Some tt else None;
  new_dataset := fun _ s mul _ _ _ => (s, mul);
  loader := fun _ _ => train_loader_at_eval peak_env;
  shuffling_loader := fun _ _ e => train_loader peak_env e;
  ResNet18 := fun _ _ => 18;
  ResNet50 := fun _ _ => 50;
  VisionTransformer3D := fun _ => 3;
  ACSConverter := fun p => p + 100;
  Conv2_5dConverter := fun p => p + 200;
  Conv3dConverter := fun p _ => p + 300;
  model_to_syncbn := fun p => p + 1000;
  to_device := fun p _ => p;
  py_int := int_of;
  path_exists := fun _ => false
|}.

Definition options (gpu flag mode : string) : @settings := {|
  base := {| data_flag := "organmnist3d"; output_root := "./output";
             num_epochs := 2; model_flag := flag; model_path := None;
             run := "model1"; timestamp := "240101_000000" |};
  gpu_ids := gpu;
  batch_size := 32;
  size := 28;
  conv := mode;
  pretrained_3d := "i3d";
  download := false;
  as_rgb := false;
  shape_transform := false
|}.

End Toy.

(** * Properties *)

Section Facts.

Context {T : Torch}.

(** ** The monad *)

Lemma bind_ok {A B : Type} (c : M A) (k : A -> M B) g a g1 t1 :
  c g = (Ok a, g1, t1) ->
  bind c k g = (outcome (k a g1), globals_of (k a g1), t1 ++ trace (k a g1)).
Proof.
  intros H. unfold bind. rewrite H.
  destruct (k a g1) as [[r g2] t2]. reflexivity.
Qed.

Lemma bind_emit {B : Type} (e : event) (k : unit -> M B) g :
  bind (emit e) k g = (outcome (k tt g), globals_of (k tt g), e :: trace (k tt g)).
Proof. apply (bind_ok (emit e) k g tt g [e]). reflexivity. Qed.

(** ** Python arithmetic *)

Lemma len_cons {A : Type} (x : A) (l : list A) : len (x :: l) = 1 + len l.
Proof. unfold len. simpl List.length. lia. Qed.

Lemma len_nonneg {A : Type} (l : list A) : 0 <= len l.
Proof. unfold len. lia. Qed.

Lemma len_zero {A : Type} (l : list A) : len l = 0 -> l = [].
Proof. destruct l; [reflexivity | rewrite len_cons; pose proof (len_nonneg l); lia]. Qed.

Lemma truediv_ok (x : Q) (n : Z) :
  n <> 0 -> truediv x n = Ok (x / inject_Z n)%Q.
Proof.
  intros H. unfold truediv. destruct (Z.eqb_spec n 0); [contradiction | reflexivity].
Qed.

Lemma mean_singleton (x : Q) : (py_sum [x] / inject_Z (len [x]))%Q = x.
Proof.
  destruct x as [n d]. unfold py_sum, len, Qdiv, Qmult, Qplus, Qinv. simpl.
  rewrite !Z.mul_1_r, !Pos.mul_1_r. reflexivity.
Qed.

(** ** [test] *)

Lemma eval_pass_length (m : model) (l : list batch) acc :
  List.length (fst (fold_left (test_batch m) l acc))
  = (List.length (fst acc) + List.length l)%nat.
Proof.
  revert acc. induction l as [| b l IH]; intros [tl ys]; simpl.
  - lia.
  - destruct b as [inputs targets]. rewrite IH. simpl.
    rewrite length_app. simpl. lia.
Qed.

Lemma eval_pass_len (m : model) (l : list batch) :
  len (fst (eval_pass m l)) = len l.
Proof. unfold len, eval_pass. rewrite eval_pass_length. reflexivity. Qed.

(** [test] on the empty loader calls the evaluator, then raises. *)
Lemma test_nil (m : model) s run sf g :
  test m s [] run sf g
  = (Raise ZeroDivisionError, g, [ModelEval; Evaluate s sf run]).
Proof.
  unfold test. simpl. rewrite bind_emit, bind_emit.
  destruct (evaluate s [] sf run) as [auc acc]. reflexivity.
Qed.

(** [test] on a non-empty loader returns the metrics and leaves the model
    in evaluation mode. *)
Lemma test_cons (m : model) s b l run sf g :
  test m s (b :: l) run sf g
  = (Ok (eval_metrics m s (b :: l) run sf, set_training false m), g,
     [ModelEval; Evaluate s sf run]).
Proof.
  unfold test, eval_metrics. rewrite bind_emit.
  fold (eval_pass m (b :: l)).
  pose proof (eval_pass_len m (b :: l)) as Hlen.
  destruct (eval_pass m (b :: l)) as [tl ys]. simpl fst in *. simpl snd.
  rewrite bind_emit.
  destruct (evaluate s ys sf run) as [auc acc]. simpl fst. simpl snd.
  unfold bind, lift, ret.
  rewrite truediv_ok by (rewrite Hlen, len_cons; pose proof (len_nonneg l); lia).
  reflexivity.
Qed.

(** ** [train] *)

Lemma train_losses_length (mo : model * optimizer) (l : list batch) :
  List.length (train_losses mo l) = List.length l.
Proof.
  revert mo. induction l as [| b l IH]; intros mo; simpl; [| rewrite IH]; reflexivity.
Qed.

Lemma train_batch_run acc (b : batch) g i :
  iteration g = Some i ->
  train_batch acc b g
  = (Ok (fst (fst acc) ++ [batch_loss (snd (fst acc)) b],
         fst (train_step (snd (fst acc), snd acc) b),
         snd (train_step (snd (fst acc), snd acc) b)),
     {| iteration := Some (i + 1) |},
     [ZeroGrad; AddScalar "train_loss_logs" (batch_loss (snd (fst acc)) b) i;
      Backward; OptimizerStep]).
Proof.
  intros Hi. destruct acc as [[tl m] opt], b as [inputs targets].
  unfold train_batch, train_step, batch_loss. simpl fst. simpl snd.
  rewrite bind_emit.
  rewrite (bind_ok get_iteration _ g i g [])
    by (unfold get_iteration; rewrite Hi; reflexivity).
  rewrite bind_emit.
  rewrite (bind_ok (set_iteration (i + 1)) _ g tt {| iteration := Some (i + 1) |} [])
    by reflexivity.
  rewrite bind_emit.
  destruct (adam_step (adam opt) (lr opt) (params m) inputs targets) as [a p].
  rewrite bind_emit. reflexivity.
Qed.

Lemma train_batches_run (l : list batch) :
  forall tl m opt g i,
    iteration g = Some i ->
    for_each train_batch l (tl, m, opt) g
    = (Ok (tl ++ train_losses (m, opt) l,
           fst (fold_left train_step l (m, opt)),
           snd (fold_left train_step l (m, opt))),
       {| iteration := Some (i + len l) |},
       train_events i (m, opt) l).
Proof.
  induction l as [| b l IH]; intros tl m opt g i Hi.
  - destruct g as [it]. simpl in Hi. subst it.
    simpl. unfold ret. rewrite app_nil_r, Z.add_0_r. reflexivity.
  - simpl for_each.
    rewrite (bind_ok _ _ g _ _ _ (train_batch_run (tl, m, opt) b g i Hi)).
    simpl fst. simpl snd.
    destruct (train_step (m, opt) b) as [m1 opt1] eqn:Hstep.
    rewrite (IH _ m1 opt1 {| iteration := Some (i + 1) |} (i + 1) eq_refl).
    unfold outcome, globals_of, trace. simpl fst. simpl snd.
    simpl train_losses. simpl train_events. simpl fold_left.
    rewrite Hstep, <- app_assoc, len_cons. simpl app.
    replace (i + 1 + len l) with (i + (1 + len l)) by lia.
    reflexivity.
Qed.

(** What [train] does when [iteration] is bound. *)
Lemma train_run (m : model) (l : list batch) (opt : optimizer) g i :
  iteration g = Some i ->
  train m l opt g
  = (match truediv (py_sum (train_losses (set_training true m, opt) l))
                   (len l) with
     | Ok x => Ok (x, fst (trained m opt l), snd (trained m opt l))
     | Raise e => Raise e
     end,
     {| iteration := Some (i + len l) |},
     ModelTrain :: train_events i (set_training true m, opt) l).
Proof.
  intros Hi. unfold train. rewrite bind_emit.
  rewrite (bind_ok _ _ g _ _ _
             (train_batches_run l [] (set_training true m) opt g i Hi)).
  simpl app. unfold bind, lift, ret, trained.
  replace (len (train_losses (set_training true m, opt) l)) with (len l)
    by (unfold len; rewrite train_losses_length; reflexivity).
  destruct (truediv _ (len l)); unfold outcome, globals_of, trace; simpl;
    rewrite ?app_nil_r; reflexivity.
Qed.

Lemma train_nonempty (m : model) (l : list batch) (opt : optimizer) g i :
  l <> [] ->
  iteration g = Some i ->
  train m l opt g
  = (Ok ((py_sum (train_losses (set_training true m, opt) l)
          / inject_Z (len l))%Q,
         fst (trained m opt l), snd (trained m opt l)),
     {| iteration := Some (i + len l) |},
     ModelTrain :: train_events i (set_training true m, opt) l).
Proof.
  intros Hl Hi. rewrite (train_run m l opt g i Hi).
  rewrite truediv_ok; [reflexivity |].
  intros H0. apply Hl, len_zero, H0.
Qed.

Lemma test_nonempty (m : model) s l run sf g :
  l <> [] ->
  test m s l run sf g
  = (Ok (eval_metrics m s l run sf, set_training false m), g,
     [ModelEval; Evaluate s sf run]).
Proof.
  intros Hl. destruct l as [| b l]; [contradiction | apply test_cons].
Qed.

Lemma test_trace (m : model) s l run sf g :
  trace (test m s l run sf g) = [ModelEval; Evaluate s sf run]
  /\ globals_of (test m s l run sf g) = g.
Proof.
  destruct l as [| b l]; [rewrite test_nil | rewrite test_cons]; split; reflexivity.
Qed.

Lemma for_each_emit {A : Type} (f : A -> event) (l : list A) g :
  for_each (fun _ x => emit (f x)) l tt g = (Ok tt, g, map f l).
Proof.
  induction l as [| x l IH]; simpl; [reflexivity |].
  rewrite bind_emit, IH. reflexivity.
Qed.

Lemma eval_pass_fold (m : model) (l : list batch) acc :
  fold_left (test_batch m) l acc
  = (fst acc ++ map (batch_loss m) l,
     snd acc ++ flat_map (fun b => softmax (forward (params m) (training m)
                                               (fst b))) l).
Proof.
  revert acc. induction l as [| b l IH]; intros [tl ys]; simpl.
  - rewrite !app_nil_r. reflexivity.
  - destruct b as [inputs targets]. rewrite IH. simpl.
    rewrite <- !app_assoc. reflexivity.
Qed.

Lemma eval_pass_eq (m : model) (l : list batch) :
  eval_pass m l
  = (map (batch_loss (set_training false m)) l,
     flat_map (fun b => softmax (forward (params m) false (fst b))) l).
Proof. unfold eval_pass. rewrite eval_pass_fold. reflexivity. Qed.

Lemma logged_losses_train_events (l : list batch) :
  forall i mo, logged_losses (train_events i mo l) = train_losses mo l.
Proof.
  induction l as [| b l IH]; intros i mo; [reflexivity |].
  simpl train_events. simpl train_losses. rewrite <- (IH (i + 1) (train_step mo b)).
  reflexivity.
Qed.

Lemma seq_offset (n : nat) :
  forall a s, seq (a + s) n = map (Nat.add a) (seq s n).
Proof.
  induction n as [| n IH]; intros a s; simpl; [reflexivity |].
  f_equal. rewrite <- IH. f_equal. lia.
Qed.

Lemma steps_from_app (i a b : Z) :
  0 <= a -> 0 <= b ->
  steps_from i (a + b) = steps_from i a ++ steps_from (i + a) b.
Proof.
  intros Ha Hb. unfold steps_from, range.
  rewrite Z2Nat.inj_add by lia. rewrite seq_app, !map_app. f_equal.
  rewrite <- (Nat.add_0_r (0 + Z.to_nat a)), seq_offset, !map_map.
  apply map_ext. intros k. lia.
Qed.

Lemma steps_from_one (i : Z) : steps_from i 1 = [i].
Proof. unfold steps_from. simpl. rewrite Z.add_0_r. reflexivity. Qed.

Lemma logged_steps_train_events (l : list batch) :
  forall i mo, logged_steps (train_events i mo l) = steps_from i (len l).
Proof.
  induction l as [| b l IH]; intros i mo; [reflexivity |].
  rewrite len_cons, steps_from_app, steps_from_one
    by (pose proof (len_nonneg l); lia).
  simpl train_events. rewrite <- (IH (i + 1) (train_step mo b)). reflexivity.
Qed.

(** ** What a computation can emit *)

Lemma emits_weaken {A : Type} (P P' : event -> Prop) (c : M A) :
  (forall e, P e -> P' e) -> emits P c -> emits P' c.
Proof.
  intros HP Hc g. specialize (Hc g). rewrite Forall_forall in *. auto.
Qed.

Lemma emits_ret {A : Type} (P : event -> Prop) (a : A) : emits P (ret a).
Proof. intros g. constructor. Qed.

Lemma emits_raise {A : Type} (P : event -> Prop) (e : exn) :
  emits P (@raise T A e).
Proof. intros g. constructor. Qed.

Lemma emits_lift {A : Type} (P : event -> Prop) (r : result A) :
  emits P (lift r).
Proof. intros g. constructor. Qed.

Lemma emits_emit (P : event -> Prop) (e : event) : P e -> emits P (emit e).
Proof. intros H g. constructor; [exact H | constructor]. Qed.

Lemma emits_get_iteration (P : event -> Prop) : emits P get_iteration.
Proof. intros g. unfold get_iteration. destruct (iteration g); constructor. Qed.

Lemma emits_set_iteration (P : event -> Prop) (i : Z) :
  emits P (set_iteration i).
Proof. intros g. constructor. Qed.

Lemma emits_bind {A B : Type} (P : event -> Prop) (c : M A) (k : A -> M B) :
  emits P c -> (forall a, emits P (k a)) -> emits P (bind c k).
Proof.
  intros Hc Hk g. specialize (Hc g). unfold bind.
  destruct (c g) as [[[a | e] g1] t1]; [| exact Hc].
  specialize (Hk a g1). destruct (k a g1) as [[r g2] t2].
  apply Forall_app. split; assumption.
Qed.

Lemma emits_for_each {A S : Type} (P : event -> Prop) (body : S -> A -> M S)
  (l : list A) :
  (forall s x, emits P (body s x)) -> forall s, emits P (for_each body l s).
Proof.
  intros Hb. induction l as [| x l IH]; intros s; simpl.
  - apply emits_ret.
  - apply emits_bind; [apply Hb | exact IH].
Qed.

Ltac emits_step :=
  match goal with
  | |- emits _ (bind _ _) => apply emits_bind; [| intros ?]
  | |- emits _ (ret _) => apply emits_ret
  | |- emits _ (raise _) => apply emits_raise
  | |- emits _ (lift _) => apply emits_lift
  | |- emits _ (emit _) => apply emits_emit
  | |- emits _ get_iteration => apply emits_get_iteration
  | |- emits _ (set_iteration _) => apply emits_set_iteration
  | |- emits _ (for_each _ _ _) => apply emits_for_each; intros ? ?
  | |- emits _ (let (_, _) := ?x in _) => destruct x
  | |- emits _ (match ?x with _ => _ end) => destruct x
  end.

Ltac emits_auto := repeat emits_step.

Lemma emits_train (P : event -> Prop) (m : model) (l : list batch)
  (opt : optimizer) :
  P ModelTrain -> P ZeroGrad -> P Backward -> P OptimizerStep ->
  (forall v i, P (AddScalar "train_loss_logs" v i)) ->
  emits P (train m l opt).
Proof.
  intros H1 H2 H3 H4 H5. unfold train, train_batch. emits_auto; auto.
Qed.

Lemma emits_test (P : event -> Prop) (m : model) s l run sf :
  P ModelEval -> P (Evaluate s sf run) -> emits P (test m s l run sf).
Proof.
  intros H1 H2. unfold test. emits_auto; auto.
Qed.

Lemma filter_none (p : event -> bool) (P : event -> Prop) (t : list event) :
  (forall e, P e -> p e = false) -> Forall P t -> filter p t = [].
Proof.
  intros HP Ht. induction Ht as [| e t He _ IH]; simpl; [reflexivity |].
  rewrite (HP e He). exact IH.
Qed.

Ltac not_emitted :=
  let e := fresh "e" in
  let H := fresh "H" in
  intros e; destruct e; simpl; intros H; try contradiction; reflexivity.

Lemma readonly_ret {A : Type} (a : A) : readonly (ret a).
Proof. intros g. reflexivity. Qed.

Lemma readonly_raise {A : Type} (e : exn) : readonly (@raise T A e).
Proof. intros g. reflexivity. Qed.

Lemma readonly_bind {A B : Type} (c : M A) (k : A -> M B) :
  readonly c -> (forall a, readonly (k a)) -> readonly (bind c k).
Proof.
  intros Hc Hk g. specialize (Hc g). unfold bind.
  destruct (c g) as [[[a | e] g1] t1]; [| exact Hc].
  specialize (Hk a g1). destruct (k a g1) as [[r g2] t2].
  unfold globals_of in *. simpl in *. congruence.
Qed.

Lemma readonly_test (m : model) s l run sf : readonly (test m s l run sf).
Proof. intros g. apply test_trace. Qed.

(** ** The claims on [test] and [train] *)

(** [Raising.test] in one equation: the evaluator is called on the scores
    of the loader, and the mean is taken only if it returns. *)
Lemma raising_test_run (ev : Raising.evaluator) (m : model) s l run sf g :
  Raising.test ev m s l run sf g
  = (match ev s (snd (eval_pass m l)) sf run with
     | Ok (auc, acc) =>
         match truediv (py_sum (fst (eval_pass m l)))
                       (len (fst (eval_pass m l))) with
         | Ok x => Ok ((x, auc, acc), set_training false m)
         | Raise e => Raise e
         end
     | Raise e => Raise e
     end, g, [ModelEval; Evaluate s sf run]).
Proof.
  unfold Raising.test. rewrite bind_emit.
  fold (eval_pass m l). destruct (eval_pass m l) as [tl ys].
  rewrite bind_emit. cbn [fst snd].
  unfold bind, lift, ret, outcome, globals_of, trace.
  destruct (ev s ys sf run) as [[auc acc] | e]; [| reflexivity].
  destruct (truediv (py_sum tl) (len tl)); reflexivity.
Qed.

(** C6.  On the empty batch sequence the evaluation routine returns no
    metrics, but the division by zero of the mean of the losses is not the
    only way it fails: line 250 calls the evaluator on the empty score
    array before line 252 divides, so an exception of the evaluator is the
    one that leaves the routine, and [ZeroDivisionError] is raised exactly
    when the evaluator returns.  On a non-empty sequence the routine
    returns the mean of the losses of the batches in order with the AUC and
    the accuracy of the evaluator when the evaluator returns, and raises
    what the evaluator raises otherwise.  With the evaluator of the class,
    which returns, the routine is [test]. *)
Theorem test_returns_no_metrics_on_empty_and_metrics_otherwise
  (ev : Raising.evaluator) (m : model) (s : split) (run : string)
  (sf : option string) (g : globals) :
  Raising.test ev m s [] run sf g
  = (match ev s [] sf run with
     | Ok _ => Raise ZeroDivisionError
     | Raise e => Raise e
     end, g, [ModelEval; Evaluate s sf run])
  /\ (forall x, outcome (Raising.test ev m s [] run sf g) <> Ok x)
  /\ (forall (b : batch) (l : list batch),
        let losses := map (batch_loss (set_training false m)) (b :: l) in
        let y_score :=
          flat_map (fun b => softmax (forward (params m) false (fst b)))
                   (b :: l) in
        Raising.test ev m s (b :: l) run sf g
        = (match ev s y_score sf run with
           | Ok (auc, acc) =>
               Ok ((py_sum losses / inject_Z (len (b :: l)))%Q, auc, acc,
                   set_training false m)
           | Raise e => Raise e
           end, g, [ModelEval; Evaluate s sf run]))
  /\ forall l : list batch,
       Raising.test Raising.returning m s l run sf g = test m s l run sf g.
Proof.
  assert (Hnil : Raising.test ev m s [] run sf g
                 = (match ev s [] sf run with
                    | Ok _ => Raise ZeroDivisionError
                    | Raise e => Raise e
                    end, g, [ModelEval; Evaluate s sf run])).
  { rewrite raising_test_run. cbn [eval_pass fold_left fst snd].
    destruct (ev s [] sf run) as [[auc acc] | e]; reflexivity. }
  split; [exact Hnil |]. split; [| split].
  - intros x. rewrite Hnil. unfold outcome. cbn [fst].
    destruct (ev s [] sf run); discriminate.
  - intros b l losses y_score. subst losses y_score.
    clear Hnil. rewrite raising_test_run, eval_pass_eq. cbn [fst snd].
    destruct (ev s _ sf run) as [[auc acc] | e]; [| reflexivity].
    rewrite truediv_ok.
    + unfold len at 1. rewrite length_map. reflexivity.
    + unfold len. rewrite length_map. simpl List.length. lia.
  - intros l. rewrite raising_test_run. unfold Raising.returning.
    destruct l as [| b l].
    + rewrite test_nil. cbn [eval_pass fold_left fst snd].
      destruct (evaluate s [] sf run). reflexivity.
    + rewrite test_cons. unfold eval_metrics.
      destruct (evaluate s (snd (eval_pass m (b :: l))) sf run) as [auc acc].
      rewrite truediv_ok; [reflexivity |].
      rewrite eval_pass_len, len_cons. pose proof (len_nonneg l). lia.
Qed.

(** C4.  On a non-empty batch sequence the training step returns the sum of
    the losses it logged, taken in order, divided by their number; there is
    one such loss per batch; and on a single batch it returns the loss of
    that batch. *)
Theorem train_returns_mean_of_batch_losses
  (m : model) (l : list batch) (opt : optimizer) (g : globals) (i : Z) :
  l <> [] ->
  iteration g = Some i ->
  let losses := logged_losses (trace (train m l opt g)) in
  losses = train_losses (set_training true m, opt) l
  /\ len losses = len l
  /\ outcome (train m l opt g)
     = Ok ((py_sum losses / inject_Z (len losses))%Q,
           fst (trained m opt l), snd (trained m opt l))
  /\ forall b, l = [b] ->
       outcome (train m l opt g)
       = Ok (batch_loss (set_training true m) b,
             fst (trained m opt l), snd (trained m opt l)).
Proof.
  intros Hl Hi losses. subst losses.
  rewrite (train_nonempty m l opt g i Hl Hi).
  unfold trace, outcome. simpl fst. simpl snd.
  change (logged_losses (ModelTrain :: ?t)) with (logged_losses t).
  rewrite logged_losses_train_events.
  assert (Hlen : len (train_losses (set_training true m, opt) l) = len l)
    by (unfold len; rewrite train_losses_length; reflexivity).
  rewrite Hlen. repeat split.
  intros b ->. simpl train_losses. simpl fst.
  rewrite mean_singleton. reflexivity.
Qed.

Section Run.

Variable cfg : config.
Variable E : env.

(** ** One pass of the loop *)

Lemma epoch_body_run (st : locals) (epoch : Z) g i :
  train_loader E epoch <> [] ->
  train_loader_at_eval E <> [] ->
  val_loader E <> [] ->
  test_loader E <> [] ->
  iteration g = Some i ->
  epoch_body cfg E st epoch g
  = (Ok (epoch_next cfg E st epoch),
     {| iteration := Some (i + len (train_loader E epoch)) |},
     epoch_events cfg E i st epoch).
Proof.
  intros Htr Hte Hv Hts Hi. unfold epoch_body.
  rewrite (bind_ok _ _ g _ _ _ (train_nonempty _ _ _ g i Htr Hi)).
  set (g1 := {| iteration := Some (i + len (train_loader E epoch)) |}).
  cbv beta iota.
  rewrite (bind_ok _ _ g1 _ _ _ (test_nonempty _ Train _ _ None g1 Hte)).
  cbv beta iota.
  rewrite (bind_ok _ _ g1 _ _ _ (test_nonempty _ Val _ _ None g1 Hv)).
  cbv beta iota.
  rewrite (bind_ok _ _ g1 _ _ _ (test_nonempty _ Test _ _ None g1 Hts)).
  cbv beta iota.
  rewrite bind_emit.
  unfold epoch_events, epoch_next, epoch_val_auc, epoch_model, eval_events.
  destruct (scheduler_step (the_scheduler st) _) as [sch opt1] eqn:Hsch.
  simpl fst. simpl snd.
  rewrite (bind_ok _ _ g1 tt g1 _ (for_each_emit _ _ g1)).
  rewrite bind_emit.
  unfold outcome, globals_of, trace, deepcopy, ret.
  destruct (Qgtb _ (best_auc st)); simpl; rewrite <- ?app_assoc; reflexivity.
Qed.

(** ** The loop *)

Lemma in_range (n e : Z) : In e (range n) <-> 0 <= e < n.
Proof.
  unfold range. rewrite in_map_iff. split.
  - intros [k [Hk Hin]]. apply in_seq in Hin. lia.
  - intros H. exists (Z.to_nat e). split; [lia |]. apply in_seq. lia.
Qed.

Lemma range_nonpos (n : Z) : n <= 0 -> range n = [].
Proof.
  intros H. unfold range. replace (Z.to_nat n) with O by lia. reflexivity.
Qed.

Lemma range_succ (n : Z) : 0 <= n -> range (n + 1) = range n ++ [n].
Proof.
  intros H. unfold range.
  replace (Z.to_nat (n + 1)) with (S (Z.to_nat n)) by lia.
  rewrite seq_S, map_app. simpl. rewrite Z2Nat.id by lia. reflexivity.
Qed.

Lemma loop_run (epochs : list Z) :
  forall st g i,
    (forall e, In e epochs -> train_loader E e <> []) ->
    train_loader_at_eval E <> [] ->
    val_loader E <> [] ->
    test_loader E <> [] ->
    iteration g = Some i ->
    for_each (epoch_body cfg E) epochs st g
    = (Ok (fold_left (epoch_next cfg E) epochs st),
       {| iteration :=
            Some (fold_left (fun n e => n + len (train_loader E e)) epochs i) |},
       loop_events cfg E i st epochs).
Proof.
  induction epochs as [| e es IH]; intros st g i Htr Hte Hv Hts Hi.
  - destruct g as [it]. simpl in Hi. subst it. reflexivity.
  - simpl for_each.
    rewrite (bind_ok _ _ g _ _ _
               (epoch_body_run st e g i (Htr e (or_introl eq_refl)) Hte Hv Hts Hi)).
    rewrite (IH (epoch_next cfg E st e) _ (i + len (train_loader E e)));
      [reflexivity | | assumption | assumption | assumption | reflexivity].
    intros e' He'. apply Htr. right. exact He'.
Qed.

Lemma training_loop_run (st : locals) g i :
  loaders_nonempty E (num_epochs cfg) ->
  iteration g = Some i ->
  training_loop cfg E st g
  = (Ok (locals_after cfg E st (num_epochs cfg)),
     {| iteration :=
          Some (fold_left (fun n e => n + len (train_loader E e))
                          (range (num_epochs cfg)) i) |},
     loop_events cfg E i st (range (num_epochs cfg))).
Proof.
  intros [Htr [Hte [Hv Hts]]] Hi. unfold training_loop, locals_after.
  apply loop_run; try assumption.
  intros e He. apply Htr, in_range, He.
Qed.

(** ** Before and after the loop *)

Lemma eval_three_run (m : model) (sf : option string) {A : Type}
  (k : metrics -> metrics -> metrics -> model -> M A) g :
  train_loader_at_eval E <> [] ->
  val_loader E <> [] ->
  test_loader E <> [] ->
  ('(train_metrics, m1) <- test m Train (train_loader_at_eval E) (run cfg) sf ;;
   '(val_metrics, m2) <- test m1 Val (val_loader E) (run cfg) sf ;;
   '(test_metrics, m3) <- test m2 Test (test_loader E) (run cfg) sf ;;
   k train_metrics val_metrics test_metrics m3) g
  = (outcome (k (eval_metrics m Train (train_loader_at_eval E) (run cfg) sf)
                (eval_metrics m Val (val_loader E) (run cfg) sf)
                (eval_metrics m Test (test_loader E) (run cfg) sf)
                (set_training false m) g),
     globals_of (k (eval_metrics m Train (train_loader_at_eval E) (run cfg) sf)
                   (eval_metrics m Val (val_loader E) (run cfg) sf)
                   (eval_metrics m Test (test_loader E) (run cfg) sf)
                   (set_training false m) g),
     eval_events cfg sf
     ++ trace (k (eval_metrics m Train (train_loader_at_eval E) (run cfg) sf)
                 (eval_metrics m Val (val_loader E) (run cfg) sf)
                 (eval_metrics m Test (test_loader E) (run cfg) sf)
                 (set_training false m) g)).
Proof.
  intros Hte Hv Hts.
  rewrite (bind_ok _ _ g _ _ _ (test_nonempty _ Train _ _ sf g Hte)).
  cbv beta iota.
  rewrite (bind_ok _ _ g _ _ _ (test_nonempty _ Val _ _ sf g Hv)).
  cbv beta iota.
  rewrite (bind_ok _ _ g _ _ _ (test_nonempty _ Test _ _ sf g Hts)).
  cbv beta iota. unfold outcome, globals_of, trace. simpl fst. simpl snd.
  reflexivity.
Qed.

Lemma resume_eval_run (m0 : model) g :
  train_loader_at_eval E <> [] ->
  val_loader E <> [] ->
  test_loader E <> [] ->
  resumed_model cfg E = Some m0 ->
  resume_eval cfg E g = (Ok m0, g, resume_events cfg).
Proof.
  intros Hte Hv Hts. unfold resume_eval, resumed_model, resume_events.
  destruct (model_path cfg) as [path |].
  - destruct (torch_load path) as [sd |]; [| discriminate].
    destruct (load_state_dict (params (built_model E)) sd) as [p |];
      [| discriminate].
    intros H. injection H as <-.
    rewrite (eval_three_run _ (Some (out_dir cfg)) (fun _ _ _ m => ret m) g Hte Hv Hts).
    unfold outcome, globals_of, trace, ret. simpl. reflexivity.
  - intros H. injection H as <-. reflexivity.
Qed.

Lemma persist_run (st : locals) g :
  train_loader_at_eval E <> [] ->
  val_loader E <> [] ->
  test_loader E <> [] ->
  persist_and_final_eval cfg E st g = (Ok tt, g, final_events cfg E st).
Proof.
  intros Hte Hv Hts. unfold persist_and_final_eval, final_events.
  rewrite bind_emit.
  rewrite (eval_three_run (best_model st) (Some (out_dir cfg))
             (fun a b c _ =>
                emit (AppendLog
                        (path_join (out_dir cfg) (data_flag cfg ++ "_log.txt")%string)
                        (data_flag cfg) (auc_acc a) (auc_acc b) (auc_acc c)) ;;;
                emit WriterClose) g Hte Hv Hts).
  reflexivity.
Qed.

(** A run whose checkpoint loads and whose loaders are not empty. *)
Lemma main_run (m0 : model) g :
  num_epochs cfg <> 0 ->
  loaders_nonempty E (num_epochs cfg) ->
  resumed_model cfg E = Some m0 ->
  main cfg E g
  = (Ok tt,
     {| iteration := Some (batches_before E (num_epochs cfg)) |},
     resume_events cfg
     ++ WriterOpen (path_join (out_dir cfg) "Tensorboard_Results")
     :: loop_events cfg E 0 (start_locals cfg m0) (range (num_epochs cfg))
     ++ final_events cfg E
          (locals_after cfg E (start_locals cfg m0) (num_epochs cfg))).
Proof.
  intros Hn Hne Hres. pose proof Hne as [Htr [Hte [Hv Hts]]].
  unfold main.
  rewrite (bind_ok _ _ g _ _ _ (resume_eval_run m0 g Hte Hv Hts Hres)).
  destruct (Z.eqb_spec (num_epochs cfg) 0) as [H0 | _]; [contradiction |].
  assert (Hinit : init_locals cfg m0 g
                  = (Ok (start_locals cfg m0), {| iteration := Some 0 |},
                     [WriterOpen (path_join (out_dir cfg) "Tensorboard_Results")])).
  { unfold init_locals. rewrite bind_emit. reflexivity. }
  rewrite (bind_ok _ _ g _ _ _ Hinit).
  rewrite (bind_ok _ _ _ _ _ _
             (training_loop_run (start_locals cfg m0)
                {| iteration := Some 0 |} 0 Hne eq_refl)).
  rewrite persist_run by assumption.
  unfold outcome, globals_of, trace, batches_before. simpl fst. simpl snd.
  simpl app. reflexivity.
Qed.

(** ** The phases of [main] and their events *)

Lemma epoch_body_emits (st : locals) (epoch : Z) :
  emits loop_event (epoch_body cfg E st epoch).
Proof.
  unfold epoch_body. apply emits_bind.
  { apply emits_train; simpl; auto. }
  intros [[train_loss m] opt]. apply emits_bind.
  { apply emits_test; simpl; auto. }
  intros [train_metrics m1]. apply emits_bind.
  { apply emits_test; simpl; auto. }
  intros [val_metrics m2]. apply emits_bind.
  { apply emits_test; simpl; auto. }
  intros [test_metrics m3]. emits_auto; simpl; auto.
Qed.

Lemma training_loop_emits (st : locals) :
  emits loop_event (training_loop cfg E st).
Proof.
  unfold training_loop. apply emits_for_each. apply epoch_body_emits.
Qed.

Lemma resume_eval_emits : emits (eval_event (out_dir cfg)) (resume_eval cfg E).
Proof.
  unfold resume_eval.
  destruct (model_path cfg) as [path |]; [| apply emits_ret].
  destruct (torch_load path) as [sd |]; [| apply emits_raise].
  destruct (load_state_dict _ sd) as [p |]; [| apply emits_raise].
  apply emits_bind; [apply emits_test; simpl; auto |].
  intros [train_metrics m1].
  apply emits_bind; [apply emits_test; simpl; auto |].
  intros [val_metrics m2].
  apply emits_bind; [apply emits_test; simpl; auto |].
  intros [test_metrics m3]. apply emits_ret.
Qed.

Lemma resume_eval_readonly : readonly (resume_eval cfg E).
Proof.
  unfold resume_eval.
  destruct (model_path cfg) as [path |]; [| apply readonly_ret].
  destruct (torch_load path) as [sd |]; [| apply readonly_raise].
  destruct (load_state_dict _ sd) as [p |]; [| apply readonly_raise].
  apply readonly_bind; [apply readonly_test |]. intros [train_metrics m1].
  apply readonly_bind; [apply readonly_test |]. intros [val_metrics m2].
  apply readonly_bind; [apply readonly_test |]. intros [test_metrics m3].
  apply readonly_ret.
Qed.

Lemma init_locals_emits (m : model) :
  emits (outside_event (out_dir cfg)) (init_locals cfg m).
Proof. unfold init_locals. emits_auto. simpl. auto. Qed.

Lemma persist_emits (st : locals) :
  emits (outside_event (out_dir cfg)) (persist_and_final_eval cfg E st).
Proof.
  unfold persist_and_final_eval.
  apply emits_bind; [apply emits_emit; simpl; auto |]. intros _.
  apply emits_bind; [apply emits_test; simpl; auto |].
  intros [train_metrics m1].
  apply emits_bind; [apply emits_test; simpl; auto |].
  intros [val_metrics m2].
  apply emits_bind; [apply emits_test; simpl; auto |].
  intros [test_metrics m3]. emits_auto; simpl; auto.
Qed.

Lemma eval_event_outside (d : string) (e : event) :
  eval_event d e -> outside_event d e.
Proof. destruct e; simpl; auto. Qed.

(** Without epochs to run, [main] emits only events of outside the loop. *)
Lemma main_emits_outside :
  num_epochs cfg <= 0 -> emits (outside_event (out_dir cfg)) (main cfg E).
Proof.
  intros Hn. unfold main. apply emits_bind.
  { apply (emits_weaken (eval_event (out_dir cfg)));
      [apply eval_event_outside | apply resume_eval_emits]. }
  intros m. destruct (num_epochs cfg =? 0); [apply emits_ret |].
  apply emits_bind; [apply init_locals_emits |]. intros st.
  apply emits_bind; [| intros st'; apply persist_emits].
  unfold training_loop. rewrite range_nonpos by exact Hn. apply emits_ret.
Qed.

(** The trace of [main] is the events of the resume evaluation, then those
    of the setup and of the loop, then those of lines 172-194. *)
Lemma main_phases g :
  exists t_resume t_loop t_final,
    trace (main cfg E g) = t_resume ++ t_loop ++ t_final
    /\ t_resume = trace (resume_eval cfg E g)
    /\ Forall (fun e => loop_event e \/ exists d, e = WriterOpen d) t_loop
    /\ Forall (outside_event (out_dir cfg)) t_final.
Proof.
  unfold main, bind.
  destruct (resume_eval cfg E g) as [[[m | e] g1] t1].
  2:{ exists t1, [], []. rewrite app_nil_r. repeat split; constructor. }
  destruct (num_epochs cfg =? 0).
  { exists t1, [], []. repeat split; constructor. }
  pose proof (init_locals_emits m g1) as Hinit.
  assert (Hi : init_locals cfg m g1
               = (Ok (start_locals cfg m), {| iteration := Some 0 |},
                  [WriterOpen (path_join (out_dir cfg) "Tensorboard_Results")])).
  { unfold init_locals. rewrite bind_emit. reflexivity. }
  rewrite Hi.
  pose proof (training_loop_emits (start_locals cfg m) {| iteration := Some 0 |})
    as Hloop.
  destruct (training_loop cfg E (start_locals cfg m) {| iteration := Some 0 |})
    as [[[st | e] g2] t2].
  - pose proof (persist_emits st g2) as Hfin.
    destruct (persist_and_final_eval cfg E st g2) as [[r g3] t3].
    exists t1, (WriterOpen (path_join (out_dir cfg) "Tensorboard_Results") :: t2), t3.
    simpl. repeat split; [| exact Hfin].
    constructor; [right; eexists; reflexivity |].
    simpl in Hloop. rewrite Forall_forall in *. auto.
  - exists t1, (WriterOpen (path_join (out_dir cfg) "Tensorboard_Results") :: t2), [].
    simpl. rewrite app_nil_r. repeat split; [| constructor].
    constructor; [right; eexists; reflexivity |].
    simpl in Hloop. rewrite Forall_forall in *. auto.
Qed.

(** ** Reading the trace of a run that does not raise *)

Lemma flat_map_none {X : Type} (f : event -> list X) (t : list event) :
  Forall (fun e => f e = []) t -> flat_map f t = [].
Proof.
  intros Ht. induction Ht as [| e t He _ IH]; simpl; [reflexivity |].
  rewrite He, IH. reflexivity.
Qed.

Lemma train_events_forall (P : event -> Prop) (l : list batch) :
  P ZeroGrad -> P Backward -> P OptimizerStep ->
  (forall v i, P (AddScalar "train_loss_logs" v i)) ->
  forall i mo, Forall P (train_events i mo l).
Proof.
  intros H1 H2 H3 H4. induction l as [| b l IH]; intros i mo; simpl.
  - constructor.
  - repeat constructor; auto.
Qed.

(** The keys of the log dictionary. *)
Lemma fromkeys_keys :
  map fst (fromkeys (train_logs ++ val_logs ++ test_logs) 0%Q)
  = train_logs ++ val_logs ++ test_logs.
Proof. reflexivity. Qed.

Lemma set_logs_keys (d : list (string * Q)) (x y z : metrics) :
  map fst d = train_logs ++ val_logs ++ test_logs ->
  map fst (set_logs (set_logs (set_logs d train_logs x) val_logs y) test_logs z)
  = train_logs ++ val_logs ++ test_logs.
Proof.
  intros H.
  do 9 (destruct d as [| [? ?] d]; [discriminate H |]).
  destruct d; [| discriminate H].
  simpl in H. injection H as -> -> -> -> -> -> -> -> ->. reflexivity.
Qed.

Lemma epoch_next_keys (st : locals) (epoch : Z) :
  map fst (log_dict st) = train_logs ++ val_logs ++ test_logs ->
  map fst (log_dict (epoch_next cfg E st epoch))
  = train_logs ++ val_logs ++ test_logs.
Proof.
  intros H. unfold epoch_next.
  destruct (Qgtb _ (best_auc st)); simpl log_dict; apply set_logs_keys, H.
Qed.

Lemma scalars_no_loss_trace (d : list (string * Q)) (epoch : Z) :
  map fst d = train_logs ++ val_logs ++ test_logs ->
  logged_steps (map (fun kv => AddScalar (fst kv) (snd kv) epoch) d) = [].
Proof.
  intros H.
  do 9 (destruct d as [| [? ?] d]; [discriminate H |]).
  destruct d; [| discriminate H].
  simpl in H. injection H as -> -> -> -> -> -> -> -> ->. reflexivity.
Qed.

Lemma scalars_forall (P : event -> Prop) (d : list (string * Q)) (epoch : Z) :
  (forall k v, P (AddScalar k v epoch)) ->
  Forall P (map (fun kv => AddScalar (fst kv) (snd kv) epoch) d).
Proof.
  intros H. apply Forall_forall. intros e He.
  apply in_map_iff in He as [kv [<- _]]. apply H.
Qed.


Lemma logged_steps_app (t t' : list event) :
  logged_steps (t ++ t') = logged_steps t ++ logged_steps t'.
Proof. apply flat_map_app. Qed.



Lemma epoch_events_steps (i : Z) (st : locals) (epoch : Z) :
  map fst (log_dict st) = train_logs ++ val_logs ++ test_logs ->
  logged_steps (epoch_events cfg E i st epoch)
  = steps_from i (len (train_loader E epoch)).
Proof.
  intros Hk. unfold epoch_events.
  change (logged_steps (ModelTrain :: ?t)) with (logged_steps t).
  rewrite !logged_steps_app.
  change (logged_steps (SchedulerStep :: ?t)) with (logged_steps t).
  rewrite logged_steps_app.
  rewrite logged_steps_train_events.
  rewrite scalars_no_loss_trace by (apply epoch_next_keys, Hk).
  simpl. rewrite app_nil_r. reflexivity.
Qed.



Lemma fold_batches_shift (epochs : list Z) :
  forall i,
    fold_left (fun n e => n + len (train_loader E e)) epochs i
    = i + fold_left (fun n e => n + len (train_loader E e)) epochs 0.
Proof.
  induction epochs as [| e es IH]; intros i; simpl; [lia |].
  rewrite IH, (IH (len (train_loader E e))). lia.
Qed.

Lemma fold_batches_nonneg (epochs : list Z) :
  0 <= fold_left (fun n e => n + len (train_loader E e)) epochs 0.
Proof.
  induction epochs as [| e es IH]; simpl; [lia |].
  rewrite fold_batches_shift. pose proof (len_nonneg (train_loader E e)). lia.
Qed.

Lemma loop_events_steps (epochs : list Z) :
  forall i st,
    map fst (log_dict st) = train_logs ++ val_logs ++ test_logs ->
    logged_steps (loop_events cfg E i st epochs)
    = steps_from i (fold_left (fun n e => n + len (train_loader E e)) epochs 0).
Proof.
  induction epochs as [| e es IH]; intros i st Hk; cbn [loop_events];
    [reflexivity |].
  rewrite logged_steps_app, epoch_events_steps by exact Hk.
  rewrite IH by (apply epoch_next_keys, Hk).
  simpl fold_left. rewrite (fold_batches_shift es (len (train_loader E e))).
  rewrite steps_from_app; [reflexivity | apply len_nonneg | apply fold_batches_nonneg].
Qed.

Lemma batches_before_succ (k : Z) :
  0 <= k ->
  batches_before E (k + 1) = batches_before E k + len (train_loader E k).
Proof.
  intros Hk. unfold batches_before. rewrite range_succ by exact Hk.
  rewrite fold_left_app. reflexivity.
Qed.

Lemma steps_from_zero (n : Z) : steps_from 0 n = range n.
Proof.
  unfold steps_from. rewrite <- (map_id (range n)) at 2.
  apply map_ext. intros k. lia.
Qed.

Lemma resume_events_read :
  filter is_model_train (resume_events cfg) = []
  /\ logged_steps (resume_events cfg) = []
  /\ exists k : nat,
       (k <= 1)%nat
       /\ evaluations (resume_events cfg)
          = List.concat (repeat [(Train, Some (out_dir cfg));
                                 (Val, Some (out_dir cfg));
                                 (Test, Some (out_dir cfg))] k).
Proof.
  unfold resume_events. destruct (model_path cfg).
  - repeat split. exists 1%nat. split; [lia | reflexivity].
  - repeat split. exists 0%nat. split; [lia | reflexivity].
Qed.



(** ** The claims on the phases of [main] *)


(** C5.  In a run that does not stop at the early exit, whose checkpoint,
    if any, loads and whose loaders are not empty, the steps under which
    the batch losses are logged are 0, 1, 2, ... without a gap or a
    restart, one per batch of every epoch, and the counter ends at the
    number of batches of all epochs.  A training step on [l] moves the
    counter from [i] to [i + len l] and logs under [i], ..., [i + len l - 1]. *)
Theorem global_step_counts_batches (m0 : model) (g : globals) :
  num_epochs cfg <> 0 ->
  loaders_nonempty E (num_epochs cfg) ->
  resumed_model cfg E = Some m0 ->
  globals_of (main cfg E g)
  = {| iteration := Some (batches_before E (num_epochs cfg)) |}
  /\ logged_steps (trace (main cfg E g))
     = range (batches_before E (num_epochs cfg))
  /\ batches_before E 0 = 0
  /\ (forall k, 0 <= k ->
        batches_before E (k + 1)
        = batches_before E k + len (train_loader E k))
  /\ forall m l opt g' i,
       iteration g' = Some i ->
       globals_of (train m l opt g') = {| iteration := Some (i + len l) |}
       /\ logged_steps (trace (train m l opt g')) = steps_from i (len l).
Proof.
  intros Hn Hne Hres. split; [| split; [| split; [| split]]].
  - rewrite (main_run m0 g Hn Hne Hres). reflexivity.
  - rewrite (main_run m0 g Hn Hne Hres). unfold trace. simpl snd.
    destruct resume_events_read as [_ [Hrs _]].
    rewrite logged_steps_app, Hrs. simpl app.
    change (logged_steps (WriterOpen ?d :: ?t)) with (logged_steps t).
    rewrite logged_steps_app, loop_events_steps by apply fromkeys_keys.
    replace (logged_steps (final_events cfg E _)) with (@nil Z) by reflexivity.
    rewrite app_nil_r. apply steps_from_zero.
  - reflexivity.
  - apply batches_before_succ.
  - intros m l opt g' i Hi. rewrite (train_run m l opt g' i Hi).
    split; [reflexivity |]. unfold trace. simpl snd.
    change (logged_steps (ModelTrain :: ?t)) with (logged_steps t).
    apply logged_steps_train_events.
Qed.

Lemma loop_event_no_folder (e : event) :
  loop_event e ->
  writes_results e = false
  /\ forall s sf r, e = Evaluate s sf r -> sf = None.
Proof.
  destruct e; simpl; intros H; try contradiction; split;
    try reflexivity; try discriminate.
  - subst. reflexivity.
  - intros s' sf' r' Heq. injection Heq as <- <- <-. exact H.
Qed.

Lemma outside_event_out_dir (e : event) :
  outside_event (out_dir cfg) e ->
  forall s sf r, e = Evaluate s sf r -> sf = Some (out_dir cfg).
Proof.
  destruct e; simpl; intros H s' sf' r' Heq; try discriminate.
  injection Heq as <- <- <-. exact H.
Qed.

(** C10.  Every evaluator call of the loop passes no save folder, so the
    loop writes no results file; every evaluator call of the resume
    evaluation and of the final evaluation passes the output directory; and
    the trace of [main] is made of these three parts, the setup of the loop
    calling no evaluator. *)
Theorem results_files_written_only_outside_loop :
  (forall st,
      emits (fun e => writes_results e = false
                      /\ forall s sf r, e = Evaluate s sf r -> sf = None)
            (training_loop cfg E st))
  /\ emits (fun e => forall s sf r,
                  e = Evaluate s sf r -> sf = Some (out_dir cfg))
           (resume_eval cfg E)
  /\ (forall st,
        emits (fun e => forall s sf r,
                   e = Evaluate s sf r -> sf = Some (out_dir cfg))
              (persist_and_final_eval cfg E st))
  /\ forall g, exists t_resume t_loop t_final,
        trace (main cfg E g) = t_resume ++ t_loop ++ t_final
        /\ t_resume = trace (resume_eval cfg E g)
        /\ Forall (fun e => writes_results e = false) t_loop
        /\ Forall (fun e => forall s sf r,
                       e = Evaluate s sf r -> sf = Some (out_dir cfg))
                  (t_resume ++ t_final).
Proof.
  split; [| split; [| split]].
  - intros st. apply (emits_weaken loop_event);
      [apply loop_event_no_folder | apply training_loop_emits].
  - apply (emits_weaken (eval_event (out_dir cfg))); [| apply resume_eval_emits].
    intros e He. apply outside_event_out_dir, eval_event_outside, He.
  - intros st. apply (emits_weaken (outside_event (out_dir cfg)));
      [apply outside_event_out_dir | apply persist_emits].
  - intros g. destruct (main_phases g) as [t1 [t2 [t3 [Ht [H1 [H2 H3]]]]]].
    exists t1, t2, t3. split; [exact Ht |]. split; [exact H1 |]. split.
    + rewrite Forall_forall in *. intros e He.
      destruct (H2 e He) as [Hl | [d ->]]; [| reflexivity].
      apply loop_event_no_folder, Hl.
    + apply Forall_app. split.
      * subst t1. pose proof (resume_eval_emits g) as Hr.
        rewrite Forall_forall in *. intros e He.
        apply outside_event_out_dir, eval_event_outside, Hr, He.
      * rewrite Forall_forall in *. intros e He.
        apply outside_event_out_dir, H3, He.
Qed.

(** C7.  With an epoch count of zero [main] does what the resume evaluation
    does and nothing more: the globals are untouched, no training step, no
    optimizer step, no checkpoint check and no checkpoint save occurs.
    Without a resume path nothing at all is done; with one that loads, and
    evaluation loaders that are not empty, the three splits are evaluated
    into the output directory and [main] returns. *)
Theorem zero_epochs_only_resume_eval (g : globals) :
  num_epochs cfg = 0 ->
  globals_of (main cfg E g) = g
  /\ trace (main cfg E g) = trace (resume_eval cfg E g)
  /\ filter is_model_train (trace (main cfg E g)) = []
  /\ filter is_optimizer_step (trace (main cfg E g)) = []
  /\ filter is_compare (trace (main cfg E g)) = []
  /\ filter is_torch_save (trace (main cfg E g)) = []
  /\ (model_path cfg = None -> main cfg E g = (Ok tt, g, []))
  /\ (forall m0,
        model_path cfg <> None ->
        resumed_model cfg E = Some m0 ->
        train_loader_at_eval E <> [] ->
        val_loader E <> [] ->
        test_loader E <> [] ->
        main cfg E g = (Ok tt, g, eval_events cfg (Some (out_dir cfg)))).
Proof.
  intros Hn.
  assert (Hmain : main cfg E g
                  = (match outcome (resume_eval cfg E g) with
                     | Ok _ => Ok tt
                     | Raise e => Raise e
                     end,
                     g, trace (resume_eval cfg E g))).
  { unfold main, bind. rewrite Hn. simpl Z.eqb.
    pose proof (resume_eval_readonly g) as Hg.
    destruct (resume_eval cfg E g) as [[[m | e] g1] t1];
      unfold globals_of, ret in *; simpl in *; subst g1;
      rewrite ?app_nil_r; reflexivity. }
  pose proof (resume_eval_emits g) as Hev.
  rewrite Hmain. unfold globals_of, trace at 1 3 5 7 9. simpl fst. simpl snd.
  split; [reflexivity |]. split; [reflexivity |].
  split; [| split; [| split; [| split; [| split]]]].
  - refine (filter_none _ _ _ _ Hev); not_emitted.
  - refine (filter_none _ _ _ _ Hev); not_emitted.
  - refine (filter_none _ _ _ _ Hev); not_emitted.
  - refine (filter_none _ _ _ _ Hev); not_emitted.
  - intros Hp. unfold resume_eval. rewrite Hp. reflexivity.
  - intros m0 Hp Hres Hte Hv Hts.
    rewrite (resume_eval_run m0 g Hte Hv Hts Hres).
    unfold resume_events. destruct (model_path cfg); [reflexivity | contradiction].
Qed.

(** C9.  With a negative epoch count the early exit is not taken.  No
    training step, no optimizer step and no checkpoint check occurs; and
    when the checkpoint, if any, loads and the evaluation loaders are not
    empty, [main] returns after saving the parameters of the model it
    started with under 'net' in 'best_model.pth' and evaluating that model
    on the three splits into the output directory. *)
Theorem negative_epochs_persist_initial_model (g : globals) :
  num_epochs cfg < 0 ->
  filter is_model_train (trace (main cfg E g)) = []
  /\ filter is_optimizer_step (trace (main cfg E g)) = []
  /\ filter is_compare (trace (main cfg E g)) = []
  /\ forall m0,
       resumed_model cfg E = Some m0 ->
       train_loader_at_eval E <> [] ->
       val_loader E <> [] ->
       test_loader E <> [] ->
       main cfg E g
       = (Ok tt, {| iteration := Some 0 |},
          resume_events cfg
          ++ WriterOpen (path_join (out_dir cfg) "Tensorboard_Results")
          :: TorchSave (path_join (out_dir cfg) "best_model.pth")
               [("net", state_dict (params m0))]
          :: eval_events cfg (Some (out_dir cfg))
          ++ [AppendLog
                (path_join (out_dir cfg) (data_flag cfg ++ "_log.txt")%string)
                (data_flag cfg)
                (auc_acc (eval_metrics m0 Train (train_loader_at_eval E)
                            (run cfg) (Some (out_dir cfg))))
                (auc_acc (eval_metrics m0 Val (val_loader E)
                            (run cfg) (Some (out_dir cfg))))
                (auc_acc (eval_metrics m0 Test (test_loader E)
                            (run cfg) (Some (out_dir cfg))));
              WriterClose]).
Proof.
  intros Hn.
  pose proof (main_emits_outside ltac:(lia) g) as Hout.
  split; [| split; [| split]].
  - refine (filter_none _ _ _ _ Hout); not_emitted.
  - refine (filter_none _ _ _ _ Hout); not_emitted.
  - refine (filter_none _ _ _ _ Hout); not_emitted.
  - intros m0 Hres Hte Hv Hts.
    rewrite (main_run m0 g); [| lia | | exact Hres].
    + unfold batches_before, locals_after.
      rewrite range_nonpos by lia. reflexivity.
    + repeat split; try assumption. intros e He. lia.
Qed.

(** ** The learning rate across the epochs *)

Lemma lr_train_step (mo : model * optimizer) (b : batch) :
  lr (snd (train_step mo b)) = lr (snd mo).
Proof.
  unfold train_step. destruct (adam_step _ _ _ _ _) as [a p]. reflexivity.
Qed.

Lemma lr_trained (m : model) (opt : optimizer) (l : list batch) :
  lr (snd (trained m opt l)) = lr opt.
Proof.
  unfold trained. generalize (set_training true m). revert opt.
  induction l as [| b l IH]; intros opt m'; simpl; [reflexivity |].
  destruct (train_step (m', opt) b) as [m1 opt1] eqn:Hs.
  rewrite IH. change opt1 with (snd (m1, opt1)). rewrite <- Hs.
  apply lr_train_step.
Qed.

Lemma locals_after_succ (st : locals) (k : Z) :
  0 <= k ->
  locals_after cfg E st (k + 1) = epoch_next cfg E (locals_after cfg E st k) k.
Proof.
  intros Hk. unfold locals_after. rewrite range_succ by exact Hk.
  rewrite fold_left_app. reflexivity.
Qed.

Lemma epoch_next_schedule (st : locals) (epoch : Z) :
  the_scheduler (epoch_next cfg E st epoch)
  = {| last_epoch := last_epoch (the_scheduler st) + 1;
       milestones := milestones (the_scheduler st);
       gamma := gamma (the_scheduler st) |}
  /\ lr (the_optimizer (epoch_next cfg E st epoch))
     = match milestone_count (the_scheduler st)
               (last_epoch (the_scheduler st) + 1) with
       | O => lr (the_optimizer st)
       | c => (lr (the_optimizer st)
               * gamma (the_scheduler st) ^ Z.of_nat c)%Q
       end.
Proof.
  unfold epoch_next.
  set (opt := snd (trained (the_model st) (the_optimizer st)
                           (train_loader E epoch))).
  assert (Hlr : lr opt = lr (the_optimizer st)) by apply lr_trained.
  unfold scheduler_step.
  destruct (milestone_count _ _);
    destruct (Qgtb _ (best_auc st)); simpl; rewrite ?Hlr; split; reflexivity.
Qed.

Lemma scheduler_after (m0 : model) (k : nat) :
  the_scheduler (locals_after cfg E (start_locals cfg m0) (Z.of_nat k))
  = {| last_epoch := Z.of_nat k;
       milestones := initial_milestones cfg;
       gamma := initial_gamma |}.
Proof.
  induction k as [| k IH]; [reflexivity |].
  rewrite Nat2Z.inj_succ, <- Z.add_1_r, locals_after_succ by lia.
  rewrite (proj1 (epoch_next_schedule _ _)), IH. reflexivity.
Qed.

Lemma milestone_count_100 (s : scheduler) (e : Z) :
  milestones s = [((1 # 2) * inject_Z 100)%Q; ((3 # 4) * inject_Z 100)%Q] ->
  milestone_count s e = if (e =? 50) || (e =? 75) then 1%nat else 0%nat.
Proof.
  intros Hm. unfold milestone_count. rewrite Hm.
  destruct (Z.eqb_spec e 50) as [-> | H50]; [reflexivity |].
  destruct (Z.eqb_spec e 75) as [-> | H75]; [reflexivity |].
  simpl filter.
  destruct (Qeq_bool (inject_Z e) ((1 # 2) * inject_Z 100)) eqn:H1.
  { apply Qeq_bool_iff in H1. unfold Qeq in H1. simpl in H1. lia. }
  destruct (Qeq_bool (inject_Z e) ((3 # 4) * inject_Z 100)) eqn:H2.
  { apply Qeq_bool_iff in H2. unfold Qeq in H2. simpl in H2. lia. }
  reflexivity.
Qed.

(** ** The loop inside [main] *)

Lemma bind_assoc {A B C : Type} (c : M A) (k : A -> M B) (h : B -> M C) g :
  bind (bind c k) h g = bind c (fun a => bind (k a) h) g.
Proof.
  unfold bind. destruct (c g) as [[[a | e] g1] t1]; [| reflexivity].
  destruct (k a g1) as [[[b | e] g2] t2]; [| reflexivity].
  destruct (h b g2) as [[r g3] t3]. rewrite app_assoc. reflexivity.
Qed.

Lemma bind_ext {A B : Type} (c : M A) (k k' : A -> M B) g :
  (forall a g1, k a g1 = k' a g1) -> bind c k g = bind c k' g.
Proof.
  intros H. unfold bind. destruct (c g) as [[[a | e] g1] t1]; [| reflexivity].
  rewrite H. reflexivity.
Qed.

(** The first [k] passes of the loop, from the locals that lines 120-140
    set up, when the loaders they iterate are not empty. *)
Lemma first_epochs_run (m0 : model) (k : Z) g :
  (forall e, 0 <= e < k -> train_loader E e <> []) ->
  train_loader_at_eval E <> [] ->
  val_loader E <> [] ->
  test_loader E <> [] ->
  first_epochs cfg E m0 k g
  = (Ok (locals_after cfg E (start_locals cfg m0) k),
     {| iteration := Some (batches_before E k) |},
     WriterOpen (path_join (out_dir cfg) "Tensorboard_Results")
     :: loop_events cfg E 0 (start_locals cfg m0) (range k)).
Proof.
  intros Htr Hte Hv Hts. unfold first_epochs.
  assert (Hinit : init_locals cfg m0 g
                  = (Ok (start_locals cfg m0), {| iteration := Some 0 |},
                     [WriterOpen (path_join (out_dir cfg) "Tensorboard_Results")])).
  { unfold init_locals. rewrite bind_emit. reflexivity. }
  rewrite (bind_ok _ _ g _ _ _ Hinit).
  rewrite (loop_run (range k) (start_locals cfg m0) {| iteration := Some 0 |} 0);
    try assumption; [reflexivity | | reflexivity].
  intros e He. apply Htr, in_range, He.
Qed.

(** [main] with at least one epoch to run, or a negative count: the resume
    evaluation, the passes of the loop from the locals of lines 120-140,
    then lines 172-194. *)
Lemma main_first_epochs g :
  num_epochs cfg <> 0 ->
  main cfg E g
  = (m <- resume_eval cfg E ;;
     st <- first_epochs cfg E m (num_epochs cfg) ;;
     persist_and_final_eval cfg E st) g.
Proof.
  intros Hn. unfold main, first_epochs, training_loop.
  destruct (Z.eqb_spec (num_epochs cfg) 0) as [H0 | _]; [contradiction |].
  apply bind_ext. intros m g1. symmetry. apply bind_assoc.
Qed.

(** The learning rate after one more pass of the loop. *)
Lemma lr_after_succ (m0 : model) (k : Z) :
  0 <= k ->
  lr (the_optimizer (locals_after cfg E (start_locals cfg m0) (k + 1)))
  = match milestone_count
            {| last_epoch := k; milestones := initial_milestones cfg;
               gamma := initial_gamma |} (k + 1) with
    | O => lr (the_optimizer (locals_after cfg E (start_locals cfg m0) k))
    | c => (lr (the_optimizer (locals_after cfg E (start_locals cfg m0) k))
            * initial_gamma ^ Z.of_nat c)%Q
    end.
Proof.
  intros Hk. rewrite locals_after_succ by exact Hk.
  rewrite (proj2 (epoch_next_schedule _ _)).
  assert (Hs : the_scheduler (locals_after cfg E (start_locals cfg m0) k)
               = {| last_epoch := k;
                    milestones := initial_milestones cfg;
                    gamma := initial_gamma |}).
  { rewrite <- (Z2Nat.id k) at 1 by lia. rewrite scheduler_after.
    rewrite Z2Nat.id by lia. reflexivity. }
  rewrite Hs. reflexivity.
Qed.

(** C8.  Lines 120-123 give the optimizer the configured rate and the
    scheduler the milestones [0.5 * num_epochs] and [0.75 * num_epochs],
    the factor 0.1 and a counter at 0, whatever the epoch count.  For 100
    epochs on loaders that are not empty, the locals of [main] after [k]
    passes of its loop hold the configured rate before the first pass, and
    the pass of epoch [k] leaves the rate multiplied by 0.1 when it moves
    the counter of the scheduler to 50 or to 75 and leaves it as it was
    otherwise; [main] is the resume evaluation, these 100 passes and lines
    172-194. *)
Theorem lr_decays_at_half_and_three_quarters (m0 : model) (g : globals) :
  (exists st,
      outcome (init_locals cfg m0 g) = Ok st
      /\ milestones (the_scheduler st)
         = [((1 # 2) * inject_Z (num_epochs cfg))%Q;
            ((3 # 4) * inject_Z (num_epochs cfg))%Q]
      /\ gamma (the_scheduler st) = (1 # 10)%Q
      /\ last_epoch (the_scheduler st) = 0
      /\ lr (the_optimizer st)
         = if String.eqb (model_flag cfg) "vit3d"
           then (1 # 10000)%Q else (1 # 1000)%Q)
  /\ (num_epochs cfg = 100 ->
      loaders_nonempty E 100 ->
      (exists st,
          outcome (first_epochs cfg E m0 0 g) = Ok st
          /\ lr (the_optimizer st)
             = if String.eqb (model_flag cfg) "vit3d"
               then (1 # 10000)%Q else (1 # 1000)%Q)
      /\ (forall k,
            0 <= k < 100 ->
            exists st st',
              outcome (first_epochs cfg E m0 k g) = Ok st
              /\ outcome (first_epochs cfg E m0 (k + 1) g) = Ok st'
              /\ lr (the_optimizer st')
                 = if (k + 1 =? 50) || (k + 1 =? 75)
                   then (lr (the_optimizer st) * (1 # 10))%Q
                   else lr (the_optimizer st))
      /\ main cfg E g
         = (m <- resume_eval cfg E ;;
            st <- first_epochs cfg E m 100 ;;
            persist_and_final_eval cfg E st) g).
Proof.
  split.
  { exists (start_locals cfg m0). split; [| repeat split].
    unfold init_locals. rewrite bind_emit. reflexivity. }
  intros Hn [Htr [Hte [Hv Hts]]].
  assert (Hrun : forall k,
             0 <= k <= 100 ->
             outcome (first_epochs cfg E m0 k g)
             = Ok (locals_after cfg E (start_locals cfg m0) k)).
  { intros k Hk. rewrite first_epochs_run; try assumption; [reflexivity |].
    intros e He. apply Htr. lia. }
  split; [| split].
  - exists (locals_after cfg E (start_locals cfg m0) 0).
    split; [apply Hrun; lia | reflexivity].
  - intros k Hk.
    exists (locals_after cfg E (start_locals cfg m0) k),
           (locals_after cfg E (start_locals cfg m0) (k + 1)).
    split; [apply Hrun; lia |]. split; [apply Hrun; lia |].
    rewrite lr_after_succ by lia.
    rewrite (milestone_count_100 _ (k + 1))
      by (simpl; unfold initial_milestones; rewrite Hn; reflexivity).
    destruct ((k + 1 =? 50) || (k + 1 =? 75)); reflexivity.
  - rewrite <- Hn. apply main_first_epochs. rewrite Hn. discriminate.
Qed.

(** ** The best snapshot *)

Lemma Qgtb_true (x y : Q) : Qgtb x y = true <-> (y < x)%Q.
Proof.
  unfold Qgtb. rewrite negb_true_iff. split.
  - intros H. apply Qnot_le_lt. intros Hle.
    apply Qle_bool_iff in Hle. congruence.
  - intros H. destruct (Qle_bool x y) eqn:Hb; [| reflexivity].
    apply Qle_bool_iff in Hb. lra.
Qed.

Lemma Qgtb_false (x y : Q) : Qgtb x y = false <-> (x <= y)%Q.
Proof.
  unfold Qgtb. rewrite negb_false_iff. apply Qle_bool_iff.
Qed.

(** The checkpoint check of one pass. *)
Lemma epoch_next_best (st : locals) (epoch : Z) :
  the_model (epoch_next cfg E st epoch) = epoch_model E st epoch
  /\ if Qgtb (epoch_val_auc cfg E st epoch) (best_auc st)
     then best_auc (epoch_next cfg E st epoch) = epoch_val_auc cfg E st epoch
          /\ best_epoch (epoch_next cfg E st epoch) = epoch
          /\ best_model (epoch_next cfg E st epoch)
             = the_model (epoch_next cfg E st epoch)
     else best_auc (epoch_next cfg E st epoch) = best_auc st
          /\ best_epoch (epoch_next cfg E st epoch) = best_epoch st
          /\ best_model (epoch_next cfg E st epoch) = best_model st.
Proof.
  unfold epoch_next.
  destruct (Qgtb (epoch_val_auc cfg E st epoch) (best_auc st));
    simpl; repeat split; reflexivity.
Qed.

Lemma checkpoint_check (m0 : model) (e : Z) :
  0 <= e ->
  if Qgtb (val_auc_at cfg E m0 e)
          (best_auc (locals_after cfg E (start_locals cfg m0) e))
  then best_auc (locals_after cfg E (start_locals cfg m0) (e + 1))
       = val_auc_at cfg E m0 e
       /\ best_epoch (locals_after cfg E (start_locals cfg m0) (e + 1)) = e
       /\ best_model (locals_after cfg E (start_locals cfg m0) (e + 1))
          = snapshot_at cfg E m0 e
  else best_auc (locals_after cfg E (start_locals cfg m0) (e + 1))
       = best_auc (locals_after cfg E (start_locals cfg m0) e)
       /\ best_epoch (locals_after cfg E (start_locals cfg m0) (e + 1))
          = best_epoch (locals_after cfg E (start_locals cfg m0) e)
       /\ best_model (locals_after cfg E (start_locals cfg m0) (e + 1))
          = best_model (locals_after cfg E (start_locals cfg m0) e).
Proof.
  intros He. unfold val_auc_at, snapshot_at.
  rewrite locals_after_succ by exact He.
  apply (proj2 (epoch_next_best _ e)).
Qed.

(** What the best locals hold after the first [k] passes. *)
Lemma best_after (m0 : model) (k : nat) :
  let st := locals_after cfg E (start_locals cfg m0) (Z.of_nat k) in
  (0 <= best_auc st)%Q
  /\ (forall e, 0 <= e < Z.of_nat k -> (val_auc_at cfg E m0 e <= best_auc st)%Q)
  /\ ((best_auc st = 0%Q /\ best_epoch st = 0 /\ best_model st = m0)
      \/ exists e0,
           0 <= e0 < Z.of_nat k
           /\ (0 < val_auc_at cfg E m0 e0)%Q
           /\ best_auc st = val_auc_at cfg E m0 e0
           /\ best_epoch st = e0
           /\ best_model st = snapshot_at cfg E m0 e0
           /\ forall e, 0 <= e < e0 ->
                        (val_auc_at cfg E m0 e < val_auc_at cfg E m0 e0)%Q).
Proof.
  induction k as [| k IH].
  - simpl. split; [lra |]. split; [intros e He; lia |]. left. auto.
  - destruct IH as [H0 [Hle Hcase]].
    rewrite Nat2Z.inj_succ, <- Z.add_1_r.
    pose proof (checkpoint_check m0 (Z.of_nat k) ltac:(lia)) as Hck.
    set (st := locals_after cfg E (start_locals cfg m0) (Z.of_nat k)) in *.
    set (st' := locals_after cfg E (start_locals cfg m0) (Z.of_nat k + 1)) in *.
    cbv zeta.
    destruct (Qgtb (val_auc_at cfg E m0 (Z.of_nat k)) (best_auc st)) eqn:Hgt.
    + apply Qgtb_true in Hgt. destruct Hck as [Ha [He Hm]].
      rewrite Ha. split; [lra |]. split.
      * intros e Hr. destruct (Z.eq_dec e (Z.of_nat k)) as [-> | Hne]; [lra |].
        specialize (Hle e ltac:(lia)). lra.
      * right. exists (Z.of_nat k). split; [lia |]. split; [lra |].
        split; [reflexivity |]. split; [exact He |]. split; [exact Hm |].
        intros e Hr. specialize (Hle e Hr). lra.
    + apply Qgtb_false in Hgt. destruct Hck as [Ha [He Hm]].
      rewrite Ha, He, Hm. split; [exact H0 |]. split.
      * intros e Hr. destruct (Z.eq_dec e (Z.of_nat k)) as [-> | Hne];
          [exact Hgt | apply Hle; lia].
      * destruct Hcase as [Hinit | [e0 [Hr Hrest]]]; [left; exact Hinit |].
        right. exists e0. split; [lia | exact Hrest].
Qed.

Lemma epoch_events_compare (i : Z) (st : locals) (epoch : Z) :
  filter is_compare (epoch_events cfg E i st epoch)
  = [Compare (epoch_val_auc cfg E st epoch) (best_auc st)].
Proof.
  unfold epoch_events.
  change (filter is_compare (ModelTrain :: ?t)) with (filter is_compare t).
  rewrite !filter_app.
  change (filter is_compare (SchedulerStep :: ?t)) with (filter is_compare t).
  rewrite filter_app.
  rewrite (filter_none is_compare (fun e => is_compare e = false)
             (train_events _ _ _))
    by (auto || apply train_events_forall; reflexivity).
  rewrite (filter_none is_compare (fun e => is_compare e = false) (map _ _))
    by (auto || apply scalars_forall; reflexivity).
  reflexivity.
Qed.

(** The checkpoint checks of a run, read off its trace. *)
Lemma loop_events_compare (st0 : locals) (n : nat) :
  forall k i,
    filter is_compare
      (loop_events cfg E i (locals_after cfg E st0 (Z.of_nat k))
         (map Z.of_nat (seq k n)))
    = map (fun e => Compare
                      (epoch_val_auc cfg E (locals_after cfg E st0 e) e)
                      (best_auc (locals_after cfg E st0 e)))
          (map Z.of_nat (seq k n)).
Proof.
  induction n as [| n IH]; intros k i; [reflexivity |].
  cbn [seq map loop_events].
  rewrite filter_app, epoch_events_compare. cbn [app]. f_equal.
  rewrite <- locals_after_succ by lia.
  replace (Z.of_nat k + 1) with (Z.of_nat (S k)) by lia.
  apply IH.
Qed.

(** The checkpoint that a run saves holds the live model. *)
Lemma main_saves_live_model (m0 : model) (g : globals) :
  num_epochs cfg <> 0 ->
  loaders_nonempty E (num_epochs cfg) ->
  resumed_model cfg E = Some m0 ->
  filter is_torch_save (trace (main cfg E g))
  = [TorchSave (path_join (out_dir cfg) "best_model.pth")
       [("net",
         state_dict
           (params (the_model (locals_after cfg E (start_locals cfg m0)
                                 (num_epochs cfg)))))]].
Proof.
  intros Hn Hne Hres.
  pose proof (training_loop_emits (start_locals cfg m0)
                {| iteration := Some 0 |}) as Hloop.
  rewrite (training_loop_run (start_locals cfg m0)
             {| iteration := Some 0 |} 0 Hne eq_refl) in Hloop.
  unfold trace in Hloop. simpl snd in Hloop.
  rewrite (main_run m0 g Hn Hne Hres). unfold trace. simpl snd.
  rewrite filter_app.
  replace (filter is_torch_save (resume_events cfg)) with (@nil event)
    by (unfold resume_events; destruct (model_path cfg); reflexivity).
  cbn [app].
  change (filter is_torch_save (WriterOpen ?d :: ?t))
    with (filter is_torch_save t).
  rewrite filter_app.
  rewrite (filter_none is_torch_save loop_event (loop_events _ _ _ _ _))
    by (not_emitted || exact Hloop).
  reflexivity.
Qed.

(** C2, as amended.  A run of [N >= 1] epochs on loaders that are not empty
    returns from its loop; the checkpoint check of an epoch replaces the
    best AUC, the best epoch and the best snapshot exactly when the
    validation AUC of the epoch is strictly above the best so far, which
    starts at 0, these comparisons being the ones that the trace of the
    loop shows; after the loop the best AUC is at least 0 and at least
    every validation AUC; when the maximum of the validation AUCs is
    strictly positive, the best AUC is that maximum and the snapshot and
    the epoch kept are those of the earliest epoch that attains it; and
    when no validation AUC is above 0, the best AUC is 0, the best epoch 0
    and the snapshot the copy taken before the loop. *)
Theorem best_snapshot_follows_strict_improvement
  (m0 : model) (g : globals) (i : Z) :
  1 <= num_epochs cfg ->
  loaders_nonempty E (num_epochs cfg) ->
  iteration g = Some i ->
  let after := locals_after cfg E (start_locals cfg m0) in
  outcome (training_loop cfg E (start_locals cfg m0) g)
  = Ok (after (num_epochs cfg))
  /\ filter is_compare
       (trace (training_loop cfg E (start_locals cfg m0) g))
     = map (fun e => Compare (val_auc_at cfg E m0 e) (best_auc (after e)))
           (range (num_epochs cfg))
  /\ (forall x y, Qgtb x y = true <-> (y < x)%Q)
  /\ (forall e,
        0 <= e < num_epochs cfg ->
        if Qgtb (val_auc_at cfg E m0 e) (best_auc (after e))
        then best_auc (after (e + 1)) = val_auc_at cfg E m0 e
             /\ best_epoch (after (e + 1)) = e
             /\ best_model (after (e + 1)) = snapshot_at cfg E m0 e
        else best_auc (after (e + 1)) = best_auc (after e)
             /\ best_epoch (after (e + 1)) = best_epoch (after e)
             /\ best_model (after (e + 1)) = best_model (after e))
  /\ (0 <= best_auc (after (num_epochs cfg)))%Q
  /\ (forall e,
        0 <= e < num_epochs cfg ->
        (val_auc_at cfg E m0 e <= best_auc (after (num_epochs cfg)))%Q)
  /\ (forall e_max,
        0 <= e_max < num_epochs cfg ->
        (forall e, 0 <= e < num_epochs cfg ->
                   (val_auc_at cfg E m0 e <= val_auc_at cfg E m0 e_max)%Q) ->
        (forall e, 0 <= e < e_max ->
                   (val_auc_at cfg E m0 e < val_auc_at cfg E m0 e_max)%Q) ->
        (0 < val_auc_at cfg E m0 e_max)%Q ->
        best_auc (after (num_epochs cfg)) = val_auc_at cfg E m0 e_max
        /\ best_epoch (after (num_epochs cfg)) = e_max
        /\ best_model (after (num_epochs cfg)) = snapshot_at cfg E m0 e_max)
  /\ ((forall e, 0 <= e < num_epochs cfg -> (val_auc_at cfg E m0 e <= 0)%Q) ->
      best_auc (after (num_epochs cfg)) = 0%Q
      /\ best_epoch (after (num_epochs cfg)) = 0
      /\ best_model (after (num_epochs cfg)) = m0).
Proof.
  intros Hn Hne Hi after.
  pose proof (best_after m0 (Z.to_nat (num_epochs cfg))) as Hbest.
  rewrite Z2Nat.id in Hbest by lia. cbv zeta in Hbest.
  fold (after (num_epochs cfg)) in Hbest.
  destruct Hbest as [H0 [Hle Hcase]].
  split; [| split; [| split; [| split; [| split; [| split; [| split]]]]]].
  - rewrite (training_loop_run (start_locals cfg m0) g i Hne Hi). reflexivity.
  - rewrite (training_loop_run (start_locals cfg m0) g i Hne Hi).
    unfold trace. simpl snd. unfold range.
    apply (loop_events_compare (start_locals cfg m0)
             (Z.to_nat (num_epochs cfg)) 0%nat i).
  - apply Qgtb_true.
  - intros e He. apply checkpoint_check. lia.
  - exact H0.
  - exact Hle.
  - intros e_max Hr Hmax Hfirst Hpos.
    destruct Hcase as [[Ha _] | [e0 [Hr0 [Hp0 [Ha [He [Hm Hf0]]]]]]].
    + specialize (Hle e_max Hr). rewrite Ha in Hle. lra.
    + assert (e0 = e_max) as ->.
      { pose proof (Hle e_max Hr) as H1. rewrite Ha in H1.
        pose proof (Hmax e0 Hr0) as H2.
        destruct (Z.lt_trichotomy e0 e_max) as [Hlt | [Heq | Hgt]].
        - specialize (Hfirst e0 ltac:(lia)). lra.
        - exact Heq.
        - specialize (Hf0 e_max ltac:(lia)). lra. }
      auto.
  - intros Hall.
    destruct Hcase as [Hinit | [e0 [Hr0 [Hp0 _]]]]; [exact Hinit |].
    specialize (Hall e0 Hr0). lra.
Qed.

End Run.

End Facts.

(** * Runs of the toy network *)

(** C1 on the code.  Two epochs, one batch each; the validation AUC is 0.9
    after the first epoch and 0.5 after the second.  The loop returns with
    the snapshot of epoch 0 as best model, whose parameters count one
    optimizer step, and with a live model whose parameters count two; the
    only checkpoint that [main] saves, to 'best_model.pth', holds under
    'net' the parameters of the live model. *)
Theorem checkpoint_holds_live_model_not_best_snapshot :
  exists st,
    outcome (training_loop Toy.peak_config Toy.peak_env
               (start_locals Toy.peak_config (Toy.untrained Toy.peak_at_one 0))
               (Toy.bound 0))
    = Ok st
    /\ best_epoch st = 0
    /\ best_auc st = (9 # 10)%Q
    /\ state_dict (params (best_model st)) = 1
    /\ state_dict (params (the_model st)) = 2
    /\ outcome (main Toy.peak_config Toy.peak_env Toy.unbound) = Ok tt
    /\ filter is_torch_save
         (trace (main Toy.peak_config Toy.peak_env Toy.unbound))
       = [@TorchSave Toy.peak_at_one
            "./output/organmnist3d/240101_000000/best_model.pth"
            [("net", 2)]].
Proof.
  eexists. split; [vm_compute; reflexivity |].
  repeat split; vm_compute; reflexivity.
Qed.

(** C2, the claim as stated, fails.  Two epochs whose validation AUC is 0:
    both attain the maximum, epoch 0 is the earliest, and the snapshot kept
    is not the one of epoch 0 but the copy taken before the loop. *)
Lemma earliest_maximum_not_kept_when_auc_is_zero :
  ~ keeps_earliest_maximum (Toy.the_config 2 None) Toy.wrong_env
      (Toy.untrained Toy.always_wrong 0).
Proof.
  intros H.
  assert (Hrun : outcome (training_loop (Toy.the_config 2 None) Toy.wrong_env
                            (start_locals (Toy.the_config 2 None)
                               (Toy.untrained Toy.always_wrong 0))
                            (Toy.bound 0))
                 = Ok (locals_after (Toy.the_config 2 None) Toy.wrong_env
                         (start_locals (Toy.the_config 2 None)
                            (Toy.untrained Toy.always_wrong 0)) 2))
    by (vm_compute; reflexivity).
  destruct (H (Toy.bound 0) _ Hrun 0) as [_ [_ Hm]].
  - simpl. lia.
  - intros e He. assert (He' : e = 0 \/ e = 1) by (simpl in He; lia).
    destruct He' as [-> | ->]; vm_compute; discriminate.
  - intros e He. lia.
  - vm_compute in Hm. discriminate Hm.
Qed.

(** C6, the claim as stated, fails.  An evaluator that raises on a score
    array without rows: on the empty batch sequence the routine raises the
    [IndexError] of the evaluator, at line 250, and never reaches the
    division of line 252. *)
Lemma empty_sequence_raises_what_the_evaluator_raises :
  ~ Raising.raises_zero_division_on_empty Toy.strict_evaluator.
Proof.
  intros H.
  specialize (H (Toy.loaded Toy.peak_at_one 0) Val "model1" None Toy.unbound).
  vm_compute in H. discriminate H.
Qed.

(** ** The theorems at the toy network *)

Lemma train_returns_mean_of_batch_losses_witness :
  Toy.two_batches <> []
  /\ iteration (Toy.bound 0) = Some 0
  /\ outcome (train (Toy.loaded Toy.peak_at_one 0) Toy.two_batches
                (Toy.adam0 Toy.peak_at_one tt) (Toy.bound 0))
     = Ok ((16 # 32)%Q,
           fst (trained (Toy.loaded Toy.peak_at_one 0)
                  (Toy.adam0 Toy.peak_at_one tt) Toy.two_batches),
           snd (trained (Toy.loaded Toy.peak_at_one 0)
                  (Toy.adam0 Toy.peak_at_one tt) Toy.two_batches)).
Proof.
  split; [discriminate |]. split; [reflexivity |].
  exact (proj1 (proj2 (proj2
           (train_returns_mean_of_batch_losses
              (Toy.loaded Toy.peak_at_one 0) Toy.two_batches
              (Toy.adam0 Toy.peak_at_one tt) (Toy.bound 0) 0
              ltac:(discriminate) eq_refl)))).
Defined.

Lemma best_snapshot_follows_strict_improvement_witness :
  1 <= num_epochs Toy.peak_config
  /\ loaders_nonempty Toy.peak_env (num_epochs Toy.peak_config)
  /\ iteration (Toy.bound 0) = Some 0
  /\ best_epoch (locals_after Toy.peak_config Toy.peak_env
                   (start_locals Toy.peak_config
                      (Toy.untrained Toy.peak_at_one 0)) 2)
     = 0.
Proof.
  assert (H1 : 1 <= num_epochs Toy.peak_config) by (simpl; lia).
  assert (H2 : loaders_nonempty Toy.peak_env (num_epochs Toy.peak_config))
    by (repeat split; try intros e He; discriminate).
  split; [exact H1 |]. split; [exact H2 |]. split; [reflexivity |].
  destruct (best_snapshot_follows_strict_improvement
              Toy.peak_config Toy.peak_env (Toy.untrained Toy.peak_at_one 0)
              (Toy.bound 0) 0 H1 H2 eq_refl)
    as [_ [_ [_ [_ [_ [_ [H _]]]]]]].
  refine (proj1 (proj2 (H 0 _ _ _ _))).
  - simpl. lia.
  - intros e He. assert (He' : e = 0 \/ e = 1) by (simpl in He; lia).
    destruct He' as [-> | ->]; vm_compute; discriminate.
  - intros e He. lia.
  - vm_compute. reflexivity.
Defined.


Lemma global_step_counts_batches_witness :
  num_epochs Toy.peak_config <> 0
  /\ loaders_nonempty Toy.peak_env (num_epochs Toy.peak_config)
  /\ resumed_model Toy.peak_config Toy.peak_env
     = Some (Toy.untrained Toy.peak_at_one 0)
  /\ logged_steps (trace (main Toy.peak_config Toy.peak_env Toy.unbound))
     = range (batches_before Toy.peak_env (num_epochs Toy.peak_config)).
Proof.
  assert (H1 : num_epochs Toy.peak_config <> 0) by discriminate.
  assert (H2 : loaders_nonempty Toy.peak_env (num_epochs Toy.peak_config))
    by (repeat split; try intros e He; discriminate).
  split; [exact H1 |]. split; [exact H2 |]. split; [reflexivity |].
  exact (proj1 (proj2
           (global_step_counts_batches
              Toy.peak_config Toy.peak_env (Toy.untrained Toy.peak_at_one 0)
              Toy.unbound H1 H2 eq_refl))).
Defined.

Lemma zero_epochs_only_resume_eval_witness :
  num_epochs Toy.zero_config = 0
  /\ main Toy.zero_config Toy.peak_env Toy.unbound
     = (Ok tt, Toy.unbound,
        eval_events Toy.zero_config (Some (out_dir Toy.zero_config))).
Proof.
  split; [reflexivity |].
  refine (proj2 (proj2 (proj2 (proj2 (proj2 (proj2 (proj2
            (zero_epochs_only_resume_eval
               Toy.zero_config Toy.peak_env Toy.unbound eq_refl)))))))
            (Toy.loaded Toy.peak_at_one 100) _ _ _ _ _);
    first [reflexivity | discriminate].
Defined.

Lemma lr_decays_at_half_and_three_quarters_witness :
  num_epochs Toy.hundred_config = 100
  /\ loaders_nonempty Toy.peak_env 100
  /\ exists st st',
       outcome (first_epochs Toy.hundred_config Toy.peak_env
                  (Toy.untrained Toy.peak_at_one 0) 49 Toy.unbound) = Ok st
       /\ outcome (first_epochs Toy.hundred_config Toy.peak_env
                     (Toy.untrained Toy.peak_at_one 0) (49 + 1) Toy.unbound)
          = Ok st'
       /\ lr (the_optimizer st') = Qmult (lr (the_optimizer st)) (1 # 10)%Q.
Proof.
  assert (Hne : loaders_nonempty Toy.peak_env 100)
    by (repeat split; intros; discriminate).
  split; [reflexivity |]. split; [exact Hne |].
  refine (proj1 (proj2 (proj2 (lr_decays_at_half_and_three_quarters
                                 Toy.hundred_config Toy.peak_env
                                 (Toy.untrained Toy.peak_at_one 0) Toy.unbound)
                          eq_refl Hne))
            49 _).
  lia.
Defined.

Lemma negative_epochs_persist_initial_model_witness :
  num_epochs Toy.negative_config < 0
  /\ filter is_torch_save
       (trace (main Toy.negative_config Toy.peak_env Toy.unbound))
     = [@TorchSave Toy.peak_at_one
          "./output/organmnist3d/240101_000000/best_model.pth" [("net", 0)]].
Proof.
  split; [reflexivity |].
  rewrite (proj2 (proj2 (proj2
             (negative_epochs_persist_initial_model
                Toy.negative_config Toy.peak_env Toy.unbound eq_refl)))
             (Toy.untrained Toy.peak_at_one 0) eq_refl
             ltac:(discriminate) ltac:(discriminate) ltac:(discriminate)).
  reflexivity.
Defined.

(** * More on [train], [test] and [main] *)

Section More.

Context {T : Torch}.

Ltac not_emitted :=
  let e := fresh "e" in
  let H := fresh "H" in
  intros e; destruct e; simpl; intros H; try contradiction; reflexivity.

Lemma bind_raises {A B : Type} (c : M A) (k : A -> M B) g e g1 t1 :
  c g = (Raise e, g1, t1) -> bind c k g = (Raise e, g1, t1).
Proof. intros H. unfold bind. rewrite H. reflexivity. Qed.

(** X1.  The evaluation routine only reads: it leaves the globals as they
    are, calls the evaluator once, gives the same result whatever mode the
    model was in, and the model it returns has the parameters it was given
    and is in evaluation mode. *)
Theorem test_only_reads
  (m : model) (s : split) (l : list batch) (run : string)
  (sf : option string) (g : globals) (b : bool) :
  globals_of (test m s l run sf g) = g
  /\ trace (test m s l run sf g) = [ModelEval; Evaluate s sf run]
  /\ test (set_training b m) s l run sf g = test m s l run sf g
  /\ forall x m',
       outcome (test m s l run sf g) = Ok (x, m') ->
       params m' = params m /\ training m' = false.
Proof.
  split; [apply test_trace |]. split; [apply test_trace |].
  split; [reflexivity |].
  intros x m'. destruct l as [| b0 l].
  - rewrite test_nil. discriminate.
  - rewrite test_cons. unfold outcome. simpl.
    intros H. injection H as _ <-. split; reflexivity.
Qed.

(** X2.  Called while the global [iteration] is unbound, the training step
    raises [NameError] at its first batch, after [zero_grad] and before any
    optimizer step; on an empty batch sequence it never reads the global
    and raises [ZeroDivisionError]. *)
Theorem train_needs_iteration_bound
  (m : model) (opt : optimizer) (g : globals) :
  iteration g = None ->
  train m [] opt g = (Raise ZeroDivisionError, g, [ModelTrain])
  /\ forall b l,
       train m (b :: l) opt g = (Raise NameError, g, [ModelTrain; ZeroGrad]).
Proof.
  intros Hg. split; [reflexivity |].
  intros [inputs targets] l.
  assert (Hget : get_iteration g = (Raise NameError, g, []))
    by (unfold get_iteration; rewrite Hg; reflexivity).
  assert (Hb : train_batch ([], set_training true m, opt) (inputs, targets) g
               = (Raise NameError, g, [ZeroGrad])).
  { unfold train_batch. rewrite bind_emit.
    rewrite (bind_raises _ _ g NameError g [] Hget). reflexivity. }
  assert (Hl : for_each train_batch ((inputs, targets) :: l)
                 ([], set_training true m, opt) g
               = (Raise NameError, g, [ZeroGrad]))
    by (simpl for_each; apply bind_raises, Hb).
  unfold train. rewrite bind_emit.
  rewrite (bind_raises _ _ g NameError g [ZeroGrad] Hl). reflexivity.
Qed.

Section MoreRun.

Variable cfg : config.
Variable E : env.

(** ** How [main] can end *)

Lemma init_locals_run (m : model) g :
  init_locals cfg m g
  = (Ok (start_locals cfg m), {| iteration := Some 0 |},
     [WriterOpen (path_join (out_dir cfg) "Tensorboard_Results")]).
Proof. unfold init_locals. rewrite bind_emit. reflexivity. Qed.

(** The four ways in which [main] ends: the resume evaluation raises; the
    early exit is taken; the loop raises; the loop returns and lines
    172-194 run. *)
Lemma main_outcomes g :
  (exists e g1 t1,
      resume_eval cfg E g = (Raise e, g1, t1)
      /\ main cfg E g = (Raise e, g1, t1))
  \/ (exists m g1 t1,
        resume_eval cfg E g = (Ok m, g1, t1)
        /\ num_epochs cfg = 0
        /\ main cfg E g = (Ok tt, g1, t1))
  \/ (exists m g1 t1 e g2 t2,
        resume_eval cfg E g = (Ok m, g1, t1)
        /\ num_epochs cfg <> 0
        /\ training_loop cfg E (start_locals cfg m) {| iteration := Some 0 |}
           = (Raise e, g2, t2)
        /\ main cfg E g
           = (Raise e, g2,
              t1 ++ WriterOpen (path_join (out_dir cfg) "Tensorboard_Results")
                 :: t2))
  \/ (exists m g1 t1 st g2 t2,
        resume_eval cfg E g = (Ok m, g1, t1)
        /\ num_epochs cfg <> 0
        /\ training_loop cfg E (start_locals cfg m) {| iteration := Some 0 |}
           = (Ok st, g2, t2)
        /\ main cfg E g
           = (outcome (persist_and_final_eval cfg E st g2),
              globals_of (persist_and_final_eval cfg E st g2),
              t1 ++ WriterOpen (path_join (out_dir cfg) "Tensorboard_Results")
                 :: t2 ++ trace (persist_and_final_eval cfg E st g2))).
Proof.
  unfold main.
  destruct (resume_eval cfg E g) as [[[m | e] g1] t1] eqn:Hres.
  2:{ left. exists e, g1, t1. split; [reflexivity |].
      apply bind_raises, Hres. }
  right.
  rewrite (bind_ok _ _ g m g1 t1 Hres).
  destruct (Z.eqb_spec (num_epochs cfg) 0) as [H0 | H0].
  { left. exists m, g1, t1. split; [reflexivity |]. split; [exact H0 |].
    unfold outcome, globals_of, trace, ret. simpl. rewrite app_nil_r.
    reflexivity. }
  right.
  rewrite (bind_ok _ _ g1 _ _ _ (init_locals_run m g1)).
  destruct (training_loop cfg E (start_locals cfg m) {| iteration := Some 0 |})
    as [[[st | e] g2] t2] eqn:Hloop.
  - right. exists m, g1, t1, st, g2, t2.
    split; [reflexivity |]. split; [exact H0 |].
    split; [first [exact Hloop | reflexivity] |].
    rewrite (bind_ok _ _ _ st g2 t2 Hloop).
    unfold outcome, globals_of, trace. simpl. reflexivity.
  - left. exists m, g1, t1, e, g2, t2.
    split; [reflexivity |]. split; [exact H0 |].
    split; [first [exact Hloop | reflexivity] |].
    rewrite (bind_raises _ _ _ e g2 t2 Hloop).
    unfold outcome, globals_of, trace. simpl. reflexivity.
Qed.

(** Lines 172-194 either run to their end or raise at an empty evaluation
    loader, after the checkpoint was saved and before the log is
    appended and the writer closed. *)
Lemma persist_cases (st : locals) g :
  (train_loader_at_eval E <> [] /\ val_loader E <> [] /\ test_loader E <> []
   /\ persist_and_final_eval cfg E st g = (Ok tt, g, final_events cfg E st))
  \/ ((train_loader_at_eval E = [] \/ val_loader E = [] \/ test_loader E = [])
      /\ outcome (persist_and_final_eval cfg E st g) = Raise ZeroDivisionError
      /\ filter is_torch_save (trace (persist_and_final_eval cfg E st g))
         = [TorchSave (path_join (out_dir cfg) "best_model.pth")
              [("net", state_dict (params (the_model st)))]]
      /\ filter is_append_log (trace (persist_and_final_eval cfg E st g)) = []
      /\ filter is_writer_close (trace (persist_and_final_eval cfg E st g))
         = []).
Proof.
  destruct (train_loader_at_eval E) as [| b1 l1] eqn:H1.
  { right. split; [auto |]. unfold persist_and_final_eval.
    rewrite bind_emit, H1.
    rewrite (bind_raises _ _ g _ _ _ (test_nil _ Train _ _ g)).
    repeat split. }
  destruct (val_loader E) as [| b2 l2] eqn:H2.
  { right. split; [auto |]. unfold persist_and_final_eval.
    rewrite bind_emit, H1, H2.
    rewrite (bind_ok _ _ g _ _ _ (test_cons _ Train b1 l1 _ _ g)).
    cbv beta iota.
    rewrite (bind_raises _ _ g _ _ _ (test_nil _ Val _ _ g)).
    repeat split. }
  destruct (test_loader E) as [| b3 l3] eqn:H3.
  { right. split; [auto |]. unfold persist_and_final_eval.
    rewrite bind_emit, H1, H2, H3.
    rewrite (bind_ok _ _ g _ _ _ (test_cons _ Train b1 l1 _ _ g)).
    cbv beta iota.
    rewrite (bind_ok _ _ g _ _ _ (test_cons _ Val b2 l2 _ _ g)).
    cbv beta iota.
    rewrite (bind_raises _ _ g _ _ _ (test_nil _ Test _ _ g)).
    repeat split. }
  left. rewrite <- H1, <- H2, <- H3.
  assert (N1 : train_loader_at_eval E <> []) by (rewrite H1; discriminate).
  assert (N2 : val_loader E <> []) by (rewrite H2; discriminate).
  assert (N3 : test_loader E <> []) by (rewrite H3; discriminate).
  repeat split; try assumption. apply persist_run; assumption.
Qed.

Lemma bind_returns {A B : Type} (c : M A) (k : A -> M B) g b :
  outcome (bind c k g) = Ok b ->
  exists a g1 t1, c g = (Ok a, g1, t1) /\ outcome (k a g1) = Ok b.
Proof.
  unfold bind. destruct (c g) as [[[a | e] g1] t1]; [| discriminate].
  intros H. exists a, g1, t1. split; [reflexivity |].
  destruct (k a g1) as [[r g2] t2]. exact H.
Qed.

Lemma test_returns_nonempty (m : model) s l run sf g x g1 t1 :
  test m s l run sf g = (Ok x, g1, t1) -> l <> [].
Proof.
  intros H Hl. subst l. rewrite test_nil in H. discriminate.
Qed.

(** A pass of the loop that returns has iterated four loaders that are not
    empty. *)
Lemma epoch_body_returns_nonempty (st st' : locals) (epoch : Z) g :
  outcome (epoch_body cfg E st epoch g) = Ok st' ->
  train_loader E epoch <> []
  /\ train_loader_at_eval E <> []
  /\ val_loader E <> []
  /\ test_loader E <> [].
Proof.
  unfold epoch_body. intros H.
  apply bind_returns in H as [[[x m] opt] [g1 [t1 [Htrain H]]]].
  apply bind_returns in H as [[x1 m1] [g2 [t2 [H1 H]]]].
  apply bind_returns in H as [[x2 m2] [g3 [t3 [H2 H]]]].
  apply bind_returns in H as [[x3 m3] [g4 [t4 [H3 H]]]].
  split; [| split; [| split]].
  - intros Hl. rewrite Hl in Htrain. discriminate.
  - exact (test_returns_nonempty _ _ _ _ _ _ _ _ _ H1).
  - exact (test_returns_nonempty _ _ _ _ _ _ _ _ _ H2).
  - exact (test_returns_nonempty _ _ _ _ _ _ _ _ _ H3).
Qed.

Lemma range_pos (n : Z) :
  1 <= n -> range n = 0 :: map Z.of_nat (seq 1 (Z.to_nat n - 1)).
Proof.
  intros H. unfold range.
  replace (Z.to_nat n) with (S (Z.to_nat n - 1)) at 1 by lia. reflexivity.
Qed.

(** A loop of at least one epoch that returns has evaluated on loaders that
    are not empty. *)
Lemma training_loop_returns_nonempty (st st' : locals) g :
  1 <= num_epochs cfg ->
  outcome (training_loop cfg E st g) = Ok st' ->
  train_loader_at_eval E <> [] /\ val_loader E <> [] /\ test_loader E <> [].
Proof.
  intros Hn. unfold training_loop. rewrite (range_pos _ Hn). simpl for_each.
  intros H. apply bind_returns in H as [st1 [g1 [t1 [Hbody _]]]].
  assert (Hok : outcome (epoch_body cfg E st 0 g) = Ok st1)
    by (rewrite Hbody; reflexivity).
  apply epoch_body_returns_nonempty in Hok. tauto.
Qed.

(** ** Failures *)

(** X3.  When the checkpoint to resume from does not load, [main] raises
    before it evaluates, trains or writes anything, whatever the epoch
    count: [FileNotFoundError] when the file cannot be read,
    [RuntimeError] when its keys do not fit the model. *)
Theorem unloadable_checkpoint_aborts_main (g : globals) :
  resumed_model cfg E = None ->
  exists path,
    model_path cfg = Some path
    /\ main cfg E g
       = (Raise (match torch_load path with
                 | None => FileNotFoundError
                 | Some _ => RuntimeError
                 end), g, []).
Proof.
  unfold resumed_model, main, resume_eval.
  destruct (model_path cfg) as [path |]; [| discriminate].
  intros H. exists path. split; [reflexivity |].
  destruct (torch_load path) as [sd |]; [| reflexivity].
  destruct (load_state_dict (params (built_model E)) sd); [discriminate |].
  reflexivity.
Qed.

(** X5.  With at least one epoch, a checkpoint is saved exactly when [main]
    returns: a run that raises has saved none, a run that returns has saved
    one. *)
Theorem checkpoint_saved_iff_main_returns (g : globals) :
  1 <= num_epochs cfg ->
  (outcome (main cfg E g) = Ok tt
   -> List.length (filter is_torch_save (trace (main cfg E g))) = 1%nat)
  /\ (outcome (main cfg E g) <> Ok tt
      -> filter is_torch_save (trace (main cfg E g)) = []).
Proof.
  intros Hn.
  destruct (main_outcomes g)
    as [[e [g1 [t1 [Hr Hm]]]]
       | [[m [g1 [t1 [Hr [H0 _]]]]]
         | [[m [g1 [t1 [e [g2 [t2 [Hr [_ [Hl Hm]]]]]]]]]
           | [m [g1 [t1 [st [g2 [t2 [Hr [_ [Hl Hm]]]]]]]]]]]];
    try lia.
  - pose proof (resume_eval_emits cfg E g) as Hev. rewrite Hr in Hev.
    rewrite Hm. unfold outcome, trace in *. simpl in *.
    split; [discriminate |]. intros _.
    refine (filter_none _ _ _ _ Hev); not_emitted.
  - pose proof (resume_eval_emits cfg E g) as Hev. rewrite Hr in Hev.
    pose proof (training_loop_emits cfg E (start_locals cfg m)
                  {| iteration := Some 0 |}) as Hlp.
    rewrite Hl in Hlp.
    rewrite Hm. unfold outcome, trace in *. simpl in *.
    split; [discriminate |]. intros _.
    assert (F1 : filter is_torch_save t1 = [])
      by (refine (filter_none _ _ _ _ Hev); not_emitted).
    rewrite filter_app, F1. simpl.
    refine (filter_none _ _ _ _ Hlp); not_emitted.
  - pose proof (resume_eval_emits cfg E g) as Hev. rewrite Hr in Hev.
    pose proof (training_loop_emits cfg E (start_locals cfg m)
                  {| iteration := Some 0 |}) as Hlp.
    rewrite Hl in Hlp.
    assert (Hne : train_loader_at_eval E <> [] /\ val_loader E <> []
                  /\ test_loader E <> []).
    { apply (training_loop_returns_nonempty (start_locals cfg m) st
               {| iteration := Some 0 |} Hn).
      rewrite Hl. reflexivity. }
    destruct Hne as [N1 [N2 N3]].
    rewrite Hm, (persist_run cfg E st g2 N1 N2 N3).
    unfold outcome, trace in *. simpl fst in *. simpl snd in *.
    split; [| intros H; contradiction H; reflexivity]. intros _.
    assert (F1 : filter is_torch_save t1 = [])
      by (refine (filter_none _ _ _ _ Hev); not_emitted).
    assert (F2 : filter is_torch_save t2 = [])
      by (refine (filter_none _ _ _ _ Hlp); not_emitted).
    rewrite filter_app, F1. cbn [app].
    change (filter is_torch_save (WriterOpen ?d :: ?t))
      with (filter is_torch_save t).
    rewrite filter_app, F2. reflexivity.
Qed.

Ltac quiet H := refine (filter_none _ _ _ _ H); not_emitted.

Lemma outcome_triple {A : Type} (r : result A) (g : globals)
  (t : list event) : outcome (r, g, t) = r.
Proof. reflexivity. Qed.

Lemma trace_triple {A : Type} (r : result A) (g : globals)
  (t : list event) : trace (r, g, t) = t.
Proof. reflexivity. Qed.

Lemma final_events_end (st : locals) :
  final_events cfg E st = removelast (final_events cfg E st) ++ [WriterClose].
Proof. reflexivity. Qed.

(** X6.  The writer is closed and the summary appended to the log file
    only when [main] runs to its end: then the writer was opened once, is
    closed once, as the last thing done, and the log is appended once.
    When [main] raises, the writer, if it was opened, is left open and
    nothing is appended; with an epoch count of zero the writer is not
    even opened. *)
Theorem writer_closed_only_when_main_completes (g : globals) :
  (outcome (main cfg E g) = Ok tt ->
   num_epochs cfg <> 0 ->
   filter is_writer_open (trace (main cfg E g))
   = [WriterOpen (path_join (out_dir cfg) "Tensorboard_Results")]
   /\ filter is_writer_close (trace (main cfg E g)) = [WriterClose]
   /\ List.length (filter is_append_log (trace (main cfg E g))) = 1%nat
   /\ exists t, trace (main cfg E g) = t ++ [WriterClose])
  /\ (outcome (main cfg E g) <> Ok tt ->
      filter is_writer_close (trace (main cfg E g)) = []
      /\ filter is_append_log (trace (main cfg E g)) = [])
  /\ (num_epochs cfg = 0 ->
      filter is_writer_open (trace (main cfg E g)) = []
      /\ filter is_writer_close (trace (main cfg E g)) = []
      /\ filter is_append_log (trace (main cfg E g)) = []).
Proof.
  pose proof (resume_eval_emits cfg E g) as Hev.
  destruct (main_outcomes g)
    as [[e [g1 [t1 [Hr Hm]]]]
       | [[m [g1 [t1 [Hr [H0 Hm]]]]]
         | [[m [g1 [t1 [e [g2 [t2 [Hr [H0 [Hl Hm]]]]]]]]]
           | [m [g1 [t1 [st [g2 [t2 [Hr [H0 [Hl Hm]]]]]]]]]]]];
    rewrite Hr in Hev; unfold trace in Hev; simpl in Hev;
    assert (O1 : filter is_writer_open t1 = []) by quiet Hev;
    assert (C1 : filter is_writer_close t1 = []) by quiet Hev;
    assert (A1 : filter is_append_log t1 = []) by quiet Hev.
  - rewrite Hm. unfold outcome, trace. simpl.
    split; [discriminate |]. split; auto.
  - rewrite Hm. unfold outcome, trace. simpl.
    split; [intros _ Hn; contradiction |]. split; auto.
  - pose proof (training_loop_emits cfg E (start_locals cfg m)
                  {| iteration := Some 0 |}) as Hlp.
    rewrite Hl in Hlp. unfold trace in Hlp. simpl in Hlp.
    assert (C2 : filter is_writer_close t2 = []) by quiet Hlp.
    assert (A2 : filter is_append_log t2 = []) by quiet Hlp.
    rewrite Hm. unfold outcome, trace. simpl fst. simpl snd.
    split; [discriminate |]. split; [| intros Hz; contradiction].
    intros _. rewrite !filter_app, C1, A1. simpl. auto.
  - pose proof (training_loop_emits cfg E (start_locals cfg m)
                  {| iteration := Some 0 |}) as Hlp.
    rewrite Hl in Hlp. unfold trace in Hlp. simpl in Hlp.
    assert (O2 : filter is_writer_open t2 = []) by quiet Hlp.
    assert (C2 : filter is_writer_close t2 = []) by quiet Hlp.
    assert (A2 : filter is_append_log t2 = []) by quiet Hlp.
    rewrite Hm, !outcome_triple, !trace_triple.
    split; [| split; [| intros Hz; contradiction]].
    + intros Hok _.
      destruct (persist_cases st g2) as [[_ [_ [_ Hp]]] | [_ [Hp _]]];
        [| rewrite Hp in Hok; discriminate].
      rewrite Hp. unfold trace. simpl snd.
      rewrite !filter_app, O1, C1, A1. cbn [app].
      change (filter is_writer_open (WriterOpen ?d :: ?t))
        with (WriterOpen d :: filter is_writer_open t).
      change (filter is_writer_close (WriterOpen ?d :: ?t))
        with (filter is_writer_close t).
      change (filter is_append_log (WriterOpen ?d :: ?t))
        with (filter is_append_log t).
      rewrite !filter_app, O2, C2, A2. cbn [app].
      split; [reflexivity |]. split; [reflexivity |]. split; [reflexivity |].
      exists (t1 ++ WriterOpen (path_join (out_dir cfg) "Tensorboard_Results")
                :: t2 ++ removelast (final_events cfg E st)).
      rewrite final_events_end at 1.
      rewrite <- !app_assoc. cbn [app]. rewrite <- app_assoc. reflexivity.
    + intros Hne.
      destruct (persist_cases st g2) as [[_ [_ [_ Hp]]] | [_ [_ [_ [Ha Hc]]]]].
      * rewrite Hp in Hne. contradiction Hne. reflexivity.
      * rewrite !filter_app, C1, A1. cbn [app].
        change (filter is_writer_close (WriterOpen ?d :: ?t))
          with (filter is_writer_close t).
        change (filter is_append_log (WriterOpen ?d :: ?t))
          with (filter is_append_log t).
        rewrite !filter_app, C2, A2, Ha, Hc. auto.
Qed.

(** ** Counting the steps of a run *)

Section Counting.

(** A kind of event that only the batches of the training step emit, and
    not as a scalar. *)
Variable p : event -> bool.
Hypothesis p_model_train : p ModelTrain = false.
Hypothesis p_model_eval : p ModelEval = false.
Hypothesis p_scheduler : p SchedulerStep = false.
Hypothesis p_scalar : forall tag v i, p (AddScalar tag v i) = false.
Hypothesis p_evaluate : forall s sf r, p (Evaluate s sf r) = false.
Hypothesis p_compare : forall a b, p (Compare a b) = false.

Lemma count_train_events (l : list batch) :
  forall i mo,
    len (filter p (train_events i mo l))
    = len (filter p [ZeroGrad; Backward; OptimizerStep]) * len l.
Proof.
  induction l as [| b l IH]; intros i mo.
  - simpl train_events. unfold len. simpl List.length at 1 3. lia.
  - simpl train_events. rewrite len_cons.
    specialize (IH (i + 1) (train_step mo b)).
    unfold len in *. simpl filter in *. rewrite p_scalar.
    destruct (p ZeroGrad), (p Backward), (p OptimizerStep);
      simpl List.length in *; lia.
Qed.

Lemma count_epoch_events (i : Z) (st : locals) (epoch : Z) :
  len (filter p (epoch_events cfg E i st epoch))
  = len (filter p [ZeroGrad; Backward; OptimizerStep])
    * len (train_loader E epoch).
Proof.
  unfold epoch_events.
  change (filter p (ModelTrain :: ?t))
    with (if p ModelTrain then ModelTrain :: filter p t else filter p t).
  rewrite p_model_train, filter_app.
  assert (Hrest : filter p
                    (eval_events cfg None
                     ++ SchedulerStep
                        :: map (fun kv => AddScalar (fst kv) (snd kv) epoch)
                             (log_dict (epoch_next cfg E st epoch))
                        ++ [Compare (epoch_val_auc cfg E st epoch)
                              (best_auc st)])
                  = []).
  { apply (filter_none p (fun e => p e = false)); [auto |].
    apply Forall_app. split; [unfold eval_events; repeat constructor; auto |].
    constructor; [auto |].
    apply Forall_app. split; [apply scalars_forall; auto |].
    repeat constructor; auto. }
  rewrite Hrest, app_nil_r. apply count_train_events.
Qed.

Lemma count_loop_events (epochs : list Z) :
  forall i st,
    len (filter p (loop_events cfg E i st epochs))
    = len (filter p [ZeroGrad; Backward; OptimizerStep])
      * fold_left (fun n e => n + len (train_loader E e)) epochs 0.
Proof.
  induction epochs as [| e es IH]; intros i st; cbn [loop_events].
  - simpl. unfold len. simpl. lia.
  - rewrite filter_app. unfold len at 1. rewrite length_app.
    rewrite Nat2Z.inj_add. fold (len (filter p (epoch_events cfg E i st e))).
    fold (len (filter p (loop_events cfg E (i + len (train_loader E e))
                           (epoch_next cfg E st e) es))).
    rewrite count_epoch_events, IH. simpl fold_left.
    rewrite (fold_batches_shift E es (len (train_loader E e))). lia.
Qed.

End Counting.

(** X7.  In a run that does not stop at the early exit, whose checkpoint,
    if any, loads and whose loaders are not empty, the gradients are
    zeroed, the loss is back-propagated and the optimizer steps once per
    batch of every epoch, and the global step counter ends at that
    number. *)
Theorem one_optimizer_step_per_batch (m0 : model) (g : globals) :
  num_epochs cfg <> 0 ->
  loaders_nonempty E (num_epochs cfg) ->
  resumed_model cfg E = Some m0 ->
  len (filter is_zero_grad (trace (main cfg E g)))
  = batches_before E (num_epochs cfg)
  /\ len (filter is_backward (trace (main cfg E g)))
     = batches_before E (num_epochs cfg)
  /\ len (filter is_optimizer_step (trace (main cfg E g)))
     = batches_before E (num_epochs cfg)
  /\ iteration (globals_of (main cfg E g))
     = Some (batches_before E (num_epochs cfg)).
Proof.
  intros Hn Hne Hres. rewrite (main_run cfg E m0 g Hn Hne Hres).
  rewrite trace_triple.
  assert (Hcount : forall p : event -> bool,
             p ModelTrain = false -> p ModelEval = false ->
             p SchedulerStep = false ->
             (forall tag v i, p (AddScalar tag v i) = false) ->
             (forall s sf r, p (Evaluate s sf r) = false) ->
             (forall a b, p (Compare a b) = false) ->
             (forall d, p (WriterOpen d) = false) ->
             filter p (final_events cfg E
                         (locals_after cfg E (start_locals cfg m0)
                            (num_epochs cfg))) = [] ->
             len (filter p [ZeroGrad; Backward; OptimizerStep]) = 1 ->
             len (filter p
                    (resume_events cfg
                     ++ WriterOpen (path_join (out_dir cfg) "Tensorboard_Results")
                        :: loop_events cfg E 0 (start_locals cfg m0)
                             (range (num_epochs cfg))
                        ++ final_events cfg E
                             (locals_after cfg E (start_locals cfg m0)
                                (num_epochs cfg))))
             = batches_before E (num_epochs cfg)).
  { intros p P1 P2 P3 P4 P5 P6 P7 P8 P9.
    rewrite filter_app.
    replace (filter p (resume_events cfg)) with (@nil event).
    2:{ unfold resume_events. destruct (model_path cfg); [| reflexivity].
        unfold eval_events. simpl. rewrite P2, !P5. reflexivity. }
    cbn [app]. simpl filter. rewrite P7, filter_app, P8, app_nil_r.
    rewrite (count_loop_events p P1 P2 P3 P4 P5 P6), P9.
    unfold batches_before. lia. }
  split; [apply Hcount; reflexivity |].
  split; [apply Hcount; reflexivity |].
  split; [apply Hcount; reflexivity |]. reflexivity.
Qed.

(** ** The log dictionary *)

Lemma set_logs_values (d : list (string * Q)) (x y z : metrics) :
  map fst d = train_logs ++ val_logs ++ test_logs ->
  set_logs (set_logs (set_logs d train_logs x) val_logs y) test_logs z
  = [("train_loss", m_loss x); ("train_auc", m_auc x); ("train_acc", m_acc x);
     ("val_loss", m_loss y); ("val_auc", m_auc y); ("val_acc", m_acc y);
     ("test_loss", m_loss z); ("test_auc", m_auc z); ("test_acc", m_acc z)].
Proof.
  intros H.
  do 9 (destruct d as [| [? ?] d]; [discriminate H |]).
  destruct d; [| discriminate H].
  simpl in H. injection H as -> -> -> -> -> -> -> -> ->. reflexivity.
Qed.

Lemma log_dict_epoch_next (st : locals) (epoch : Z) :
  log_dict (epoch_next cfg E st epoch)
  = set_logs
      (set_logs
         (set_logs (log_dict st) train_logs
            (eval_metrics (epoch_model E st epoch) Train
               (train_loader_at_eval E) (run cfg) None))
         val_logs
         (eval_metrics (epoch_model E st epoch) Val (val_loader E)
            (run cfg) None))
      test_logs
      (eval_metrics (epoch_model E st epoch) Test (test_loader E)
         (run cfg) None).
Proof.
  unfold epoch_next. destruct (Qgtb _ (best_auc st)); reflexivity.
Qed.

Lemma log_keys_after (m0 : model) (k : nat) :
  map fst (log_dict (locals_after cfg E (start_locals cfg m0) (Z.of_nat k)))
  = train_logs ++ val_logs ++ test_logs.
Proof.
  induction k as [| k IH]; [reflexivity |].
  rewrite Nat2Z.inj_succ, <- Z.add_1_r, locals_after_succ by lia.
  apply epoch_next_keys, IH.
Qed.

Lemma epoch_scalars_app (t t' : list event) :
  epoch_scalars (t ++ t') = epoch_scalars t ++ epoch_scalars t'.
Proof. apply flat_map_app. Qed.

Lemma epoch_scalars_train_events (l : list batch) :
  forall i mo, epoch_scalars (train_events i mo l) = [].
Proof.
  intros i mo. apply flat_map_none. apply train_events_forall; reflexivity.
Qed.

(** X8.  In every epoch of a run the scalars written to the writer besides
    the loss trace are nine, at the index of the epoch, in this order:
    the loss, the AUC and the accuracy of the evaluation of the train
    split, then those of val, then those of test.  The scalar
    'train_loss' is the loss of that evaluation: the mean loss that the
    training step returned is not written.  The log dictionary keeps its
    nine keys. *)
Theorem epoch_writes_nine_scalars (m0 : model) (k : Z) (g : globals) (i : Z) :
  0 <= k ->
  train_loader E k <> [] ->
  train_loader_at_eval E <> [] ->
  val_loader E <> [] ->
  test_loader E <> [] ->
  iteration g = Some i ->
  let st := locals_after cfg E (start_locals cfg m0) k in
  let m := epoch_model E st k in
  let tm := eval_metrics m Train (train_loader_at_eval E) (run cfg) None in
  let vm := eval_metrics m Val (val_loader E) (run cfg) None in
  let sm := eval_metrics m Test (test_loader E) (run cfg) None in
  epoch_scalars (trace (epoch_body cfg E st k g))
  = [("train_loss", m_loss tm, k); ("train_auc", m_auc tm, k);
     ("train_acc", m_acc tm, k);
     ("val_loss", m_loss vm, k); ("val_auc", m_auc vm, k);
     ("val_acc", m_acc vm, k);
     ("test_loss", m_loss sm, k); ("test_auc", m_auc sm, k);
     ("test_acc", m_acc sm, k)]
  /\ map fst (log_dict (locals_after cfg E (start_locals cfg m0) (k + 1)))
     = ["train_loss"; "train_auc"; "train_acc"; "val_loss"; "val_auc";
        "val_acc"; "test_loss"; "test_auc"; "test_acc"].
Proof.
  intros Hk Htr Hte Hv Hts Hi st m tm vm sm.
  assert (Hkeys : map fst (log_dict st) = train_logs ++ val_logs ++ test_logs).
  { subst st. rewrite <- (Z2Nat.id k) by lia. apply log_keys_after. }
  split.
  - rewrite (epoch_body_run cfg E st k g i Htr Hte Hv Hts Hi), trace_triple.
    unfold epoch_events.
    change (epoch_scalars (ModelTrain :: ?t)) with (epoch_scalars t).
    rewrite !epoch_scalars_app, epoch_scalars_train_events.
    change (epoch_scalars (SchedulerStep :: ?t)) with (epoch_scalars t).
    rewrite epoch_scalars_app, log_dict_epoch_next.
    rewrite (set_logs_values _ _ _ _ Hkeys). reflexivity.
  - rewrite locals_after_succ by exact Hk.
    apply (epoch_next_keys cfg E _ k Hkeys).
Qed.

(** ** The best locals across the epochs *)

(** X9.  Across the epochs the best AUC never decreases and the best epoch
    never goes back; the best epoch is an epoch that has run, or 0 when
    none has; and the best AUC is never below 0. *)
Theorem best_auc_and_epoch_never_decrease (m0 : model) (k : Z) :
  0 <= k ->
  let after := locals_after cfg E (start_locals cfg m0) in
  Qle (best_auc (after k)) (best_auc (after (k + 1)))
  /\ best_epoch (after k) <= best_epoch (after (k + 1))
  /\ 0 <= best_epoch (after k) <= Z.max 0 (k - 1)
  /\ (0 <= best_auc (after k))%Q
  /\ forall g i,
       loaders_nonempty E k ->
       iteration g = Some i ->
       outcome (for_each (epoch_body cfg E) (range k) (start_locals cfg m0) g)
       = Ok (after k).
Proof.
  intros Hk after.
  assert (Hrun : forall g i,
             loaders_nonempty E k ->
             iteration g = Some i ->
             outcome (for_each (epoch_body cfg E) (range k)
                        (start_locals cfg m0) g)
             = Ok (after k)).
  { intros g i [Htr [Hte [Hv Hts]]] Hi.
    rewrite (loop_run cfg E (range k) (start_locals cfg m0) g i);
      try assumption; [reflexivity |].
    intros e He. apply Htr, in_range, He. }
  assert (Hinv : forall n : nat,
             0 <= best_epoch (after (Z.of_nat n)) <= Z.max 0 (Z.of_nat n - 1)
             /\ (0 <= best_auc (after (Z.of_nat n)))%Q).
  { induction n as [| n IH].
    - simpl. split; [lia | lra].
    - rewrite Nat2Z.inj_succ, <- Z.add_1_r.
      pose proof (checkpoint_check cfg E m0 (Z.of_nat n) ltac:(lia)) as Hck.
      fold after in Hck.
      destruct (Qgtb (val_auc_at cfg E m0 (Z.of_nat n))
                     (best_auc (after (Z.of_nat n)))) eqn:Hgt.
      + apply Qgtb_true in Hgt. destruct Hck as [Ha [He _]].
        rewrite Ha, He. split; [lia | lra].
      + destruct Hck as [Ha [He _]]. rewrite Ha, He. split; [lia | tauto]. }
  pose proof (Hinv (Z.to_nat k)) as Hk'. rewrite Z2Nat.id in Hk' by lia.
  pose proof (checkpoint_check cfg E m0 k Hk) as Hck. fold after in Hck.
  destruct (Qgtb (val_auc_at cfg E m0 k) (best_auc (after k))) eqn:Hgt.
  - apply Qgtb_true in Hgt. destruct Hck as [Ha [He _]].
    rewrite Ha, He.
    split; [lra |]. split; [lia |]. split; [tauto |]. split; [tauto |].
    exact Hrun.
  - destruct Hck as [Ha [He _]]. rewrite Ha, He.
    split; [lra |]. split; [lia |]. split; [tauto |]. split; [tauto |].
    exact Hrun.
Qed.

(** ** What is reported and where *)

(** X10.  A run that does not stop at the early exit, whose checkpoint, if
    any, loads and whose loaders are not empty appends to the log file,
    once, the AUC and the accuracy of the best snapshot on the three
    splits, evaluated with the output directory as save folder. *)
Theorem log_reports_best_snapshot (m0 : model) (g : globals) :
  num_epochs cfg <> 0 ->
  loaders_nonempty E (num_epochs cfg) ->
  resumed_model cfg E = Some m0 ->
  let best :=
    best_model (locals_after cfg E (start_locals cfg m0) (num_epochs cfg)) in
  filter is_append_log (trace (main cfg E g))
  = [AppendLog (path_join (out_dir cfg) (data_flag cfg ++ "_log.txt")%string)
       (data_flag cfg)
       (auc_acc (eval_metrics best Train (train_loader_at_eval E) (run cfg)
                   (Some (out_dir cfg))))
       (auc_acc (eval_metrics best Val (val_loader E) (run cfg)
                   (Some (out_dir cfg))))
       (auc_acc (eval_metrics best Test (test_loader E) (run cfg)
                   (Some (out_dir cfg))))].
Proof.
  intros Hn Hne Hres best.
  pose proof (training_loop_emits cfg E (start_locals cfg m0)
                {| iteration := Some 0 |}) as Hloop.
  rewrite (training_loop_run cfg E (start_locals cfg m0)
             {| iteration := Some 0 |} 0 Hne eq_refl) in Hloop.
  rewrite trace_triple in Hloop.
  assert (F2 : filter is_append_log
                 (loop_events cfg E 0 (start_locals cfg m0)
                    (range (num_epochs cfg))) = []) by quiet Hloop.
  rewrite (main_run cfg E m0 g Hn Hne Hres), trace_triple.
  rewrite filter_app.
  replace (filter is_append_log (resume_events cfg)) with (@nil event)
    by (unfold resume_events; destruct (model_path cfg); reflexivity).
  cbn [app].
  change (filter is_append_log (WriterOpen ?d :: ?t))
    with (filter is_append_log t).
  rewrite filter_app, F2. reflexivity.
Qed.

Lemma prefix_app (a b : string) : String.prefix a (a ++ b)%string = true.
Proof.
  induction a as [| c a IH]; cbn [String.prefix String.append];
    [destruct b; reflexivity |].
  destruct (ascii_dec c c) as [_ | Hc]; [exact IH | contradiction].
Qed.

Lemma prefix_slash_cons (c : ascii) (a : string) :
  String.prefix "/" (String c a)
  = if ascii_dec "/"%char c then true else false.
Proof.
  cbn [String.prefix]. destruct (ascii_dec "/"%char c); [| reflexivity].
  destruct a; reflexivity.
Qed.

Lemma prefix_slash_log (a : string) :
  String.prefix "/" (a ++ "_log.txt")%string = String.prefix "/" a.
Proof.
  destruct a as [| c a]; [reflexivity |].
  cbn [String.append]. rewrite !prefix_slash_cons. reflexivity.
Qed.

Lemma length_snoc (a : string) (c : ascii) :
  String.length (a ++ String c "")%string = S (String.length a).
Proof.
  induction a as [| x a IH]; cbn [String.append String.length];
    [| rewrite IH]; reflexivity.
Qed.

Lemma get_last (a : string) (c : ascii) :
  String.get (String.length (a ++ String c "")%string - 1)%nat
             (a ++ String c "")%string
  = Some c.
Proof.
  induction a as [| x a IH]; [reflexivity |].
  cbn [String.append String.length]. rewrite length_snoc in *.
  cbn [Nat.sub] in *. rewrite Nat.sub_0_r in IH.
  cbn [String.get]. exact IH.
Qed.

Lemma snoc_cases (a : string) :
  a = "" \/ exists a' c, a = (a' ++ String c "")%string.
Proof.
  induction a as [| x a IH]; [left; reflexivity | right].
  destruct IH as [-> | [a' [c ->]]].
  - exists "", x. reflexivity.
  - exists (String x a'), c. reflexivity.
Qed.

(** [a.endswith('/')]. *)
Lemma endswith_sep_spec (a : string) :
  endswith_sep a = true <-> exists d, a = (d ++ "/")%string.
Proof.
  unfold endswith_sep. split.
  - destruct (snoc_cases a) as [-> | [a' [c ->]]]; [discriminate |].
    rewrite get_last. intros H. apply Ascii.eqb_eq in H. subst c.
    exists a'. reflexivity.
  - intros [d ->]. rewrite get_last. apply Ascii.eqb_refl.
Qed.

(** [os.path.join] of a directory and a relative name: the separator is
    left out exactly when the directory is empty or ends with one. *)
Lemma path_join_separator (a : string) :
  exists sep,
    (sep = "" /\ (a = "" \/ exists d, a = (d ++ "/")%string)
     \/ sep = "/" /\ a <> "" /\ forall d, a <> (d ++ "/")%string)
    /\ forall b,
         path_join a b
         = if String.prefix "/" b then b else (a ++ sep ++ b)%string.
Proof.
  unfold path_join.
  destruct ((String.length a =? 0)%nat || endswith_sep a)%bool eqn:Hc.
  - exists "". split; [left; split; [reflexivity |] | intros b; reflexivity].
    apply orb_true_iff in Hc. destruct Hc as [H0 | He].
    + left. apply Nat.eqb_eq in H0. destruct a; [reflexivity | discriminate].
    + right. apply endswith_sep_spec, He.
  - exists "/". split; [right; split; [reflexivity |] | intros b; reflexivity].
    apply orb_false_iff in Hc. destruct Hc as [H0 He]. split.
    + intros ->. discriminate.
    + intros d Hd.
      assert (Ht : endswith_sep a = true)
        by (apply endswith_sep_spec; exists d; exact Hd).
      rewrite Ht in He. discriminate.
Qed.

(** X11.  The checkpoint and the directory of the writer are always inside
    the output directory of the run: their paths are the output directory,
    a slash exactly when the directory is neither empty nor ends with one,
    and the name.  The log file has a path of the same form when the data
    flag does not start with a slash, and is the data flag followed by
    '_log.txt' when it does.  These are the paths that every run of [main]
    hands to the writer, to [torch.save] and to [open]. *)
Theorem artefacts_are_in_output_directory :
  exists sep,
    (sep = "" /\ (out_dir cfg = ""
                  \/ exists d, out_dir cfg = (d ++ "/")%string)
     \/ sep = "/" /\ out_dir cfg <> ""
        /\ forall d, out_dir cfg <> (d ++ "/")%string)
    /\ path_join (out_dir cfg) "best_model.pth"
       = (out_dir cfg ++ sep ++ "best_model.pth")%string
    /\ path_join (out_dir cfg) "Tensorboard_Results"
       = (out_dir cfg ++ sep ++ "Tensorboard_Results")%string
    /\ path_join (out_dir cfg) (data_flag cfg ++ "_log.txt")%string
       = (if String.prefix "/" (data_flag cfg)
          then (data_flag cfg ++ "_log.txt")%string
          else (out_dir cfg ++ sep ++ data_flag cfg ++ "_log.txt")%string)
    /\ String.prefix (out_dir cfg) (path_join (out_dir cfg) "best_model.pth")
       = true
    /\ String.prefix (out_dir cfg)
         (path_join (out_dir cfg) "Tensorboard_Results") = true
    /\ (String.prefix "/" (data_flag cfg) = true
        \/ String.prefix (out_dir cfg)
             (path_join (out_dir cfg) (data_flag cfg ++ "_log.txt")%string)
           = true)
    /\ emits (artefact_event cfg sep) (main cfg E).
Proof.
  destruct (path_join_separator (out_dir cfg)) as [sep [Hsep Hjoin]].
  exists sep. split; [exact Hsep |].
  assert (Hs : path_join (out_dir cfg) "best_model.pth"
               = (out_dir cfg ++ sep ++ "best_model.pth")%string)
    by (rewrite Hjoin; reflexivity).
  assert (Hw : path_join (out_dir cfg) "Tensorboard_Results"
               = (out_dir cfg ++ sep ++ "Tensorboard_Results")%string)
    by (rewrite Hjoin; reflexivity).
  assert (Hl : path_join (out_dir cfg) (data_flag cfg ++ "_log.txt")%string
               = (if String.prefix "/" (data_flag cfg)
                  then (data_flag cfg ++ "_log.txt")%string
                  else (out_dir cfg ++ sep ++ data_flag cfg
                        ++ "_log.txt")%string))
    by (rewrite Hjoin, prefix_slash_log; reflexivity).
  split; [exact Hs |]. split; [exact Hw |]. split; [exact Hl |].
  split; [rewrite Hs; apply prefix_app |].
  split; [rewrite Hw; apply prefix_app |].
  split.
  { rewrite Hl. destruct (String.prefix "/" (data_flag cfg));
      [left; reflexivity | right; apply prefix_app]. }
  unfold main. apply emits_bind.
  { apply (emits_weaken (eval_event (out_dir cfg)));
      [| apply resume_eval_emits].
    intros e He. destruct e; simpl in *; try contradiction; exact I. }
  intros m. destruct (num_epochs cfg =? 0); [apply emits_ret |].
  apply emits_bind.
  { unfold init_locals.
    apply emits_bind; [apply emits_emit; exact Hw |]. intros _.
    apply emits_bind; [apply emits_set_iteration |]. intros _.
    apply emits_ret. }
  intros st. apply emits_bind.
  { apply (emits_weaken loop_event); [| apply training_loop_emits].
    intros e He. destruct e; simpl in *; try contradiction; exact I. }
  intros st'. unfold persist_and_final_eval.
  apply emits_bind; [apply emits_emit; exact Hs |]. intros _.
  apply emits_bind; [apply emits_test; exact I |]. intros [train_metrics m1].
  apply emits_bind; [apply emits_test; exact I |]. intros [val_metrics m2].
  apply emits_bind; [apply emits_test; exact I |]. intros [test_metrics m3].
  apply emits_bind; [apply emits_emit; exact Hl |]. intros _.
  apply emits_emit. exact I.
Qed.

(** ** The learning rate for other epoch counts *)

Lemma Qeq_bool_half (e n : Z) :
  Qeq_bool (inject_Z e) ((1 # 2) * inject_Z n) = (2 * e =? n).
Proof.
  destruct (Z.eqb_spec (2 * e) n) as [H | H].
  - apply Qeq_bool_iff. unfold Qeq, Qmult, inject_Z. cbn [Qnum Qden].
    change (Z.pos (2 * 1)) with 2. lia.
  - destruct (Qeq_bool (inject_Z e) ((1 # 2) * inject_Z n)) eqn:Hq;
      [| reflexivity].
    apply Qeq_bool_iff in Hq. unfold Qeq, Qmult, inject_Z in Hq.
    cbn [Qnum Qden] in Hq. change (Z.pos (2 * 1)) with 2 in Hq. lia.
Qed.

Lemma Qeq_bool_three_quarters (e n : Z) :
  Qeq_bool (inject_Z e) ((3 # 4) * inject_Z n) = (4 * e =? 3 * n).
Proof.
  destruct (Z.eqb_spec (4 * e) (3 * n)) as [H | H].
  - apply Qeq_bool_iff. unfold Qeq, Qmult, inject_Z. cbn [Qnum Qden].
    change (Z.pos (4 * 1)) with 4. lia.
  - destruct (Qeq_bool (inject_Z e) ((3 # 4) * inject_Z n)) eqn:Hq;
      [| reflexivity].
    apply Qeq_bool_iff in Hq. unfold Qeq, Qmult, inject_Z in Hq.
    cbn [Qnum Qden] in Hq. change (Z.pos (4 * 1)) with 4 in Hq. lia.
Qed.

Lemma milestone_count_quarters (s : scheduler) (e q : Z) :
  1 <= q ->
  milestones s = [((1 # 2) * inject_Z (4 * q))%Q;
                  ((3 # 4) * inject_Z (4 * q))%Q] ->
  milestone_count s e = if (e =? 2 * q) || (e =? 3 * q) then 1%nat else 0%nat.
Proof.
  intros Hq Hm. unfold milestone_count. rewrite Hm. cbn [filter].
  rewrite Qeq_bool_half, Qeq_bool_three_quarters.
  destruct (Z.eqb_spec (2 * e) (4 * q)), (Z.eqb_spec (4 * e) (3 * (4 * q))),
    (Z.eqb_spec e (2 * q)), (Z.eqb_spec e (3 * q));
    try lia; reflexivity.
Qed.

(** X12.  For an epoch count that is a multiple of four, on loaders that
    are not empty, the two milestones are whole epochs.  The locals of
    [main] after [k] passes of its loop, from the locals of lines 120-140:
    the pass of epoch [k] leaves the learning rate multiplied by 0.1 when
    it moves the counter of the scheduler to half or to three quarters of
    the epoch count and as it was otherwise, so that the first half of the
    epochs trains at the configured rate, the third quarter at a tenth of
    it and the last quarter at a hundredth; [main] is the resume
    evaluation, these passes and lines 172-194. *)
Theorem lr_schedule_for_multiples_of_four
  (m0 : model) (q : Z) (g : globals) :
  1 <= q ->
  num_epochs cfg = 4 * q ->
  loaders_nonempty E (4 * q) ->
  (forall k,
      0 <= k < 4 * q ->
      exists st st',
        outcome (first_epochs cfg E m0 k g) = Ok st
        /\ outcome (first_epochs cfg E m0 (k + 1) g) = Ok st'
        /\ lr (the_optimizer st')
           = if (k + 1 =? 2 * q) || (k + 1 =? 3 * q)
             then Qmult (lr (the_optimizer st)) (1 # 10)
             else lr (the_optimizer st))
  /\ (forall k,
        0 <= k <= 4 * q ->
        exists st,
          outcome (first_epochs cfg E m0 k g) = Ok st
          /\ lr (the_optimizer st)
             = if k <? 2 * q then initial_lr cfg
               else if k <? 3 * q then Qmult (initial_lr cfg) (1 # 10)
                    else Qmult (Qmult (initial_lr cfg) (1 # 10)) (1 # 10))
  /\ main cfg E g
     = (m <- resume_eval cfg E ;;
        st <- first_epochs cfg E m (4 * q) ;;
        persist_and_final_eval cfg E st) g.
Proof.
  intros Hq Hn [Htr [Hte [Hv Hts]]].
  set (rate k :=
         lr (the_optimizer (locals_after cfg E (start_locals cfg m0) k))).
  assert (Hrun : forall k,
             0 <= k <= 4 * q ->
             outcome (first_epochs cfg E m0 k g)
             = Ok (locals_after cfg E (start_locals cfg m0) k)).
  { intros k Hk. rewrite first_epochs_run; try assumption; [reflexivity |].
    intros e He. apply Htr. lia. }
  assert (Hstep : forall k,
             0 <= k < 4 * q ->
             rate (k + 1)
             = if (k + 1 =? 2 * q) || (k + 1 =? 3 * q)
               then Qmult (rate k) (1 # 10)
               else rate k).
  { intros k Hk. unfold rate. rewrite lr_after_succ by lia.
    rewrite (milestone_count_quarters _ (k + 1) q Hq)
      by (simpl; unfold initial_milestones; rewrite Hn; reflexivity).
    destruct ((k + 1 =? 2 * q) || (k + 1 =? 3 * q)); reflexivity. }
  split; [| split].
  - intros k Hk.
    exists (locals_after cfg E (start_locals cfg m0) k),
           (locals_after cfg E (start_locals cfg m0) (k + 1)).
    split; [apply Hrun; lia |]. split; [apply Hrun; lia |].
    apply Hstep, Hk.
  - assert (Hnat : forall n : nat,
               Z.of_nat n <= 4 * q ->
               rate (Z.of_nat n)
               = if Z.of_nat n <? 2 * q then initial_lr cfg
                 else if Z.of_nat n <? 3 * q
                      then Qmult (initial_lr cfg) (1 # 10)
                      else Qmult (Qmult (initial_lr cfg) (1 # 10)) (1 # 10)).
    { induction n as [| n IH]; intros Hle.
      - destruct (Z.ltb_spec (Z.of_nat 0) (2 * q)); [reflexivity | lia].
      - rewrite Nat2Z.inj_succ, <- Z.add_1_r in *.
        rewrite Hstep by lia. rewrite IH by lia.
        destruct (Z.eqb_spec (Z.of_nat n + 1) (2 * q)),
          (Z.eqb_spec (Z.of_nat n + 1) (3 * q)),
          (Z.ltb_spec (Z.of_nat n) (2 * q)),
          (Z.ltb_spec (Z.of_nat n) (3 * q)),
          (Z.ltb_spec (Z.of_nat n + 1) (2 * q)),
          (Z.ltb_spec (Z.of_nat n + 1) (3 * q));
          simpl orb; try lia; reflexivity. }
    intros k Hk.
    exists (locals_after cfg E (start_locals cfg m0) k).
    split; [apply Hrun; exact Hk |].
    fold (rate k). rewrite <- (Z2Nat.id k) by lia. apply Hnat. lia.
  - rewrite <- Hn. apply main_first_epochs. lia.
Qed.

End MoreRun.

End More.

(** * Lines 22-104: the setup *)

Section SetupFacts.

Context {T : Torch} {F : Factory}.

(** ** Splitting at commas *)

Lemma split_on_nonempty (sep : ascii) (s : string) : split_on sep s <> [].
Proof.
  destruct s as [| c s]; simpl; [discriminate |].
  destruct (Ascii.eqb c sep); [discriminate |].
  destruct (split_on sep s); discriminate.
Qed.

Lemma concat_cons_cons (sep h x : string) (t : list string) :
  String.concat sep (h :: x :: t)
  = (h ++ sep ++ String.concat sep (x :: t))%string.
Proof. reflexivity. Qed.

(** X13.  Splitting a string at its commas gives at least one piece, no
    piece contains a comma, and joining the pieces with commas gives the
    string back. *)
Theorem split_on_comma_round_trip (s : string) :
  split_on ","%char s <> []
  /\ Forall (fun piece => has_char ","%char piece = false)
            (split_on ","%char s)
  /\ String.concat "," (split_on ","%char s) = s.
Proof.
  split; [apply split_on_nonempty |].
  induction s as [| c s [IH1 IH2]].
  - split; [repeat constructor | reflexivity].
  - cbn [split_on].
    pose proof (split_on_nonempty ","%char s) as Hne.
    destruct (split_on ","%char s) as [| p ps]; [contradiction |].
    destruct (Ascii.eqb c ","%char) eqn:Hc.
    + apply Ascii.eqb_eq in Hc. subst c. split.
      * constructor; [reflexivity | exact IH1].
      * rewrite concat_cons_cons, IH2. reflexivity.
    + apply Forall_cons_iff in IH1 as [Hp Hps]. split.
      * constructor; [| exact Hps]. cbn [has_char]. rewrite Hc. exact Hp.
      * destruct ps as [| p' ps].
        -- cbn [String.concat] in *. rewrite IH2. reflexivity.
        -- rewrite concat_cons_cons in *. rewrite <- IH2. reflexivity.
Qed.

(** ** The device *)

Lemma collect_gpu_ids_spec (l : list string) :
  forall acc,
    collect_gpu_ids l acc
    = match int_all l with
      | Some ids => Built (acc ++ filter (Z.leb 0) ids)
      | None => Failed ValueError
      end.
Proof.
  induction l as [| s l IH]; intros acc; cbn [collect_gpu_ids int_all].
  - rewrite app_nil_r. reflexivity.
  - destruct (py_int s) as [id |]; [| reflexivity].
    destruct (0 <=? id) eqn:Hid; rewrite IH;
      destruct (int_all l) as [ids |]; try reflexivity;
      cbn [filter]; rewrite Hid; [rewrite <- app_assoc |]; reflexivity.
Qed.

Lemma parse_gpu_ids_spec (s : string) :
  parse_gpu_ids s
  = match int_all (split_on ","%char s) with
    | Some ids => Built (filter (Z.leb 0) ids)
    | None => Failed ValueError
    end.
Proof. unfold parse_gpu_ids. rewrite collect_gpu_ids_spec. reflexivity. Qed.

(** X14.  The device ids that lines 36-41 keep are the pieces of the
    comma-separated argument, read as integers, that are not negative, in
    their order; and one piece that is not an integer raises [ValueError],
    also when it comes after the id that would have been used. *)
Theorem gpu_ids_are_the_nonnegative_ids (s : string) :
  parse_gpu_ids s
  = match int_all (split_on ","%char s) with
    | Some ids => Built (filter (Z.leb 0) ids)
    | None => Failed ValueError
    end
  /\ forall ids,
       parse_gpu_ids s = Built ids -> Forall (fun id => 0 <= id) ids.
Proof.
  rewrite parse_gpu_ids_spec. split; [reflexivity |].
  destruct (int_all (split_on ","%char s)) as [all |]; [| discriminate].
  intros ids H. injection H as <-. apply Forall_forall. intros id Hin.
  apply filter_In in Hin as [_ Hle]. lia.
Qed.

(** ** The whole of the setup *)

Lemma build_backbone_known (flag : string) (c k : Z) :
  known_backbone flag -> exists p, build_backbone flag c k = (Built p, []).
Proof.
  intros [-> | [-> | ->]]; eexists; reflexivity.
Qed.

Lemma build_backbone_unknown (flag : string) (c k : Z) :
  ~ known_backbone flag ->
  build_backbone flag c k = (Failed NotImplementedError, []).
Proof.
  intros H. unfold build_backbone, known_backbone in *.
  destruct (String.eqb_spec flag "resnet18"); [tauto |].
  destruct (String.eqb_spec flag "resnet50"); [tauto |].
  destruct (String.eqb_spec flag "vit3d"); [tauto |]. reflexivity.
Qed.

Lemma build_backbone_cases (flag : string) (c k : Z) :
  (known_backbone flag /\ exists p, build_backbone flag c k = (Built p, []))
  \/ (~ known_backbone flag
      /\ build_backbone flag c k = (Failed NotImplementedError, [])).
Proof.
  unfold build_backbone, known_backbone.
  destruct (String.eqb_spec flag "resnet18");
    [left; split; [tauto | eexists; reflexivity] |].
  destruct (String.eqb_spec flag "resnet50");
    [left; split; [tauto | eexists; reflexivity] |].
  destruct (String.eqb_spec flag "vit3d");
    [left; split; [tauto | eexists; reflexivity] |].
  right. split; [tauto | reflexivity].
Qed.

(** The setup, once the table, the class and the ids are known. *)
Lemma setup_unfold (st : settings) (i : info) (c : DataClass) (ids : list Z) :
  INFO (data_flag (base st)) = Some i ->
  getattr_medmnist (python_class i) = Some c ->
  int_all (split_on ","%char (gpu_ids st)) = Some ids ->
  setup st
  = match build_backbone (model_flag (base st)) (channels st i) (classes i) with
    | (Built p, _) =>
        (Built
           (device_of ids,
            {| train_loader :=
                 shuffling_loader
                   (new_dataset c Train (train_mul st) (download st)
                      (as_rgb st) (size st)) (batch_size st);
               train_loader_at_eval :=
                 loader (new_dataset c Train (eval_mul st) (download st)
                           (as_rgb st) (size st)) (batch_size st);
               val_loader :=
                 loader (new_dataset c Val (eval_mul st) (download st)
                           (as_rgb st) (size st)) (batch_size st);
               test_loader :=
                 loader (new_dataset c Test (eval_mul st) (download st)
                           (as_rgb st) (size st)) (batch_size st);
               built_model :=
                 {| params := to_device (convert st p) (device_of ids);
                    training := true |} |}),
         before_backbone st ids
         ++ [NewEvaluator (data_flag (base st)) Train (size st);
             NewEvaluator (data_flag (base st)) Val (size st);
             NewEvaluator (data_flag (base st)) Test (size st)])
    | (Failed e, _) => (Failed e, before_backbone st ids)
    end.
Proof.
  intros Hi Hc Hids. unfold setup, lookup_info, lookup_class.
  rewrite Hi. cbn [sbind sret]. rewrite Hc. cbn [sbind sret].
  rewrite parse_gpu_ids_spec, Hids.
  unfold before_backbone, device_of, select_device, make_output_dir.
  destruct (build_backbone_cases (model_flag (base st)) (channels st i)
              (classes i)) as [[_ [p Hp]] | [_ Hp]]; rewrite Hp;
    destruct (filter (Z.leb 0) ids) as [| id rest];
    destruct (path_exists (out_dir (base st))); reflexivity.
Qed.

(** X15.  The setup builds what the rest of [main] works on only when the
    data flag is in the table of datasets, its class exists, every piece
    of the device argument is an integer and the model flag is one of the
    three backbones: each of the four is needed to get past lines 28, 33,
    39 and 85. *)
Theorem setup_returns_only_if_configuration_is_known
  (st : settings) (x : device * env) (t : list setup_event) :
  setup st = (Built x, t) ->
  exists i c ids,
    INFO (data_flag (base st)) = Some i
    /\ getattr_medmnist (python_class i) = Some c
    /\ int_all (split_on ","%char (gpu_ids st)) = Some ids
    /\ known_backbone (model_flag (base st)).
Proof.
  intros H.
  destruct (INFO (data_flag (base st))) as [i |] eqn:Hi.
  2:{ unfold setup, lookup_info in H. rewrite Hi in H. discriminate. }
  destruct (getattr_medmnist (python_class i)) as [c |] eqn:Hc.
  2:{ unfold setup, lookup_info, lookup_class in H. rewrite Hi in H.
      cbn [sbind sret] in H. rewrite Hc in H. discriminate. }
  destruct (int_all (split_on ","%char (gpu_ids st))) as [ids |] eqn:Hids.
  2:{ unfold setup, lookup_info, lookup_class in H. rewrite Hi in H.
      cbn [sbind sret] in H. rewrite Hc in H. cbn [sbind sret] in H.
      rewrite parse_gpu_ids_spec, Hids in H. discriminate. }
  exists i, c, ids.
  split; [first [reflexivity | assumption] |].
  split; [first [reflexivity | assumption] |].
  split; [first [reflexivity | assumption] |].
  rewrite (setup_unfold st i c ids Hi Hc Hids) in H.
  destruct (build_backbone_cases (model_flag (base st)) (channels st i)
              (classes i)) as [[Hk _] | [_ Hp]]; [exact Hk |].
  rewrite Hp in H. discriminate.
Qed.

(** X16.  A data flag that is not in the table raises [KeyError], a
    dataset class that medmnist does not have raises [AttributeError] and
    a device id that is not an integer raises [ValueError], in this order
    of precedence and each before anything is done: no environment
    variable set, no directory made, no dataset built. *)
Theorem configuration_errors_before_any_effect (st : settings) :
  (INFO (data_flag (base st)) = None -> setup st = (Failed KeyError, []))
  /\ (forall i,
        INFO (data_flag (base st)) = Some i ->
        getattr_medmnist (python_class i) = None ->
        setup st = (Failed AttributeError, []))
  /\ (forall i c,
        INFO (data_flag (base st)) = Some i ->
        getattr_medmnist (python_class i) = Some c ->
        int_all (split_on ","%char (gpu_ids st)) = None ->
        setup st = (Failed ValueError, [])).
Proof.
  unfold setup, lookup_info, lookup_class. split; [| split].
  - intros Hi. rewrite Hi. reflexivity.
  - intros i Hi Hc. rewrite Hi. cbn [sbind sret]. rewrite Hc. reflexivity.
  - intros i c Hi Hc Hids. rewrite Hi. cbn [sbind sret]. rewrite Hc.
    cbn [sbind sret]. rewrite parse_gpu_ids_spec, Hids. reflexivity.
Qed.

(** X17.  A model flag that is none of the three backbones raises
    [NotImplementedError] only after the device was selected, the output
    directory made if it did not exist and the four datasets built; no
    evaluator is made. *)
Theorem unknown_backbone_fails_after_datasets
  (st : settings) (i : info) (c : DataClass) (ids : list Z) :
  INFO (data_flag (base st)) = Some i ->
  getattr_medmnist (python_class i) = Some c ->
  int_all (split_on ","%char (gpu_ids st)) = Some ids ->
  ~ known_backbone (model_flag (base st)) ->
  setup st = (Failed NotImplementedError, before_backbone st ids)
  /\ List.length (filter is_new_dataset (before_backbone st ids)) = 4%nat
  /\ filter is_new_evaluator (before_backbone st ids) = []
  /\ (path_exists (out_dir (base st)) = false ->
      In (MakeDirs (out_dir (base st))) (before_backbone st ids)).
Proof.
  intros Hi Hc Hids Hk.
  rewrite (setup_unfold st i c ids Hi Hc Hids).
  rewrite (build_backbone_unknown _ _ _ Hk).
  split; [reflexivity |].
  unfold before_backbone, select_device, make_output_dir.
  destruct (filter (Z.leb 0) ids) as [| id rest];
    destruct (path_exists (out_dir (base st)));
    repeat split; try discriminate; intros _; simpl; auto.
Qed.

(** X18.  When the setup returns, the device is the CUDA device of the
    first id that is not negative, which is also the id exported to
    CUDA_VISIBLE_DEVICES, as the first thing done; when every id is
    negative the device is the CPU and nothing is exported. *)
Theorem device_is_first_nonnegative_id
  (st : settings) (i : info) (c : DataClass) (ids : list Z) :
  INFO (data_flag (base st)) = Some i ->
  getattr_medmnist (python_class i) = Some c ->
  int_all (split_on ","%char (gpu_ids st)) = Some ids ->
  known_backbone (model_flag (base st)) ->
  match filter (Z.leb 0) ids with
  | id :: _ =>
      0 <= id
      /\ exists E t,
           setup st = (Built (Cuda id, E), SetCudaVisibleDevices id :: t)
           /\ forall id', ~ In (SetCudaVisibleDevices id') t
  | [] =>
      Forall (fun id => id < 0) ids
      /\ exists E t,
           setup st = (Built (Cpu, E), t)
           /\ forall id', ~ In (SetCudaVisibleDevices id') t
  end.
Proof.
  intros Hi Hc Hids Hk.
  rewrite (setup_unfold st i c ids Hi Hc Hids).
  destruct (build_backbone_known _ (channels st i) (classes i) Hk) as [p Hp].
  rewrite Hp. unfold before_backbone, device_of, select_device, make_output_dir.
  destruct (filter (Z.leb 0) ids) as [| id rest] eqn:Hf.
  - split.
    + apply Forall_forall. intros id Hin.
      destruct (Z.leb_spec 0 id) as [Hle | Hlt]; [| exact Hlt].
      assert (Hin' : In id (filter (Z.leb 0) ids))
        by (apply filter_In; split; [exact Hin | apply Z.leb_le, Hle]).
      rewrite Hf in Hin'. contradiction.
    + eexists. eexists. split; [reflexivity |].
      intros id' Hin. destruct (path_exists (out_dir (base st)));
        simpl in Hin; repeat (destruct Hin as [Hin | Hin]; [discriminate |]);
        exact Hin.
  - split.
    + assert (Hin : In id (filter (Z.leb 0) ids))
        by (rewrite Hf; left; reflexivity).
      apply filter_In in Hin as [_ Hle]. apply Z.leb_le, Hle.
    + eexists. eexists. split; [reflexivity |].
      intros id' Hin. destruct (path_exists (out_dir (base st)));
        simpl in Hin; repeat (destruct Hin as [Hin | Hin]; [discriminate |]);
        exact Hin.
Qed.

(** X19.  When the setup returns, the model it hands over is in training
    mode and holds the backbone after at most one conversion, moved to the
    device: the converter named by the conversion mode, with the repeat
    axis -3 for 'Conv3d' only when the pretrained mode is 'i3d'; and for
    any other conversion mode, the backbone as it was built, without an
    error. *)
Theorem model_is_converted_at_most_once
  (st : settings) (i : info) (c : DataClass) (ids : list Z) :
  INFO (data_flag (base st)) = Some i ->
  getattr_medmnist (python_class i) = Some c ->
  int_all (split_on ","%char (gpu_ids st)) = Some ids ->
  known_backbone (model_flag (base st)) ->
  exists p dev E t,
    build_backbone (model_flag (base st)) (channels st i) (classes i)
    = (Built p, [])
    /\ setup st = (Built (dev, E), t)
    /\ training (built_model E) = true
    /\ params (built_model E)
       = to_device
           (if String.eqb (conv st) "ACSConv"
            then model_to_syncbn (ACSConverter p)
            else if String.eqb (conv st) "Conv2_5d"
                 then model_to_syncbn (Conv2_5dConverter p)
                 else if String.eqb (conv st) "Conv3d"
                      then model_to_syncbn
                             (Conv3dConverter p
                                (if String.eqb (pretrained_3d st) "i3d"
                                 then Some (-3) else None))
                      else p)
           dev.
Proof.
  intros Hi Hc Hids Hk.
  destruct (build_backbone_known _ (channels st i) (classes i) Hk) as [p Hp].
  exists p. rewrite (setup_unfold st i c ids Hi Hc Hids), Hp.
  eexists. eexists. eexists. split; [reflexivity |].
  split; [reflexivity |]. split; [reflexivity |].
  cbn [built_model params]. f_equal. unfold convert.
  destruct (String.eqb_spec (conv st) "ACSConv") as [-> | H1]; [reflexivity |].
  destruct (String.eqb_spec (conv st) "Conv2_5d") as [-> | H2]; [reflexivity |].
  destruct (String.eqb (conv st) "Conv3d"); [| reflexivity].
  destruct (String.eqb (pretrained_3d st) "i3d"); reflexivity.
Qed.

End SetupFacts.

(** * The further theorems at the toy network *)

Lemma train_needs_iteration_bound_witness :
  iteration Toy.unbound = None
  /\ train (Toy.loaded Toy.peak_at_one 0) [] (Toy.adam0 Toy.peak_at_one tt)
       Toy.unbound
     = (Raise ZeroDivisionError, Toy.unbound, [ModelTrain]).
Proof.
  split; [reflexivity |].
  exact (proj1 (train_needs_iteration_bound
                  (Toy.loaded Toy.peak_at_one 0) (Toy.adam0 Toy.peak_at_one tt)
                  Toy.unbound eq_refl)).
Defined.

Lemma unloadable_checkpoint_aborts_main_witness :
  resumed_model Toy.missing_config Toy.peak_env = None
  /\ exists path,
       model_path Toy.missing_config = Some path
       /\ main Toy.missing_config Toy.peak_env Toy.unbound
          = (Raise (match @torch_load Toy.peak_at_one path with
                    | None => FileNotFoundError
                    | Some _ => RuntimeError
                    end), Toy.unbound, []).
Proof.
  split; [reflexivity |].
  exact (unloadable_checkpoint_aborts_main
           Toy.missing_config Toy.peak_env Toy.unbound eq_refl).
Defined.

Lemma checkpoint_saved_iff_main_returns_witness :
  1 <= num_epochs Toy.peak_config
  /\ List.length
       (filter is_torch_save
          (trace (main Toy.peak_config Toy.peak_env Toy.unbound)))
     = 1%nat.
Proof.
  assert (H1 : 1 <= num_epochs Toy.peak_config) by (simpl; lia).
  split; [exact H1 |].
  apply (proj1 (checkpoint_saved_iff_main_returns
                  Toy.peak_config Toy.peak_env Toy.unbound H1)).
  vm_compute. reflexivity.
Defined.

Lemma writer_closed_only_when_main_completes_witness :
  outcome (main Toy.peak_config Toy.peak_env Toy.unbound) = Ok tt
  /\ num_epochs Toy.peak_config <> 0
  /\ filter is_writer_close
       (trace (main Toy.peak_config Toy.peak_env Toy.unbound))
     = [WriterClose].
Proof.
  assert (H1 : outcome (main Toy.peak_config Toy.peak_env Toy.unbound) = Ok tt)
    by (vm_compute; reflexivity).
  assert (H2 : num_epochs Toy.peak_config <> 0) by discriminate.
  split; [exact H1 |]. split; [exact H2 |].
  exact (proj1 (proj2 (proj1 (writer_closed_only_when_main_completes
                                Toy.peak_config Toy.peak_env Toy.unbound)
                         H1 H2))).
Defined.

Lemma one_optimizer_step_per_batch_witness :
  num_epochs Toy.peak_config <> 0
  /\ loaders_nonempty Toy.peak_env (num_epochs Toy.peak_config)
  /\ resumed_model Toy.peak_config Toy.peak_env
     = Some (Toy.untrained Toy.peak_at_one 0)
  /\ len (filter is_optimizer_step
            (trace (main Toy.peak_config Toy.peak_env Toy.unbound)))
     = batches_before Toy.peak_env (num_epochs Toy.peak_config).
Proof.
  assert (H1 : num_epochs Toy.peak_config <> 0) by discriminate.
  assert (H2 : loaders_nonempty Toy.peak_env (num_epochs Toy.peak_config))
    by (repeat split; try intros e He; discriminate).
  split; [exact H1 |]. split; [exact H2 |]. split; [reflexivity |].
  exact (proj1 (proj2 (proj2
           (one_optimizer_step_per_batch
              Toy.peak_config Toy.peak_env (Toy.untrained Toy.peak_at_one 0)
              Toy.unbound H1 H2 eq_refl)))).
Defined.

Lemma epoch_writes_nine_scalars_witness :
  0 <= 0
  /\ train_loader Toy.peak_env 0 <> []
  /\ train_loader_at_eval Toy.peak_env <> []
  /\ val_loader Toy.peak_env <> []
  /\ test_loader Toy.peak_env <> []
  /\ iteration (Toy.bound 0) = Some 0
  /\ map fst (log_dict (locals_after Toy.peak_config Toy.peak_env
                          (start_locals Toy.peak_config
                             (Toy.untrained Toy.peak_at_one 0)) (0 + 1)))
     = ["train_loss"; "train_auc"; "train_acc"; "val_loss"; "val_auc";
        "val_acc"; "test_loss"; "test_auc"; "test_acc"].
Proof.
  assert (H0 : 0 <= 0) by lia.
  assert (H1 : train_loader Toy.peak_env 0 <> []) by discriminate.
  assert (H2 : train_loader_at_eval Toy.peak_env <> []) by discriminate.
  assert (H3 : val_loader Toy.peak_env <> []) by discriminate.
  assert (H4 : test_loader Toy.peak_env <> []) by discriminate.
  repeat (split; [first [assumption | reflexivity] |]).
  exact (proj2 (epoch_writes_nine_scalars
                  Toy.peak_config Toy.peak_env (Toy.untrained Toy.peak_at_one 0)
                  0 (Toy.bound 0) 0 H0 H1 H2 H3 H4 eq_refl)).
Defined.

Lemma best_auc_and_epoch_never_decrease_witness :
  0 <= 1
  /\ best_epoch (locals_after Toy.peak_config Toy.peak_env
                   (start_locals Toy.peak_config
                      (Toy.untrained Toy.peak_at_one 0)) 1)
     <= best_epoch (locals_after Toy.peak_config Toy.peak_env
                      (start_locals Toy.peak_config
                         (Toy.untrained Toy.peak_at_one 0)) (1 + 1)).
Proof.
  assert (H0 : 0 <= 1) by lia.
  split; [exact H0 |].
  exact (proj1 (proj2 (best_auc_and_epoch_never_decrease
                         Toy.peak_config Toy.peak_env
                         (Toy.untrained Toy.peak_at_one 0) 1 H0))).
Defined.

Lemma log_reports_best_snapshot_witness :
  num_epochs Toy.peak_config <> 0
  /\ loaders_nonempty Toy.peak_env (num_epochs Toy.peak_config)
  /\ resumed_model Toy.peak_config Toy.peak_env
     = Some (Toy.untrained Toy.peak_at_one 0)
  /\ List.length
       (filter is_append_log
          (trace (main Toy.peak_config Toy.peak_env Toy.unbound)))
     = 1%nat.
Proof.
  assert (H1 : num_epochs Toy.peak_config <> 0) by discriminate.
  assert (H2 : loaders_nonempty Toy.peak_env (num_epochs Toy.peak_config))
    by (repeat split; try intros e He; discriminate).
  split; [exact H1 |]. split; [exact H2 |]. split; [reflexivity |].
  rewrite (log_reports_best_snapshot
             Toy.peak_config Toy.peak_env (Toy.untrained Toy.peak_at_one 0)
             Toy.unbound H1 H2 eq_refl).
  reflexivity.
Defined.

Lemma lr_schedule_for_multiples_of_four_witness :
  1 <= 1
  /\ num_epochs Toy.four_config = 4 * 1
  /\ loaders_nonempty Toy.peak_env (4 * 1)
  /\ exists st,
       outcome (first_epochs Toy.four_config Toy.peak_env
                  (Toy.untrained Toy.peak_at_one 0) 4 Toy.unbound) = Ok st
       /\ lr (the_optimizer st)
          = Qmult (Qmult (initial_lr Toy.four_config) (1 # 10)) (1 # 10).
Proof.
  assert (H1 : 1 <= 1) by lia.
  assert (Hne : loaders_nonempty Toy.peak_env (4 * 1))
    by (repeat split; intros; discriminate).
  split; [exact H1 |]. split; [reflexivity |]. split; [exact Hne |].
  refine (proj1 (proj2 (lr_schedule_for_multiples_of_four
                          Toy.four_config Toy.peak_env
                          (Toy.untrained Toy.peak_at_one 0) 1 Toy.unbound
                          H1 eq_refl Hne))
            4 _).
  lia.
Defined.

Lemma setup_returns_only_if_configuration_is_known_witness :
  exists x t,
    setup (F := Toy.factory) (Toy.options "0" "resnet18" "ACSConv")
    = (Built x, t)
    /\ exists i c ids,
         INFO (Factory := Toy.factory) "organmnist3d" = Some i
         /\ getattr_medmnist (Factory := Toy.factory) (python_class i) = Some c
         /\ int_all (F := Toy.factory) (split_on ","%char "0") = Some ids
         /\ known_backbone "resnet18".
Proof.
  assert (H : exists x t,
             setup (F := Toy.factory) (Toy.options "0" "resnet18" "ACSConv")
             = (Built x, t))
    by (eexists; eexists; vm_compute; reflexivity).
  destruct H as [x [t H]]. exists x, t. split; [exact H |].
  exact (setup_returns_only_if_configuration_is_known
           (F := Toy.factory) (Toy.options "0" "resnet18" "ACSConv") x t H).
Defined.

Lemma configuration_errors_before_any_effect_witness :
  int_all (F := Toy.factory) (split_on ","%char "0,x") = None
  /\ setup (F := Toy.factory) (Toy.options "0,x" "resnet18" "ACSConv")
     = (Failed ValueError, []).
Proof.
  split; [reflexivity |].
  exact (proj2 (proj2 (configuration_errors_before_any_effect
                         (F := Toy.factory)
                         (Toy.options "0,x" "resnet18" "ACSConv")))
           Toy.organ tt eq_refl eq_refl eq_refl).
Defined.

Lemma unknown_backbone_fails_after_datasets_witness :
  INFO (Factory := Toy.factory)
    (data_flag (base (Toy.options "0" "alexnet" "ACSConv")))
  = Some Toy.organ
  /\ getattr_medmnist (Factory := Toy.factory) (python_class Toy.organ)
     = Some tt
  /\ int_all (F := Toy.factory) (split_on ","%char "0") = Some [0]
  /\ ~ known_backbone "alexnet"
  /\ fst (setup (F := Toy.factory) (Toy.options "0" "alexnet" "ACSConv"))
     = Failed NotImplementedError.
Proof.
  assert (H : ~ known_backbone "alexnet")
    by (intros [H | [H | H]]; discriminate H).
  repeat (split; [first [exact H | reflexivity] |]).
  rewrite (proj1 (unknown_backbone_fails_after_datasets
                    (F := Toy.factory) (Toy.options "0" "alexnet" "ACSConv")
                    Toy.organ tt [0] eq_refl eq_refl eq_refl H)).
  reflexivity.
Defined.

Lemma device_is_first_nonnegative_id_witness :
  int_all (F := Toy.factory) (split_on ","%char "-1,1,0") = Some [-1; 1; 0]
  /\ known_backbone "resnet18"
  /\ exists E t,
       setup (F := Toy.factory) (Toy.options "-1,1,0" "resnet18" "ACSConv")
       = (Built (Cuda 1, E), SetCudaVisibleDevices 1 :: t).
Proof.
  assert (H : known_backbone "resnet18") by (left; reflexivity).
  split; [reflexivity |]. split; [exact H |].
  destruct (device_is_first_nonnegative_id
              (F := Toy.factory) (Toy.options "-1,1,0" "resnet18" "ACSConv")
              Toy.organ tt [-1; 1; 0] eq_refl eq_refl eq_refl H)
    as [_ [E [t [Hs _]]]].
  exists E, t. exact Hs.
Defined.

Lemma model_is_converted_at_most_once_witness :
  int_all (F := Toy.factory) (split_on ","%char "0") = Some [0]
  /\ known_backbone "resnet18"
  /\ exists dev E t,
       setup (F := Toy.factory) (Toy.options "0" "resnet18" "acs")
       = (Built (dev, E), t)
       /\ params (built_model E) = 18.
Proof.
  assert (H : known_backbone "resnet18") by (left; reflexivity).
  split; [reflexivity |]. split; [exact H |].
  destruct (model_is_converted_at_most_once
              (F := Toy.factory) (Toy.options "0" "resnet18" "acs")
              Toy.organ tt [0] eq_refl eq_refl eq_refl H)
    as [p [dev [E [t [Hb [Hs [_ Hp]]]]]]].
  exists dev, E, t. split; [exact Hs |].
  rewrite Hp. injection Hb as <-. reflexivity.
Defined.
